(** * LinkFinder-Mod: the CSV and Burp-XML to HAR converters

    A shallow embedding of [convert_csv.py] and [convert_xml.py] and the
    properties of their HTTP message parsing and HAR entry construction.

    Text model.  A Python [str] is a Rocq [string], one [ascii] per
    character: the characters are the code points U+0000 to U+00FF.  On
    that range [str.strip], [str.lower], [str.upper], [str.isdigit],
    [int()] and the UTF-8 length are written out as CPython defines them.
    The library calls whose results lie outside the range or outside the
    program ([base64.b64decode] followed by [bytes.decode], [urlparse],
    [datetime]) are Section variables: every theorem holds whatever they
    return.  [safe_int], whose answer depends on the digits of every
    script, is modelled a second time in [Uni], on texts of any code
    points, and the two models are proved equal on the common range. *)

From Stdlib Require Import String Ascii List ZArith NArith Bool Lia.
Import ListNotations.
Open Scope string_scope.

(* ================================================================= *)
(** ** Python string primitives *)

Module PyStr.

Definition code (c : ascii) : N := N_of_ascii c.

(** [Py_UNICODE_ISSPACE] below U+0100: TAB..CR, FS..US, space, NEL, NBSP. *)
Definition isspace (c : ascii) : bool :=
  let n := code c in
  ((9 <=? n) && (n <=? 13) || (28 <=? n) && (n <=? 32)
   || (n =? 133) || (n =? 160))%N.

Fixpoint lstrip_by (p : ascii -> bool) (s : string) : string :=
  match s with
  | String c s' => if p c then lstrip_by p s' else s
  | EmptyString => EmptyString
  end.

Fixpoint rstrip_by (p : ascii -> bool) (s : string) : string :=
  match s with
  | EmptyString => EmptyString
  | String c s' =>
      match rstrip_by p s' with
      | EmptyString => if p c then EmptyString else String c EmptyString
      | r => String c r
      end
  end.

(** [s.strip()] *)
Definition strip (s : string) : string := rstrip_by isspace (lstrip_by isspace s).

Fixpoint drop (n : nat) (s : string) : string :=
  match n, s with
  | S n', String _ s' => drop n' s'
  | _, _ => s
  end.

(** [s.partition(sep)] when [sep] occurs in [s]: the text before the first
    occurrence and the text after it. *)
Fixpoint split_at (sep s : string) {struct s} : option (string * string) :=
  if prefix sep s then Some (EmptyString, drop (String.length sep) s)
  else match s with
       | EmptyString => None
       | String c s' =>
           match split_at sep s' with
           | Some (a, b) => Some (String c a, b)
           | None => None
           end
       end.

(** [sub in s] *)
Definition contains (sub s : string) : bool :=
  match split_at sub s with Some _ => true | None => false end.

(** [s.split(sep, k)]: at most [k] cuts, left to right. *)
Fixpoint split_max (k : nat) (sep s : string) : list string :=
  match k with
  | O => [s]
  | S k' =>
      match split_at sep s with
      | Some (a, b) => a :: split_max k' sep b
      | None => [s]
      end
  end.

(** [s.split(sep)]: a cut consumes a character, so [length s] cuts are
    never exceeded (see [split_max_enough]). *)
Definition split (sep s : string) : list string := split_max (String.length s) sep s.

(** [sep.join(l)] *)
Definition join (sep : string) (l : list string) : string := String.concat sep l.

Fixpoint map_chars (f : ascii -> string) (s : string) : string :=
  match s with
  | EmptyString => EmptyString
  | String c s' => f c ++ map_chars f s'
  end.

Definition in_range (lo hi n : N) : bool := ((lo <=? n) && (n <=? hi))%N.

(** [s.lower()]: A..Z and the Latin-1 capitals (not the multiplication
    sign U+00D7) move up by 32. *)
Definition lower_char (c : ascii) : ascii :=
  let n := code c in
  if in_range 65 90 n || (in_range 192 222 n && negb (n =? 215)%N)
  then ascii_of_N (n + 32) else c.

Definition lower (s : string) : string :=
  map_chars (fun c => String (lower_char c) EmptyString) s.

(** [s.upper()]: a..z and the Latin-1 small letters (not the division sign
    U+00F7) move down by 32, sharp s becomes "SS".  The capitals of U+00B5
    and U+00FF lie above U+00FF; the two letters are left in place, which
    no comparison with an ASCII literal can tell apart. *)
Definition upper_char (c : ascii) : string :=
  let n := code c in
  if (n =? 223)%N then "SS"
  else if in_range 97 122 n || (in_range 224 254 n && negb (n =? 247)%N)
  then String (ascii_of_N (n - 32)) EmptyString
  else String c EmptyString.

Definition upper (s : string) : string := map_chars upper_char s.

Definition is_ascii_digit (c : ascii) : bool := in_range 48 57 (code c).

(** Characters with the Unicode digit property below U+0100: 0..9 and the
    superscripts two, three, one. *)
Definition isdigit_char (c : ascii) : bool :=
  let n := code c in
  in_range 48 57 n || (n =? 178)%N || (n =? 179)%N || (n =? 185)%N.

Fixpoint forall_chars (p : ascii -> bool) (s : string) : bool :=
  match s with
  | EmptyString => true
  | String c s' => p c && forall_chars p s'
  end.

(** [s.isdigit()] *)
Definition isdigit (s : string) : bool :=
  match s with
  | EmptyString => false
  | _ => forall_chars isdigit_char s
  end.

(** [s.replace(c, '')] for a one-character [c]. *)
Fixpoint remove_char (c : ascii) (s : string) : string :=
  match s with
  | EmptyString => EmptyString
  | String d s' =>
      if Ascii.eqb c d then remove_char c s' else String d (remove_char c s')
  end.

(** [len(s.encode('utf-8'))]: one byte below U+0080, two up to U+00FF. *)
Fixpoint utf8_len (s : string) : Z :=
  match s with
  | EmptyString => 0
  | String c s' => (if (code c <? 128)%N then 1 else 2) + utf8_len s'
  end.

(** Truth value of a [str]. *)
Definition truthy (s : string) : bool := negb (s =? "").

(** Truth value of a list. *)
Definition nonempty {A} (l : list A) : bool :=
  match l with [] => false | _ => true end.

Definition CR : ascii := "013"%char.
Definition NL : ascii := "010"%char.
Definition CRLF : string := String CR (String NL "").
Definition LF : string := String NL "".

(** *** [int(s)] on a [str]

    Blanks around the numeral are those of [Py_ISSPACE] together with the
    non-ASCII spaces, which CPython first rewrites to a blank (FS..US are
    not among them); then a sign and decimal digits, single underscores
    allowed between digits.  A text with more than [int_max_str_digits]
    digits, leading zeros counted, is refused with ValueError: 4300 is
    the interpreter's default, which neither converter changes. *)

Definition int_space (c : ascii) : bool :=
  let n := code c in
  in_range 9 13 n || (n =? 32)%N || (n =? 133)%N || (n =? 160)%N.

Definition digit_val (c : ascii) : Z := Z.of_N (code c) - 48.

Fixpoint digits_val (acc : Z) (after_digit : bool) (s : string) : option Z :=
  match s with
  | EmptyString => if after_digit then Some acc else None
  | String c s' =>
      if is_ascii_digit c then digits_val (10 * acc + digit_val c) true s'
      else if Ascii.eqb c "_" then
        if after_digit then digits_val acc false s' else None
      else None
  end.

Definition int_max_str_digits : nat := 4300.

Fixpoint digit_count (s : string) : nat :=
  match s with
  | EmptyString => O
  | String c s' => (if is_ascii_digit c then 1 else 0) + digit_count s'
  end.

Definition py_int (s : string) : option Z :=
  let t := rstrip_by int_space (lstrip_by int_space s) in
  if Nat.ltb int_max_str_digits (digit_count t) then None
  else
    match t with
    | String "+" r => digits_val 0 false r
    | String "-" r => option_map Z.opp (digits_val 0 false r)
    | _ => digits_val 0 false t
    end.

(** *** [float(s)] and [int(x)] on a [float]

    A binary64 value is kept exactly, as a sign and a rational
    [mant * 2^expo]; [float()] rounds the decimal numeral to the nearest
    such value, ties to even, and overflows to infinity from [2^1024]. *)

Local Open Scope Z_scope.

Inductive float : Type :=
  | Finite (neg : bool) (mant expo : Z)
  | Infinity (neg : bool).

(** Round-half-even quotient of [a / b], for [0 <= a] and [0 < b]. *)
Definition rne (a b : Z) : Z :=
  let q := a / b in
  let r := a mod b in
  if 2 * r <? b then q
  else if b <? 2 * r then q + 1
  else if Z.even q then q else q + 1.

(** [floor (log2 (a / b))], for [0 < a] and [0 < b]. *)
Definition ilog2 (a b : Z) : Z :=
  if b <=? a then Z.log2 (a / b) else - Z.log2_up ((b + a - 1) / a).

(** The binary64 nearest to [a / b]: 53 significant bits, the exponent of
    the last bit not below -1074. *)
Definition to_double (neg : bool) (a b : Z) : float :=
  if a =? 0 then Finite neg 0 0
  else
    let p := Z.max (ilog2 a b - 52) (-1074) in
    let m := if 0 <=? p then rne a (b * 2 ^ p) else rne (a * 2 ^ (- p)) b in
    if (0 <=? p) && (2 ^ 1024 <=? m * 2 ^ p) then Infinity neg
    else Finite neg m p.

(** Reads the longest run of ASCII digits: its value on top of [acc], the
    number of digits read, the rest of the text. *)
Fixpoint read_digits (acc : Z) (cnt : nat) (s : string) : Z * nat * string :=
  match s with
  | String c s' =>
      if is_ascii_digit c then read_digits (10 * acc + digit_val c) (S cnt) s'
      else (acc, cnt, s)
  | EmptyString => (acc, cnt, EmptyString)
  end.

(** Digits, an optional point, digits; at least one digit.  The result
    is the numerator and the number of digits after the point. *)
Definition read_decimal (s : string) : option (Z * nat) :=
  let '(i, ni, r) := read_digits 0 0 s in
  match r with
  | EmptyString => if Nat.eqb ni 0 then None else Some (i, O)
  | String c r' =>
      if Ascii.eqb c "." then
        let '(f, nf, r'') := read_digits i 0 r' in
        match r'' with
        | EmptyString => if Nat.eqb (ni + nf)%nat 0 then None else Some (f, nf)
        | _ => None
        end
      else None
  end.

(** [float(s)], [None] for [ValueError].  Only the sign, digits and point
    of the numeral grammar are read: exponents, underscores, "inf", "nan"
    and surrounding blanks need a character that is not a digit, which
    [safe_int], the one function that converts, has excluded before it
    does. *)
Definition py_float (s : string) : option float :=
  let '(neg, body) :=
    match s with
    | String c r =>
        if Ascii.eqb c "-" then (true, r)
        else if Ascii.eqb c "+" then (false, r)
        else (false, s)
    | EmptyString => (false, s)
    end in
  match read_decimal body with
  | Some (num, scale) => Some (to_double neg num (10 ^ Z.of_nat scale))
  | None => None
  end.

(** [int(x)]: truncation toward zero, [None] for [OverflowError]. *)
Definition int_of_float (x : float) : option Z :=
  match x with
  | Infinity _ => None
  | Finite neg m p =>
      let t := if 0 <=? p then m * 2 ^ p else m / 2 ^ (- p) in
      Some (if neg then - t else t)
  end.

End PyStr.


Import PyStr.

(* ================================================================= *)
(** ** Exceptions *)

Inductive exn : Type := ValueError | TypeError | AttributeError.

Inductive result (A : Type) : Type :=
  | Ok (a : A)
  | Raise (e : exn).
Arguments Ok {A} a.
Arguments Raise {A} e.

Definition bind {A B} (c : result A) (k : A -> result B) : result B :=
  match c with
  | Ok a => k a
  | Raise e => Raise e
  end.

Notation "x <- c ;; k" := (bind c (fun x => k))
  (at level 61, c at next level, right associativity).

(** [v.strip()] on a value that may be [None]. *)
Definition strip_of (v : option string) : result string :=
  match v with
  | Some s => Ok (strip s)
  | None => Raise AttributeError
  end.

(* ================================================================= *)
(** ** The HAR objects both converters build *)

Module Har.

(** [{"name": .., "value": ..}]: a header, a cookie or a query parameter. *)
Record NV : Type := mkNV { name : string; value : string }.

(** [postData]; the CSV converter adds the constant ["params": []]. *)
Record PostData : Type := mkPostData { pd_mimeType : string; pd_text : string }.

Record Request : Type := mkRequest {
  req_method : string;
  req_url : string;
  req_httpVersion : string;
  req_cookies : list NV;
  req_headers : list NV;
  req_queryString : list NV;
  req_headersSize : Z;
  req_bodySize : Z;
  req_postData : option PostData
}.

(** [content]; the CSV converter adds the constant ["encoding": "utf-8"]. *)
Record Content : Type := mkContent {
  content_size : Z;
  content_mimeType : string;
  content_text : string
}.

Record Response : Type := mkResponse {
  resp_status : Z;
  resp_statusText : string;
  resp_httpVersion : string;
  resp_cookies : list NV;
  resp_headers : list NV;
  resp_content : Content;
  resp_redirectURL : string;
  resp_headersSize : Z;
  resp_bodySize : Z
}.

Record Timings : Type := mkTimings {
  blocked : Z; dns : Z; connect : Z; send : Z; wait : Z; receive : Z; ssl : Z
}.

End Har.
Import Har.

Definition in_list (s : string) (l : list string) : bool :=
  existsb (String.eqb s) l.

(* ================================================================= *)
(** ** convert_csv.py *)

Module Csv.

(** A row of [csv.DictReader]: column name to cell; a cell is [None]
    when the line is shorter than the header row. *)
Definition Row : Type := list (string * option string).

Fixpoint lookup (k : string) (row : Row) : option (option string) :=
  match row with
  | [] => None
  | (k', v) :: rest => if k =? k' then Some v else lookup k rest
  end.

(** [row.get(k, default)] *)
Definition get (row : Row) (k : string) (default : option string)
  : option string :=
  match lookup k row with
  | Some v => v
  | None => default
  end.

(** The entry written for a row.  [time] and [timings] are floats computed
    by [calculate_timings], which raises on no input; they are not part
    of the model. *)
Record Entry : Type := mkEntry {
  startedDateTime : option string;
  request : Request;
  response : Response;
  serverIPAddress : string;
  connection : string;
  csvOriginalData : option Row
}.

(** Output so far and the two counters of [convert_csv_to_har_stream]. *)
Record Stream : Type := mkStream {
  written : list Entry;
  processed_count : nat;
  error_count : nat
}.

Section Converter.

(** [base64.b64decode(data).decode('utf-8', errors='replace')], [None]
    when the call raises. *)
Variable b64decode_utf8 : string -> option string.
(** The list built by [extract_query_string] from [urlparse] and
    [parse_qs]; empty when they raise. *)
Variable query_of_url : string -> list NV.
(** [datetime.now().isoformat()] *)
Variable now_iso : string.
Variable preserve_all_data : bool.

Definition decode_base64_safe (data : option string) : string :=
  match data with
  | None => ""
  | Some d =>
      if negb (truthy d) then ""
      else match b64decode_utf8 d with
           | Some decoded => decoded
           | None => d
           end
  end.

(** The loop of [parse_http_headers] over [lines[1:]]. *)
Fixpoint header_lines (lines : list string) : list NV :=
  match lines with
  | [] => []
  | line :: rest =>
      if negb (truthy (strip line)) then []
      else if contains ":" line then
        match split_max 1 ":" line with
        | [n; v] => mkNV (strip n) (strip v) :: header_lines rest
        | _ => header_lines rest
        end
      else header_lines rest
  end.

Definition parse_http_headers (raw_text : string) : list NV :=
  if negb (truthy raw_text) then []
  else header_lines (tl (split CRLF raw_text)).

(** The inner loop of [parse_cookies_from_headers]; [name, value =
    cookie_part.split('=', 1)] unpacks the two pieces around the first
    '=' that the test before it has found. *)
Fixpoint cookie_parts (parts : list string) : list NV :=
  match parts with
  | [] => []
  | cookie_part :: rest =>
      match split_at "=" cookie_part with
      | Some (n, v) => mkNV (strip n) (strip v) :: cookie_parts rest
      | None => cookie_parts rest
      end
  end.

Definition parse_cookies_from_headers (headers : list NV) : list NV :=
  flat_map (fun header =>
    if in_list (lower (name header)) ["cookie"; "set-cookie"]
    then cookie_parts (split ";" (value header))
    else []) headers.

Definition first_line (raw : string) : string :=
  if contains CRLF raw then hd "" (split CRLF raw) else hd "" (split LF raw).

Definition extract_http_version (raw_text : string) : string :=
  if negb (truthy raw_text) then "HTTP/1.1"
  else
    let first := first_line raw_text in
    if contains "HTTP/2" first then "HTTP/2"
    else if contains "HTTP/1.0" first then "HTTP/1.0"
    else if contains "HTTP/1.1" first then "HTTP/1.1"
    else "HTTP/1.1".

Definition extract_status_text (raw_response : string) : string :=
  if negb (truthy raw_response) then ""
  else
    match split_max 2 " " (first_line raw_response) with
    | _ :: _ :: third :: _ => strip third
    | _ => ""
    end.

Definition extract_body (raw_text : string) : string :=
  if negb (truthy raw_text) then ""
  else if contains (CRLF ++ CRLF) raw_text
  then nth 1 (split_max 1 (CRLF ++ CRLF) raw_text) ""
  else if contains (LF ++ LF) raw_text
  then nth 1 (split_max 1 (LF ++ LF) raw_text) ""
  else "".

Definition calculate_headers_size (headers : list NV) : Z :=
  if negb (nonempty headers) then (-1)%Z
  else fold_left (fun total h =>
         (total + (Z.of_nat (String.length (name h))
                   + Z.of_nat (String.length (value h)) + 4))%Z) headers 0%Z.

Definition safe_int (value : option string) (default : Z) : Z :=
  match value with
  | None => default
  | Some v =>
      if v =? "" then default
      else
        let clean := remove_char "," (strip v) in
        if isdigit (remove_char "." (remove_char "-" clean)) then
          match py_float clean with
          | Some x =>
              match int_of_float x with
              | Some n => n
              | None => default
              end
          | None => default
          end
        else default
  end.

Fixpoint get_mime_type_from_headers (headers : list NV) : string :=
  match headers with
  | [] => ""
  | header :: rest =>
      if lower (name header) =? "content-type"
      then strip (hd "" (split ";" (value header)))
      else get_mime_type_from_headers rest
  end.

(** [a or b] on strings, [b] evaluated only when [a] is empty. *)
Definition or_else (a : string) (b : result string) : result string :=
  if truthy a then Ok a else b.

(** The body of the [try] in the row loop, up to the entry it writes. *)
Definition convert_row (row : Row) : result Entry :=
  let raw_req := decode_base64_safe (get row "Request" (Some "")) in
  let raw_res := decode_base64_safe (get row "Response" (Some "")) in
  let req_headers := parse_http_headers raw_req in
  let res_headers := parse_http_headers raw_res in
  let req_cookies := parse_cookies_from_headers req_headers in
  let res_cookies := parse_cookies_from_headers res_headers in
  let req_body := extract_body raw_req in
  let res_body := extract_body raw_res in
  response_mime <- or_else (get_mime_type_from_headers res_headers)
                           (strip_of (get row "MIME type" (Some ""))) ;;
  method <- (m <- strip_of (get row "Method" (Some "GET")) ;;
             or_else m (Ok "GET")) ;;
  url <- strip_of (get row "URL" (Some "")) ;;
  let request_obj :=
    mkRequest method url (extract_http_version raw_req) req_cookies
      req_headers (query_of_url url) (calculate_headers_size req_headers)
      (if truthy req_body then utf8_len req_body else 0%Z)
      (if truthy req_body
          && in_list (upper method) ["POST"; "PUT"; "PATCH"; "DELETE"]
       then Some (mkPostData
                    (if truthy (get_mime_type_from_headers req_headers)
                     then get_mime_type_from_headers req_headers
                     else "application/octet-stream")
                    req_body)
       else None) in
  let status_code := safe_int (get row "Status code" None) 0 in
  let content_size := safe_int (get row "Length" None) (-1) in
  redirect <- strip_of (get row "Redirect URL" (Some "")) ;;
  let response_obj :=
    mkResponse status_code (extract_status_text raw_res)
      (if truthy raw_res then extract_http_version raw_res
       else extract_http_version raw_req)
      res_cookies res_headers
      (mkContent content_size response_mime res_body)
      redirect (calculate_headers_size res_headers) content_size in
  ip <- strip_of (get row "IP" (Some "")) ;;
  conn <- strip_of (get row "Connection ID" (Some "")) ;;
  Ok (mkEntry (get row "Time" (Some now_iso)) request_obj response_obj
        ip conn (if preserve_all_data then Some row else None)).

(** One turn of the row loop: the entry is written and counted, or the
    [except] clause counts an error and moves on. *)
Definition step (st : Stream) (row : Row) : Stream :=
  match convert_row row with
  | Ok entry =>
      mkStream (written st ++ [entry]) (S (processed_count st)) (error_count st)
  | Raise _ =>
      mkStream (written st) (processed_count st) (S (error_count st))
  end.

Definition convert_csv_to_har_stream (rows : list Row) : Stream :=
  fold_left step rows (mkStream [] 0 0).

End Converter.

End Csv.

(* ================================================================= *)
(** ** convert_xml.py: class BurpXMLToHAR *)

Module Xml.

(** An [xml.etree] element: [text] is [None] for an element without
    character data. *)
Record Element : Type := mkElement {
  tag : string;
  text : option string;
  attrib : list (string * string)
}.

(** An [<item>]: its child elements in document order. *)
Definition Item : Type := list Element.

(** [item.find(t)] *)
Definition find (t : string) (item : Item) : option Element :=
  List.find (fun e => tag e =? t) item.

(** [elem.get(k, default)] *)
Fixpoint attr (k : string) (l : list (string * string)) (default : string)
  : string :=
  match l with
  | [] => default
  | (k', v) :: rest => if k =? k' then v else attr k rest default
  end.

Record Entry : Type := mkEntry {
  startedDateTime : string;
  time : Z;
  request : Request;
  response : Response;
  timings : Timings;
  serverIPAddress : option string
}.

(** The messages appended to [self.stats['errors']], without the text of
    the exception. *)
Inductive ErrorMsg : Type :=
  | Base64DecodeError
  | ItemError (idx : nat) (e : exn).

(** [self.entries] and [self.stats]. *)
Record Converter : Type := mkConverter {
  entries : list Entry;
  total_items : nat;
  entries_created : nat;
  errors : list ErrorMsg
}.

(** Truth value of a [str] that may be [None]. *)
Definition truthy_opt (o : option string) : bool :=
  match o with
  | Some s => truthy s
  | None => false
  end.

(** [o or default] *)
Definition or_default (o : option string) (default : string) : string :=
  match o with
  | Some s => if truthy s then s else default
  | None => default
  end.

(** The loop of [parse_headers] over [lines[1:]]. *)
Fixpoint header_lines (lines : list string) : list NV :=
  match lines with
  | [] => []
  | line :: rest =>
      let line := strip line in
      if negb (truthy line) then []
      else match split_at ":" line with
           | Some (n, v) => mkNV (strip n) (strip v) :: header_lines rest
           | None => header_lines rest
           end
  end.

Definition parse_headers (header_text : string) : list NV :=
  let lines := split CRLF header_text in
  let lines := if negb (nonempty lines) then split LF header_text else lines in
  header_lines (tl lines).

Fixpoint cookie_pieces (pieces : list string) : list NV :=
  match pieces with
  | [] => []
  | cookie :: rest =>
      match split_at "=" (strip cookie) with
      | Some (n, v) => mkNV (strip n) (strip v) :: cookie_pieces rest
      | None => cookie_pieces rest
      end
  end.

Definition parse_cookies (headers : list NV) : list NV :=
  flat_map (fun h =>
    if lower (name h) =? "cookie"
    then cookie_pieces (split ";" (value h))
    else []) headers.

Definition extract_set_cookies (headers : list NV) : list NV :=
  flat_map (fun h =>
    if lower (name h) =? "set-cookie" then
      match split ";" (value h) with
      | first :: _ =>
          match split_at "=" first with
          | Some (n, v) => [mkNV (strip n) (strip v)]
          | None => []
          end
      | [] => []
      end
    else []) headers.

Fixpoint query_params (params : list string) : list NV :=
  match params with
  | [] => []
  | param :: rest =>
      match split_at "=" param with
      | Some (n, v) => mkNV n v :: query_params rest
      | None =>
          if truthy param then mkNV param "" :: query_params rest
          else query_params rest
      end
  end.

Definition parse_query_string (url : string) : list NV :=
  if negb (contains "?" url) then []
  else
    let query := nth 1 (split_max 1 "?" url) "" in
    let query := if contains "#" query then hd "" (split "#" query) else query in
    query_params (split "&" query).

(** The body loop shared by [parse_http_request] and
    [parse_http_response]: the lines after the first blank one. *)
Fixpoint body_lines (body_start : bool) (lines : list string) : list string :=
  match lines with
  | [] => []
  | line :: rest =>
      if body_start then line :: body_lines true rest
      else if negb (truthy (strip line)) then body_lines true rest
      else body_lines false rest
  end.

Definition body_of (lines : list string) : option string :=
  let bl := body_lines false lines in
  if nonempty bl then Some (strip (join CRLF bl)) else None.

(** The five results of a parser, each possibly [None]. *)
Definition Parsed (A : Type) : Type :=
  (option string * option A * option string
   * option (list NV) * option string)%type.

Definition no_result {A} : Parsed A := (None, None, None, None, None).

(** [(method, path, http_version, headers, body)] *)
Definition parse_http_request (request_text : string) : Parsed string :=
  let lines := split CRLF request_text in
  if negb (nonempty lines) then no_result
  else
    let first_line := strip (hd "" lines) in
    match split " " first_line with
    | method :: path :: http_version :: _ =>
        (Some method, Some path, Some http_version,
         Some (parse_headers request_text), body_of lines)
    | _ => no_result
    end.

(** [(http_version, status_code, status_text, headers, body)];
    [int(parts[1])] raises [ValueError]. *)
Definition parse_http_response (response_text : string)
  : result (Parsed Z) :=
  let lines := split CRLF response_text in
  if negb (nonempty lines) then Ok no_result
  else
    let first_line := strip (hd "" lines) in
    match split_max 2 " " first_line with
    | http_version :: code_token :: status_text :: _ =>
        match py_int code_token with
        | Some status_code =>
            Ok (Some http_version, Some status_code, Some status_text,
                Some (parse_headers response_text), body_of lines)
        | None => Raise ValueError
        end
    | _ => Ok no_result
    end.

(** Iterating over a value that may be [None]. *)
Definition iter {A} (o : option (list A)) : result (list A) :=
  match o with
  | Some l => Ok l
  | None => Raise TypeError
  end.

(** The request loop over the headers: no [break], the last
    Content-Type wins.  The Content-Length it also reads is stored in a
    local that nothing uses. *)
Definition request_content_type (headers : list NV) : string :=
  fold_left (fun content_type h =>
    if lower (name h) =? "content-type"
    then strip (hd "" (split ";" (value h)))
    else content_type) headers "application/octet-stream".

(** The response loop over the headers: [break] at the first
    Content-Type, [default] kept when there is none. *)
Fixpoint response_content_type (default : string) (headers : list NV)
  : string :=
  match headers with
  | [] => default
  | h :: rest =>
      if lower (name h) =? "content-type"
      then strip (hd "" (split ";" (value h)))
      else response_content_type default rest
  end.

(** [len(body.encode('utf-8')) if body else 0] *)
Definition actual_size (body : option string) : Z :=
  match body with
  | Some b => if truthy b then utf8_len b else 0%Z
  | None => 0%Z
  end.

Definition fixed_timings : Timings := mkTimings 0 0 0 1 50 49 0.

(** Computations of the item loop: they read and extend the error list
    and may raise. *)
Definition M (A : Type) : Type := list ErrorMsg -> list ErrorMsg * result A.

Definition ret {A} (a : A) : M A := fun errs => (errs, Ok a).

Definition lift {A} (r : result A) : M A := fun errs => (errs, r).

Definition mbind {A B} (c : M A) (k : A -> M B) : M B :=
  fun errs =>
    match c errs with
    | (errs', Ok a) => k a errs'
    | (errs', Raise e) => (errs', Raise e)
    end.

Notation "x <~ c ;; k" := (mbind c (fun x => k))
  (at level 61, c at next level, right associativity).

Section Converter.

(** [base64.b64decode(data).decode('utf-8', errors='replace')], [None]
    when the call raises. *)
Variable b64decode_utf8 : string -> option string.
(** [parse_timestamp] applied to the text of [<time>]; it catches
    whatever [strptime] raises and then answers with the current time. *)
Variable parse_timestamp : option string -> string.
(** [datetime.now().isoformat()] *)
Variable now_iso : string.

Definition decode_base64_safe (data : string) : M string :=
  fun errs =>
    match b64decode_utf8 data with
    | Some decoded => (errs, Ok decoded)
    | None => ((errs ++ [Base64DecodeError])%list, Ok "")
    end.

(** [elem.text.strip() if elem is not None and elem.text else default] *)
Definition text_or (elem : option Element) (default : string) : string :=
  match elem with
  | Some e => if truthy_opt (text e) then strip (or_default (text e) "") else default
  | None => default
  end.

(** "Request Parsing", first half: the text of [<request>], decoded when
    its [base64] attribute says so. *)
Definition request_data_of (request_elem : Element) : M string :=
  let request_data := or_default (text request_elem) "" in
  if attr "base64" (attrib request_elem) "false" =? "true"
  then decode_base64_safe request_data
  else ret request_data.

(** "Request Parsing", second half: from the parsed text to
    [request_obj]. *)
Definition request_obj_of (method_elem : option Element) (url : string)
    (request_data : string) : result Request :=
  let '(method, path, http_version, req_headers, req_body) :=
    parse_http_request request_data in
  let method := if truthy_opt method then or_default method ""
                else text_or method_elem "GET" in
  let query_string := parse_query_string url in
  req_headers <- iter req_headers ;;
  let cookies := parse_cookies req_headers in
  let content_type := request_content_type req_headers in
  let actual_body_size := actual_size req_body in
  Ok (mkRequest method url (or_default http_version "HTTP/1.1")
        cookies req_headers query_string (-1) actual_body_size
        (if truthy_opt req_body
         then Some (mkPostData content_type (or_default req_body ""))
         else None)).

(** "Response Parsing", first half. *)
Definition response_data_of (response_elem : option Element) : M string :=
  let response_data :=
    match response_elem with
    | Some r => or_default (text r) ""
    | None => ""
    end in
  let is_base64_response :=
    match response_elem with
    | Some r => attr "base64" (attrib r) "false" =? "true"
    | None => false
    end in
  if is_base64_response then decode_base64_safe response_data
  else ret response_data.

(** The status taken from [<status>] when the status line gave none. *)
Definition status_fallback (status_elem : option Element) : result Z :=
  match status_elem with
  | Some e =>
      if truthy_opt (text e) then
        match py_int (strip (or_default (text e) "")) with
        | Some c => Ok c
        | None => Raise ValueError
        end
      else Ok 0%Z
  | None => Ok 0%Z
  end.

(** "Response Parsing", second half: from the parsed text to
    [response_obj]. *)
Definition response_obj_of (status_elem mimetype_elem : option Element)
    (response_data : string) : result Response :=
  parsed <- parse_http_response response_data ;;
  let '(resp_version, status_code, status_text, resp_headers, resp_body) :=
    parsed in
  status <- match status_code with
            | Some c => Ok (c, status_text)
            | None => c <- status_fallback status_elem ;; Ok (c, Some "")
            end ;;
  let '(status_code, status_text) := status in
  resp_headers <- iter resp_headers ;;
  let resp_content_type :=
    response_content_type (text_or mimetype_elem "text/html") resp_headers in
  let response_cookies := extract_set_cookies resp_headers in
  let actual_resp_size := actual_size resp_body in
  Ok (mkResponse status_code (or_default status_text "")
        (or_default resp_version "HTTP/1.1") response_cookies resp_headers
        (mkContent actual_resp_size resp_content_type (or_default resp_body ""))
        "" (-1) actual_resp_size).

(** The body of the [try] in the item loop: [None] for [continue], the
    entry to append otherwise.  The host, port and protocol that the loop
    also reads never reach the entry. *)
Definition item_body (item : Item) : M (option Entry) :=
  let time_elem := find "time" item in
  let host_elem := find "host" item in
  match find "url" item, find "request" item with
  | Some url_elem, Some request_elem =>
      let timestamp :=
        match time_elem with
        | Some t => parse_timestamp (text t)
        | None => now_iso ++ "Z"
        end in
      let url := text_or (Some url_elem) "" in
      if negb (truthy url) then ret None
      else
        let ip := match host_elem with
                  | Some h => attr "ip" (attrib h) ""
                  | None => ""
                  end in
        request_data <~ request_data_of request_elem ;;
        request_obj <~ lift (request_obj_of (find "method" item) url
                               request_data) ;;
        response_data <~ response_data_of (find "response" item) ;;
        response_obj <~ lift (response_obj_of (find "status" item)
                                (find "mimetype" item) response_data) ;;
        ret (Some (mkEntry timestamp 100 request_obj response_obj
                     fixed_timings
                     (if truthy ip then Some ip else None)))
  | _, _ => ret None
  end.

(** One turn of the item loop, for the item numbered [idx]. *)
Definition step (idx : nat) (item : Item) (c : Converter) : Converter :=
  match item_body item (errors c) with
  | (errs, Ok (Some entry)) =>
      mkConverter (entries c ++ [entry]) (total_items c)
        (S (entries_created c)) errs
  | (errs, Ok None) =>
      mkConverter (entries c) (total_items c) (entries_created c) errs
  | (errs, Raise e) =>
      mkConverter (entries c) (total_items c) (entries_created c)
        (errs ++ [ItemError idx e])%list
  end.

Fixpoint loop (idx : nat) (items : list Item) (c : Converter) : Converter :=
  match items with
  | [] => c
  | item :: rest => loop (S idx) rest (step idx item c)
  end.

(** [parse_xml_file] on the [<item>] children of the document root. *)
Definition parse_xml_file (items : list Item) (c : Converter) : Converter :=
  loop 1 items
    (mkConverter (entries c) (List.length items) (entries_created c) (errors c)).

End Converter.

(** [BurpXMLToHAR()] *)
Definition init : Converter := mkConverter [] 0 0 [].

End Xml.

(* ================================================================= *)
(** ** Text of any code point: [safe_int] beyond U+00FF

    A cell of a UTF-8 file can hold any character.  [safe_int] reads its
    argument through [str.strip], [str.isdigit] and [float], which
    consult the interpreter's Unicode database; here the text is the
    list of its code points and the three character properties are
    Section variables. *)

Module Uni.

Definition text : Type := list N.

(** The text of the first model, character by character. *)
Definition of_string (s : string) : text := map code (list_ascii_of_string s).

Section Database.

(** [Py_UNICODE_ISSPACE], [Py_UNICODE_ISDIGIT] and [Py_UNICODE_TODECIMAL]
    ([None] for -1). *)
Variable isspace : N -> bool.
Variable isdigit_cp : N -> bool.
Variable todecimal : N -> option N.

Fixpoint lstrip (s : text) : text :=
  match s with
  | c :: s' => if isspace c then lstrip s' else s
  | [] => []
  end.

Fixpoint rstrip (s : text) : text :=
  match s with
  | [] => []
  | c :: s' =>
      match rstrip s' with
      | [] => if isspace c then [] else [c]
      | r => c :: r
      end
  end.

(** [s.strip()] *)
Definition strip (s : text) : text := rstrip (lstrip s).

(** [s.replace(c, '')] for a one-character [c]. *)
Definition remove (c : N) (s : text) : text :=
  filter (fun d => negb (N.eqb c d)) s.

(** [s.isdigit()] *)
Definition isdigit (s : text) : bool :=
  match s with
  | [] => false
  | _ => forallb isdigit_cp s
  end.

(** What [float] hands to its parser: ASCII is kept, any other blank
    becomes a space and any other decimal digit the ASCII digit of its
    value; the first character that is neither becomes '?' and ends the
    text. *)
Fixpoint to_ascii (s : text) : string :=
  match s with
  | [] => EmptyString
  | c :: s' =>
      if (c <? 128)%N then String (ascii_of_N c) (to_ascii s')
      else if isspace c then String " " (to_ascii s')
      else match todecimal c with
           | Some d => String (ascii_of_N (48 + d)) (to_ascii s')
           | None => "?"
           end
  end.

(** [float(s)] *)
Definition py_float (s : text) : option float := PyStr.py_float (to_ascii s).

(** [safe_int], as in [Csv.safe_int], on a text of any code points. *)
Definition safe_int (value : option text) (default : Z) : Z :=
  match value with
  | None => default
  | Some [] => default
  | Some v =>
      let clean := remove (code ",") (strip v) in
      if isdigit (remove (code ".") (remove (code "-") clean)) then
        match py_float clean with
        | Some x =>
            match int_of_float x with
            | Some n => n
            | None => default
            end
        | None => default
        end
      else default
  end.

End Database.

End Uni.

(* ================================================================= *)
(** ** Specification vocabulary *)

Module Spec.

(** [sub] occurs in [s]. *)
Definition occurs (sub s : string) : Prop :=
  exists pre post, s = pre ++ sub ++ post.

(** [pre] and [post] surround the first occurrence of [sub] in [s]. *)
Definition first_cut (sub s pre post : string) : Prop :=
  s = pre ++ sub ++ post /\
  forall pre' post', s = pre' ++ sub ++ post' ->
    String.length pre <= String.length pre'.

(** [seg] is [s] cut off before its first [sep], all of [s] when there
    is none. *)
Definition cut_before (sep s seg : string) : Prop :=
  ~ occurs sep seg /\ (s = seg \/ exists rest, s = seg ++ sep ++ rest).

Definition all_space (s : string) : Prop := forall_chars isspace s = true.

(** [t] is [s] without the blanks at its two ends. *)
Definition trimmed (s t : string) : Prop :=
  (exists l r, s = l ++ t ++ r /\ all_space l /\ all_space r) /\
  (forall c t', t = String c t' -> isspace c = false) /\
  (forall c t', t = t' ++ String c "" -> isspace c = false).

(** Header names are compared after [lower()]. *)
Definition same_name (a b : string) : Prop := lower a = lower b.

(** No header of [l] is named [n]. *)
Definition none_named (n : string) (l : list NV) : Prop :=
  Forall (fun h => ~ same_name (name h) n) l.

(** [c] is the cookie read from a piece [seg] that contains '=': name
    and value are what surrounds the first '=', trimmed. *)
Definition cookie_of (seg : string) (c : NV) : Prop :=
  exists n v, first_cut "=" seg n v /\ trimmed n (name c) /\ trimmed v (value c).

(** [segs] are the pieces of [s] between the occurrences of [sep]. *)
Definition segments (sep s : string) (segs : list string) : Prop :=
  segs <> [] /\ join sep segs = s /\ Forall (fun x => ~ occurs sep x) segs.

(** What [extract_set_cookies] answers: in header order, one cookie for
    each Set-Cookie header whose first ';'-piece has an '=', read from
    that piece; nothing for the other headers. *)
Inductive set_cookies : list NV -> list NV -> Prop :=
  | sc_nil : set_cookies [] []
  | sc_other h hs cs :
      ~ same_name (name h) "Set-Cookie" ->
      set_cookies hs cs -> set_cookies (h :: hs) cs
  | sc_pair h hs cs seg c :
      same_name (name h) "Set-Cookie" ->
      cut_before ";" (value h) seg -> cookie_of seg c ->
      set_cookies hs cs -> set_cookies (h :: hs) (c :: cs)
  | sc_bare h hs cs seg :
      same_name (name h) "Set-Cookie" ->
      cut_before ";" (value h) seg -> ~ occurs "=" seg ->
      set_cookies hs cs -> set_cookies (h :: hs) cs.

(** One cookie for every piece that has an '='. *)
Inductive piece_cookies : list string -> list NV -> Prop :=
  | pc_nil : piece_cookies [] []
  | pc_pair seg segs c cs :
      cookie_of seg c -> piece_cookies segs cs ->
      piece_cookies (seg :: segs) (c :: cs)
  | pc_bare seg segs cs :
      ~ occurs "=" seg -> piece_cookies segs cs ->
      piece_cookies (seg :: segs) cs.

(** What [parse_cookies_from_headers] answers: for each header named
    Cookie or Set-Cookie, the cookies of all its ';'-pieces. *)
Inductive header_cookies : list NV -> list NV -> Prop :=
  | hc_nil : header_cookies [] []
  | hc_other h hs cs :
      ~ same_name (name h) "Cookie" -> ~ same_name (name h) "Set-Cookie" ->
      header_cookies hs cs -> header_cookies (h :: hs) cs
  | hc_named h hs segs cs cs' :
      same_name (name h) "Cookie" \/ same_name (name h) "Set-Cookie" ->
      segments ";" (value h) segs -> piece_cookies segs cs ->
      header_cookies hs cs' -> header_cookies (h :: hs) (cs ++ cs')%list.

(** The number of headers named Set-Cookie. *)
Definition count_set_cookie (headers : list NV) : nat :=
  List.length
    (filter (fun h => lower (name h) =? lower "Set-Cookie") headers).

(** "Exactly one Cookie per Set-Cookie header", as a property of an
    extractor. *)
Definition one_cookie_per_set_cookie (extract : list NV -> list NV) : Prop :=
  forall headers, List.length (extract headers) = count_set_cookie headers.

(** A line that is empty once trimmed. *)
Definition blank (line : string) : Prop := strip line = "".

(** The two blank-line separators. *)
Definition CRLF2 : string := CRLF ++ CRLF.

(** The body slot of a parser result. *)
Definition body_slot {A} (p : Xml.Parsed A) : option string := snd p.


(** The decoded request and response texts of a CSV row. *)
Definition raw_request (b64 : string -> option string) (row : Csv.Row)
  : string :=
  Csv.decode_base64_safe b64 (Csv.get row "Request" (Some "")).
Definition raw_response (b64 : string -> option string) (row : Csv.Row)
  : string :=
  Csv.decode_base64_safe b64 (Csv.get row "Response" (Some "")).

(** *** Decimal numerals *)

Definition all_digits (s : string) : Prop :=
  forall_chars is_ascii_digit s = true.

(** The number a string of decimal digits denotes. *)
Fixpoint dec_value (s : string) : Z :=
  match s with
  | EmptyString => 0%Z
  | String c s' =>
      (digit_val c * 10 ^ Z.of_nat (String.length s') + dec_value s')%Z
  end.

(** [r] does not begin with a digit. *)
Definition no_digit_head (r : string) : Prop :=
  match r with
  | String c _ => is_ascii_digit c = false
  | EmptyString => True
  end.

Definition sign (neg : bool) : string := if neg then "-" else "".

(** [s] is a decimal numeral: an optional minus sign, the digits [ip],
    and possibly a point followed by the digits [fp]; at least one
    digit in all. *)
Inductive numeral : string -> bool -> string -> string -> Prop :=
  | numeral_int neg ip :
      all_digits ip -> ip <> "" -> numeral (sign neg ++ ip) neg ip ""
  | numeral_point neg ip fp :
      all_digits ip -> all_digits fp -> ip ++ fp <> "" ->
      numeral (sign neg ++ ip ++ "." ++ fp) neg ip fp.

(** The value with its blanks at both ends and all its commas removed. *)
Definition cleaned (v : string) : string := remove_char "," (strip v).

(** [int(float(..))] of the numeral with digits [ip], [fp]: the nearest
    binary64 value, truncated; [None] when that value is infinite. *)
Definition float_then_truncate (neg : bool) (ip fp : string) : option Z :=
  int_of_float
    (to_double neg (dec_value (ip ++ fp))
       (10 ^ Z.of_nat (String.length fp))).

(** *** Numerals in any script *)

(** The text [t] reads as the ASCII text [s]: an ASCII character stands
    for itself and any other character with a decimal value for the
    ASCII digit of that value.  A text with any other character reads as
    nothing. *)
Inductive reads (todecimal : N -> option N) : Uni.text -> string -> Prop :=
  | reads_nil : reads todecimal [] ""
  | reads_ascii c t s :
      (c < 128)%N -> reads todecimal t s ->
      reads todecimal (c :: t) (String (ascii_of_N c) s)
  | reads_decimal c d t s :
      (128 <= c)%N -> todecimal c = Some d -> reads todecimal t s ->
      reads todecimal (c :: t) (String (ascii_of_N (48 + d)) s).

(** The text with its blanks at both ends and all its commas removed. *)
Definition wide_cleaned (isspace : N -> bool) (v : Uni.text) : Uni.text :=
  Uni.remove (code ",") (Uni.strip isspace v).

(** What is assumed of the character properties: below U+0100 blanks and
    digits are those of the first model and only 0..9 have a decimal
    value; a decimal value is at most 9 and its character is a digit; no
    blank is a digit. *)
Definition unicode_database
    (isspace isdigit_cp : N -> bool) (todecimal : N -> option N) : Prop :=
  (forall a, isspace (code a) = PyStr.isspace a) /\
  (forall a, isdigit_cp (code a) = isdigit_char a) /\
  (forall a, (128 <= code a)%N -> todecimal (code a) = None) /\
  (forall c d, (128 <= c)%N -> todecimal c = Some d ->
               (d <= 9)%N /\ isdigit_cp c = true) /\
  (forall c, isspace c = true -> isdigit_cp c = false).

(** The characters of a decimal numeral. *)
Definition numeral_char (a : ascii) : bool :=
  is_ascii_digit a || Ascii.eqb a "-" || Ascii.eqb a ".".

(** The text of a [<url>] element is missing, empty or blank. *)
Definition url_text_empty (u : Xml.Element) : Prop :=
  match Xml.text u with
  | Some t => blank t
  | None => True
  end.

(** An item that cannot be minimally parsed: no [<url>], no [<request>],
    or an empty URL. *)
Definition not_minimal (item : Xml.Item) : Prop :=
  Xml.find "url" item = None \/
  Xml.find "request" item = None \/
  exists u, Xml.find "url" item = Some u /\ url_text_empty u.

(** Every cell of the row is present (the line was not shorter than the
    header row). *)
Definition complete (row : Csv.Row) : Prop :=
  Forall (fun kv => snd kv <> None) row.

(** The URL of a row, [""] when the column is missing. *)
Definition url_cell (row : Csv.Row) : string :=
  match Csv.get row "URL" (Some "") with
  | Some u => u
  | None => ""
  end.

(** "The sizes are those of the body": bodySize and content.size are the
    UTF-8 length of the text stored as the response body. *)
Definition sizes_follow_body (r : Response) : Prop :=
  resp_bodySize r = utf8_len (content_text (resp_content r)) /\
  content_size (resp_content r) = utf8_len (content_text (resp_content r)).

(** The methods for which the CSV converter keeps a request body. *)
Definition body_methods : list string := ["POST"; "PUT"; "PATCH"; "DELETE"].

(** The values the XML converter writes into every entry. *)
Definition har_constants (e : Xml.Entry) : Prop :=
  req_headersSize (Xml.request e) = (-1)%Z /\
  resp_headersSize (Xml.response e) = (-1)%Z /\
  Xml.time e = 100%Z /\
  Xml.timings e = mkTimings 0 0 0 1 50 49 0.

End Spec.

(* ================================================================= *)
(** ** Sample inputs *)

Module Sample.

(** Stand-ins for the library calls, where a sample needs them: a decoder
    that rejects its input (the texts the CSV samples hand to it are
    plain HTTP messages that [base64.b64decode] does reject, for wrong
    padding), no query parameters, a fixed clock. *)
Definition b64_reject (_ : string) : option string := None.
Definition no_query (_ : string) : list NV := [].
Definition clock : string := "2026-01-17T17:08:18".
Definition stamp (_ : option string) : string := "2026-01-17T17:08:18Z".

Definition elem (t x : string) : Xml.Element := Xml.mkElement t (Some x) [].

(** [GET /x HTTP/1.1] with one header, CRLF and bare-LF line ends. *)
Definition get_crlf : string :=
  "GET /x HTTP/1.1" ++ CRLF ++ "Host: h" ++ CRLF ++ CRLF.
Definition get_lf : string :=
  "GET /x HTTP/1.1" ++ LF ++ "Host: h" ++ LF ++ LF.

(** A status line whose status-code token is not a number. *)
Definition bad_status : string := "HTTP/1.1 abc OK" ++ CRLF ++ CRLF.

Definition ok_response : string :=
  "HTTP/1.1 200 OK" ++ CRLF ++ "Content-Type: text/plain" ++ CRLF ++ CRLF
  ++ "hello".

(** An item that converts. *)
Definition plain_item : Xml.Item :=
  [elem "url" "http://x.test/a?b=1"; elem "request" get_crlf;
   elem "response" ok_response].

(** Host, then two Content-Type headers, the first with a parameter. *)
Definition typed_headers : list NV :=
  [mkNV "Host" "h"; mkNV "CONTENT-type" " text/html ; charset=utf-8";
   mkNV "Content-Type" "image/png"].

(** A Set-Cookie header with attributes, and one without any '='. *)
Definition cookie_with_attributes : list NV :=
  [mkNV "Set-Cookie" "sid=1; Path=/; Expires=Wed, 21 Oct 2026 07:28:00 GMT"].
Definition cookie_without_pair : list NV := [mkNV "Set-Cookie" "flag"].


(** A GET that carries a body, as an item and as a row. *)
Definition get_with_body : string :=
  "GET /x HTTP/1.1" ++ CRLF ++ "Host: h" ++ CRLF ++ CRLF ++ "q=1".
Definition get_item : Xml.Item :=
  [elem "url" "http://x.test/x"; elem "request" get_with_body;
   elem "response" ok_response].
Definition get_row : Csv.Row :=
  [("Method", Some "GET"); ("URL", Some "http://x.test/x");
   ("Request", Some get_with_body); ("Response", Some ok_response)].
Definition post_text : string :=
  "POST /x HTTP/1.1" ++ CRLF ++ "Host: h" ++ CRLF
  ++ "Content-Type: text/plain; charset=utf-8" ++ CRLF ++ CRLF ++ "hello".
Definition post_row : Csv.Row :=
  [("Method", Some "post"); ("URL", Some "http://x.test/x");
   ("Request", Some post_text); ("Response", Some ok_response)].

(** A row whose Length column disagrees with the body of its response,
    and the same row without the column. *)
Definition length_row : Csv.Row :=
  [("Method", Some "GET"); ("URL", Some "http://x.test/a?b=1");
   ("Request", Some ""); ("Response", Some ok_response);
   ("Status code", Some "200"); ("Length", Some "1234")].
Definition no_length_row : Csv.Row :=
  [("Method", Some "GET"); ("URL", Some "http://x.test/a?b=1");
   ("Request", Some ""); ("Response", Some ok_response);
   ("Status code", Some "200")].

(** Records without a usable URL. *)
Definition no_url_item : Xml.Item :=
  [elem "request" get_crlf; elem "response" ok_response].
Definition empty_url_item : Xml.Item :=
  [Xml.mkElement "url" None []; elem "request" get_crlf;
   elem "response" ok_response].
Definition empty_url_row : Csv.Row :=
  [("Method", Some "GET"); ("URL", Some ""); ("Request", Some get_crlf);
   ("Response", Some ok_response)].
Definition no_url_row : Csv.Row :=
  [("Method", Some "GET"); ("Response", Some ok_response)].

End Sample.

(* ================================================================= *)
(** ** The character properties of Unicode 14.0.0

    The three properties as CPython 3.11 has them, each a list of closed
    intervals of code points.  The decimal digits come in runs of ten,
    0 to 9 in order. *)

Module Ucd14.

Definition in_ranges (l : list (N * N)) (c : N) : bool :=
  existsb (fun r => (fst r <=? c)%N && (c <=? snd r)%N) l.

Definition spaces : list (N * N) :=
  [(9, 13); (28, 32); (133, 133); (160, 160); (5760, 5760); (8192, 8202);
   (8232, 8233); (8239, 8239); (8287, 8287); (12288, 12288)]%N.

Definition decimal_digits : list (N * N) :=
  [(48, 57); (1632, 1641); (1776, 1785); (1984, 1993); (2406, 2415);
   (2534, 2543); (2662, 2671); (2790, 2799); (2918, 2927); (3046, 3055);
   (3174, 3183); (3302, 3311); (3430, 3439); (3558, 3567); (3664, 3673);
   (3792, 3801); (3872, 3881); (4160, 4169); (4240, 4249); (6112, 6121);
   (6160, 6169); (6470, 6479); (6608, 6617); (6784, 6793); (6800, 6809);
   (6992, 7001); (7088, 7097); (7232, 7241); (7248, 7257);
   (42528, 42537); (43216, 43225); (43264, 43273); (43472, 43481);
   (43504, 43513); (43600, 43609); (44016, 44025); (65296, 65305);
   (66720, 66729); (68912, 68921); (69734, 69743); (69872, 69881);
   (69942, 69951); (70096, 70105); (70384, 70393); (70736, 70745);
   (70864, 70873); (71248, 71257); (71360, 71369); (71472, 71481);
   (71904, 71913); (72016, 72025); (72784, 72793); (73040, 73049);
   (73120, 73129); (92768, 92777); (92864, 92873); (93008, 93017);
   (120782, 120831); (123200, 123209); (123632, 123641);
   (125264, 125273); (130032, 130041)]%N.

(** Digits that are not decimal digits: superscripts, circled digits and
    the like. *)
Definition other_digits : list (N * N) :=
  [(178, 179); (185, 185); (4969, 4977); (6618, 6618); (8304, 8304);
   (8308, 8313); (8320, 8329); (9312, 9320); (9332, 9340); (9352, 9360);
   (9450, 9450); (9461, 9469); (9471, 9471); (10102, 10110);
   (10112, 10120); (10122, 10130); (68160, 68163); (69216, 69224);
   (69714, 69722); (127232, 127242)]%N.

Definition isspace (c : N) : bool := in_ranges spaces c.

Definition isdigit_cp (c : N) : bool :=
  in_ranges decimal_digits c || in_ranges other_digits c.

Definition todecimal (c : N) : option N :=
  match find (fun r => (fst r <=? c)%N && (c <=? snd r)%N) decimal_digits with
  | Some r => Some ((c - fst r) mod 10)%N
  | None => None
  end.

(** Two interval lists have no code point in common. *)
Definition apart (l1 l2 : list (N * N)) : bool :=
  forallb (fun r1 =>
    forallb (fun r2 => (snd r1 <? fst r2)%N || (snd r2 <? fst r1)%N) l2) l1.

(** [safe_int] with these properties. *)
Definition safe_int : option Uni.text -> Z -> Z :=
  Uni.safe_int isspace isdigit_cp todecimal.

End Ucd14.

(* ================================================================= *)
(** ** Further vocabulary: what the parsers accept and give back *)

Module Wire.
Import Spec.

(** The character [c] occurs in [s]. *)
Definition has_char (c : ascii) (s : string) : Prop :=
  occurs (String c EmptyString) s.

(** [s] has no blank at either end. *)
Definition is_trimmed (s : string) : Prop := strip s = s.

(** The lines of a header block and the headers read from them: reading
    stops at the first blank line, a line without ':' is passed over, a
    line with one gives the trimmed texts around its first ':'. *)
Inductive header_block : list string -> list NV -> Prop :=
  | hb_end : header_block [] []
  | hb_blank l ls : blank l -> header_block (l :: ls) []
  | hb_plain l ls hs :
      ~ blank l -> ~ occurs ":" l ->
      header_block ls hs -> header_block (l :: ls) hs
  | hb_header l ls hs n v h :
      ~ blank l -> first_cut ":" l n v ->
      trimmed n (name h) -> trimmed v (value h) ->
      header_block ls hs -> header_block (l :: ls) (h :: hs).

(** A header as it is written on the wire. *)
Definition header_line (h : NV) : string := name h ++ ": " ++ value h.

(** The header lines, each ended by CRLF. *)
Fixpoint header_text (hs : list NV) : string :=
  match hs with
  | [] => ""
  | h :: rest => header_line h ++ CRLF ++ header_text rest
  end.

(** A message: start line, header lines, blank line, body. *)
Definition message (start : string) (hs : list NV) (body : string) : string :=
  start ++ CRLF ++ header_text hs ++ CRLF ++ body.

(** A header that survives the wire: name and value trimmed and free of
    carriage returns, no ':' in the name. *)
Definition wire_header (h : NV) : Prop :=
  is_trimmed (name h) /\ is_trimmed (value h) /\
  ~ has_char ":" (name h) /\
  ~ has_char CR (name h) /\ ~ has_char CR (value h).

(** A cookie as it is written in a Cookie header, and a list of them
    separated by "; ". *)
Definition cookie_pair (c : NV) : string := name c ++ "=" ++ value c.

Fixpoint cookie_text (cs : list NV) : string :=
  match cs with
  | [] => ""
  | [c] => cookie_pair c
  | c :: rest => cookie_pair c ++ "; " ++ cookie_text rest
  end.

(** A cookie that survives the header: name and value trimmed and free of
    ';', no '=' in the name. *)
Definition wire_cookie (c : NV) : Prop :=
  is_trimmed (name c) /\ is_trimmed (value c) /\
  ~ has_char "=" (name c) /\
  ~ has_char ";" (name c) /\ ~ has_char ";" (value c).

(** A query string: "name=value" pairs joined by '&'. *)
Definition query_text (ps : list NV) : string :=
  join "&" (map cookie_pair ps).

(** A parameter that survives the URL: no '=' in the name, no '&' and no
    '#' in name or value. *)
Definition wire_param (p : NV) : Prop :=
  ~ has_char "=" (name p) /\
  ~ has_char "&" (name p) /\ ~ has_char "#" (name p) /\
  ~ has_char "&" (value p) /\ ~ has_char "#" (value p).

(** The start line the XML parsers read: the first CRLF-separated line,
    trimmed. *)
Definition start_line (text : string) : string :=
  strip (hd "" (split CRLF text)).

(** What follows a token: nothing, or a blank and more. *)
Definition token_tail (tail : string) : Prop :=
  tail = "" \/ exists more, tail = " " ++ more.

(** What every parsed header satisfies. *)
Definition clean_header (h : NV) : Prop :=
  is_trimmed (name h) /\ is_trimmed (value h) /\ ~ has_char ":" (name h).

End Wire.

(* ================================================================= *)
(** ** Further vocabulary: the record loops *)

Module Flow.

(** A computation of the item loop that only appends to the error list
    and whose result does not depend on it. *)
Definition framed {A} (c : Xml.M A) : Prop :=
  forall errs, c errs = ((errs ++ fst (c []))%list, snd (c [])).

Section Xml.

Variable b64decode_utf8 : string -> option string.
Variable parse_timestamp : option string -> string.
Variable now_iso : string.

(** The entry an item gives on its own, if any. *)
Definition entry_of (item : Xml.Item) : list Xml.Entry :=
  match snd (Xml.item_body b64decode_utf8 parse_timestamp now_iso item []) with
  | Ok (Some e) => [e]
  | _ => []
  end.

(** The messages an item, numbered [idx], adds to the error list. *)
Definition log_of (idx : nat) (item : Xml.Item) : list Xml.ErrorMsg :=
  (fst (Xml.item_body b64decode_utf8 parse_timestamp now_iso item [])
   ++ match snd (Xml.item_body b64decode_utf8 parse_timestamp now_iso
                   item []) with
      | Raise e => [Xml.ItemError idx e]
      | Ok _ => []
      end)%list.

Fixpoint logs (idx : nat) (items : list Xml.Item) : list Xml.ErrorMsg :=
  match items with
  | [] => []
  | item :: rest => (log_of idx item ++ logs (S idx) rest)%list
  end.

End Xml.

Section Csv.

Variable b64decode_utf8 : string -> option string.
Variable query_of_url : string -> list NV.
Variable now_iso : string.
Variable preserve_all_data : bool.

(** The entry a row gives, if any. *)
Definition row_entry (row : Csv.Row) : list Csv.Entry :=
  match Csv.convert_row b64decode_utf8 query_of_url now_iso
          preserve_all_data row with
  | Ok e => [e]
  | Raise _ => []
  end.

End Csv.

(** The cell of column [k] is missing: the line was too short. *)
Definition missing (row : Csv.Row) (k : string) : Prop :=
  Csv.lookup k row = Some None.

(** What holds of the request and response of every XML entry. *)
Definition sound_entry (e : Xml.Entry) : Prop :=
  req_url (Xml.request e) <> "" /\
  Wire.is_trimmed (req_url (Xml.request e)) /\
  req_method (Xml.request e) <> "" /\
  ~ Wire.has_char " " (req_method (Xml.request e)) /\
  req_queryString (Xml.request e)
    = Xml.parse_query_string (req_url (Xml.request e)) /\
  req_cookies (Xml.request e) = Xml.parse_cookies (req_headers (Xml.request e)) /\
  resp_cookies (Xml.response e)
    = Xml.extract_set_cookies (resp_headers (Xml.response e)) /\
  resp_redirectURL (Xml.response e) = "".

(** Sizes and texts of an XML entry go together. *)
Definition sized_entry (e : Xml.Entry) : Prop :=
  (req_postData (Xml.request e) = None <-> req_bodySize (Xml.request e) = 0%Z) /\
  (forall pd, req_postData (Xml.request e) = Some pd ->
     req_bodySize (Xml.request e) = utf8_len (pd_text pd)) /\
  (content_text (resp_content (Xml.response e)) = ""
     <-> resp_bodySize (Xml.response e) = 0%Z) /\
  (Z.of_nat (String.length (content_text (resp_content (Xml.response e))))
     <= resp_bodySize (Xml.response e))%Z.

(** What holds of every entry the CSV converter writes. *)
Definition sound_row_entry (e : Csv.Entry) : Prop :=
  req_method (Csv.request e) <> "" /\
  Wire.is_trimmed (req_method (Csv.request e)) /\
  Wire.is_trimmed (req_url (Csv.request e)) /\
  req_cookies (Csv.request e)
    = Csv.parse_cookies_from_headers (req_headers (Csv.request e)) /\
  resp_cookies (Csv.response e)
    = Csv.parse_cookies_from_headers (resp_headers (Csv.response e)) /\
  req_headersSize (Csv.request e)
    = Csv.calculate_headers_size (req_headers (Csv.request e)) /\
  resp_headersSize (Csv.response e)
    = Csv.calculate_headers_size (resp_headers (Csv.response e)) /\
  In (req_httpVersion (Csv.request e)) ["HTTP/2"; "HTTP/1.0"; "HTTP/1.1"] /\
  In (resp_httpVersion (Csv.response e)) ["HTTP/2"; "HTTP/1.0"; "HTTP/1.1"] /\
  content_size (resp_content (Csv.response e)) = resp_bodySize (Csv.response e) /\
  (forall pd, req_postData (Csv.request e) = Some pd ->
     pd_mimeType pd <> "" /\
     req_bodySize (Csv.request e) = utf8_len (pd_text pd)).

(** Two items that differ at most in their method and status elements. *)
Definition same_but_method_status (item item' : Xml.Item) : Prop :=
  forall t, t <> "method" -> t <> "status" ->
    Xml.find t item' = Xml.find t item.

(** A line of the CSV file that was shorter than the header row: URL
    has no cell. *)
Definition short_row : Csv.Row :=
  [("Method", Some "GET"); ("URL", None)].

End Flow.

Module SampleX.

(** A numeral of [n] digits. *)
Fixpoint ones (n : nat) : string :=
  match n with
  | O => ""
  | S n' => String "1" (ones n')
  end.

Definition two_headers : list NV :=
  [mkNV "Host" "x.test"; mkNV "Accept" "text/html, */*; q=0.8"].

Definition two_cookies : list NV := [mkNV "sid" "abc123"; mkNV "theme" "dark"].

Definition two_params : list NV := [mkNV "q" "rocq"; mkNV "page" ""].

Definition cookie_headers : list NV :=
  [mkNV "Host" "x.test"; mkNV "COOKIE" "sid=abc123; theme = dark; flag"].

(** The sample item with method and status elements that contradict its
    request and response texts. *)
Definition overridden_item : Xml.Item :=
  (Sample.elem "method" "DELETE" :: Sample.elem "status" "500"
   :: Sample.plain_item)%list.

(** An item whose request is marked base64 and is not valid base64 (three
    characters: wrong padding). *)
Definition undecodable_item : Xml.Item :=
  [Sample.elem "url" "http://x.test/";
   Xml.mkElement "request" (Some "abc") [("base64", "true")];
   Sample.elem "response" Sample.ok_response].

(** Request headers with two Content-Type headers. *)
Definition twice_typed : list NV :=
  [mkNV "Content-Type" "text/plain"; mkNV "Host" "h";
   mkNV "content-type" "application/json; charset=utf-8"; mkNV "Accept" "*/*"].

End SampleX.

(* ================================================================= *)
(** ** Facts about the string primitives *)

Module PyStrFacts.
Import Spec.

Lemma app_nil_r (s : string) : s ++ "" = s.
Proof. induction s; simpl; congruence. Qed.

Lemma app_assoc (a b c : string) : (a ++ b) ++ c = a ++ b ++ c.
Proof. induction a; simpl; congruence. Qed.

Lemma length_app (a b : string) :
  String.length (a ++ b) = String.length a + String.length b.
Proof. induction a; simpl; congruence. Qed.

Lemma prefix_true sep s :
  prefix sep s = true -> s = sep ++ drop (String.length sep) s.
Proof.
  revert s; induction sep as [|c sep IH]; intros s H.
  - reflexivity.
  - destruct s as [|d s]; simpl in H; [discriminate|].
    destruct (ascii_dec c d) as [->|]; [|discriminate].
    simpl. f_equal. now apply IH.
Qed.

Lemma prefix_app sep r : prefix sep (sep ++ r) = true.
Proof.
  induction sep as [|c sep IH]; simpl.
  - now destruct r.
  - destruct (ascii_dec c c); [exact IH|congruence].
Qed.

Lemma split_at_eq sep s :
  split_at sep s =
  if prefix sep s then Some (EmptyString, drop (String.length sep) s)
  else match s with
       | EmptyString => None
       | String c s' =>
           match split_at sep s' with
           | Some (a, b) => Some (String c a, b)
           | None => None
           end
       end.
Proof. destruct s; reflexivity. Qed.

Lemma split_at_some sep s a b :
  split_at sep s = Some (a, b) -> s = a ++ sep ++ b.
Proof.
  revert a b; induction s as [|c s IH]; intros a b H; rewrite split_at_eq in H.
  - destruct (prefix sep "") eqn:P; [|discriminate].
    inversion H; subst. now apply prefix_true in P.
  - destruct (prefix sep (String c s)) eqn:P.
    + inversion H; subst. now apply prefix_true in P.
    + destruct (split_at sep s) as [[a' b']|] eqn:E; [|discriminate].
      inversion H; subst. simpl. f_equal. now apply IH.
Qed.

Lemma split_at_first sep s a b :
  split_at sep s = Some (a, b) ->
  forall a' b', s = a' ++ sep ++ b' -> String.length a <= String.length a'.
Proof.
  revert a b; induction s as [|c s IH]; intros a b H a' b' E;
    rewrite split_at_eq in H.
  - destruct (prefix sep "") eqn:P; [|discriminate].
    inversion H; subst. simpl. lia.
  - destruct (prefix sep (String c s)) eqn:P.
    + inversion H; subst. simpl. lia.
    + destruct (split_at sep s) as [[a0 b0]|] eqn:E0; [|discriminate].
      inversion H; subst.
      destruct a' as [|d a'].
      * simpl in E. rewrite E, prefix_app in P. discriminate.
      * simpl in E. inversion E; subst. simpl.
        apply le_n_S. eapply IH; eauto.
Qed.

Lemma split_at_none sep s :
  split_at sep s = None -> ~ occurs sep s.
Proof.
  induction s as [|c s IH]; intros H [a' [b' E]]; rewrite split_at_eq in H.
  - destruct (prefix sep "") eqn:P; [discriminate|].
    destruct a'; simpl in E.
    + rewrite E, prefix_app in P. discriminate.
    + discriminate.
  - destruct (prefix sep (String c s)) eqn:P; [discriminate|].
    destruct (split_at sep s) as [[a0 b0]|] eqn:E0; [discriminate|].
    destruct a' as [|d a']; simpl in E.
    + rewrite E, prefix_app in P. discriminate.
    + inversion E; subst. apply IH; [reflexivity|]. now exists a', b'.
Qed.

Lemma split_max_not_nil k sep s : split_max k sep s <> [].
Proof.
  destruct k; simpl; [discriminate|].
  destruct (split_at sep s) as [[a b]|]; discriminate.
Qed.

Lemma split_at_cut sep s a b :
  split_at sep s = Some (a, b) -> first_cut sep s a b.
Proof.
  intro H. split; [now apply split_at_some|now apply (split_at_first _ _ _ _ H)].
Qed.

Lemma contains_occurs sub s : contains sub s = true <-> occurs sub s.
Proof.
  unfold contains. destruct (split_at sub s) as [[a b]|] eqn:E.
  - split; [|reflexivity]. intros _. exists a, b. now apply split_at_some.
  - split; [discriminate|]. intro O. now apply split_at_none in E.
Qed.

Lemma contains_false sub s : contains sub s = false <-> ~ occurs sub s.
Proof.
  rewrite <- contains_occurs. destruct (contains sub s); split; congruence.
Qed.

Lemma first_cut_clean sep s a b :
  sep <> "" -> first_cut sep s a b -> ~ occurs sep a.
Proof.
  intros N [E F] (x & y & Ea). subst a.
  specialize (F x (y ++ sep ++ b)).
  rewrite !app_assoc in E. specialize (F E).
  rewrite !length_app in F.
  assert (String.length sep = 0) as Z0 by lia.
  destruct sep; [congruence|discriminate].
Qed.

Lemma hd_split sep s :
  sep <> "" ->
  hd "" (split sep s)
  = match split_at sep s with Some (a, _) => a | None => s end.
Proof.
  intro N. unfold split. destruct s as [|c s].
  - rewrite split_at_eq. destruct sep; [congruence|reflexivity].
  - cbn [String.length split_max]. now destruct (split_at sep _) as [[a b]|].
Qed.

Lemma hd_split_cut sep s :
  sep <> "" -> cut_before sep s (hd "" (split sep s)).
Proof.
  intro N. rewrite hd_split by exact N.
  destruct (split_at sep s) as [[a b]|] eqn:E.
  - apply split_at_cut in E. split.
    + eapply first_cut_clean; eauto.
    + right. exists b. apply E.
  - split; [now apply split_at_none|now left].
Qed.

(** *** [strip] *)

Lemma lstrip_by_spec p s :
  exists l, s = l ++ lstrip_by p s /\ forall_chars p l = true /\
    forall c t', lstrip_by p s = String c t' -> p c = false.
Proof.
  induction s as [|c s (l & E & A & B)]; simpl.
  - exists "". repeat split; auto. discriminate.
  - destruct (p c) eqn:P.
    + exists (String c l). simpl. rewrite P, A. repeat split; auto. congruence.
    + exists "". repeat split; auto. intros d t' H. now inversion H; subst.
Qed.

Lemma snoc_inv (t t' : string) (c d : ascii) :
  String d t = t' ++ String c "" ->
  (t = "" /\ t' = "" /\ d = c) \/ exists t'', t' = String d t'' /\ t = t'' ++ String c "".
Proof.
  destruct t' as [|e t']; simpl; intro H; inversion H; subst; eauto.
Qed.

Lemma rstrip_by_spec p s :
  exists r, s = rstrip_by p s ++ r /\ forall_chars p r = true /\
    (forall c t', rstrip_by p s = t' ++ String c "" -> p c = false) /\
    (forall c t', rstrip_by p s = String c t' -> exists u, s = String c u).
Proof.
  induction s as [|c s (r & E & A & B & C)]; simpl.
  - exists "". split; [reflexivity|]. split; [reflexivity|]. split.
    + intros c t' H. destruct t'; discriminate.
    + discriminate.
  - destruct (rstrip_by p s) as [|d t] eqn:R.
    + destruct (p c) eqn:P.
      * exists (String c r). simpl in *. split; [now rewrite <- E|].
        split; [now rewrite P|]. split.
        -- intros x t' H. destruct t'; discriminate.
        -- discriminate.
      * exists r. simpl in *. split; [now rewrite <- E|].
        split; [exact A|]. split.
        -- intros x t' H. destruct t' as [|y t']; simpl in H.
           ++ now inversion H; subst.
           ++ inversion H. destruct t'; discriminate.
        -- intros x t' H. inversion H; subst. eauto.
    + exists r. simpl in *. split; [now rewrite <- E|].
      split; [exact A|]. split.
      * intros x t' H. apply snoc_inv in H.
        destruct H as [(H & _)|(t'' & _ & H)]; [discriminate|].
        now apply (B x t'').
      * intros x t' H. inversion H; subst. eauto.
Qed.

Lemma strip_trimmed s : trimmed s (strip s).
Proof.
  unfold strip.
  destruct (lstrip_by_spec isspace s) as (l & El & Al & Bl).
  destruct (rstrip_by_spec isspace (lstrip_by isspace s)) as (r & Er & Ar & Br & Cr).
  repeat split.
  - exists l, r. repeat split; auto. now rewrite <- Er.
  - intros c t' H. destruct (Cr c t' H) as (u & Hu). eauto.
  - exact Br.
Qed.

(** *** [split] and [join] *)

Lemma split_at_shorter sep s a b :
  sep <> "" -> split_at sep s = Some (a, b) ->
  String.length b < String.length s.
Proof.
  intros N H. apply split_at_some in H. subst s.
  rewrite !length_app. destruct sep; [congruence|simpl; lia].
Qed.

Lemma split_max_clean sep : sep <> "" -> forall k s,
  String.length s <= k ->
  Forall (fun x => ~ occurs sep x) (split_max k sep s).
Proof.
  intros N k; induction k as [|k IH]; intros s L; simpl.
  - constructor; [|constructor]. destruct s; [|simpl in L; lia].
    intros (x & y & E). destruct x; destruct sep; try discriminate; congruence.
  - destruct (split_at sep s) as [[a b]|] eqn:E.
    + constructor.
      * eapply first_cut_clean; [exact N|]. apply split_at_cut. exact E.
      * apply IH. apply (split_at_shorter _ _ _ _ N) in E. lia.
    + constructor; [|constructor]. now apply split_at_none.
Qed.

Lemma join_split_max sep k : forall s, join sep (split_max k sep s) = s.
Proof.
  induction k as [|k IH]; intro s; simpl; [reflexivity|].
  destruct (split_at sep s) as [[a b]|] eqn:E; [|reflexivity].
  specialize (IH b). unfold join in *. simpl.
  destruct (split_max k sep b) eqn:M.
  - pose proof (split_max_not_nil k sep b) as X. now rewrite M in X.
  - rewrite IH. symmetry. now apply split_at_some.
Qed.

Lemma split_segments sep s : sep <> "" -> segments sep s (split sep s).
Proof.
  intro N. unfold split. repeat split.
  - intro E. pose proof (split_max_not_nil (String.length s) sep s) as X.
    now rewrite E in X.
  - apply join_split_max.
  - now apply split_max_clean.
Qed.

Lemma split_at_empty sep : sep <> "" -> split_at sep "" = None.
Proof. intro N. rewrite split_at_eq. destruct sep; [congruence|reflexivity]. Qed.

Lemma split_max_any sep : sep <> "" -> forall n m s,
  String.length s <= n -> String.length s <= m ->
  split_max n sep s = split_max m sep s.
Proof.
  intros N n; induction n as [|n IH]; intros m s Ln Lm.
  - destruct s; [|simpl in Ln; lia].
    destruct m; cbn [split_max]; [reflexivity|].
    now rewrite split_at_empty.
  - destruct m; cbn [split_max].
    + destruct s; [|simpl in Lm; lia]. now rewrite split_at_empty.
    + destruct (split_at sep s) as [[a b]|] eqn:E; [|reflexivity].
      apply (split_at_shorter _ _ _ _ N) in E. f_equal. apply IH; lia.
Qed.

(** Enough cuts are allowed: a larger allowance changes nothing. *)
Lemma split_max_enough sep k s :
  sep <> "" -> String.length s <= k -> split_max k sep s = split sep s.
Proof.
  intros N L. unfold split. apply split_max_any; auto.
Qed.

Lemma split_max_nonempty k sep s : nonempty (split_max k sep s) = true.
Proof.
  destruct k; simpl; [reflexivity|].
  now destruct (split_at sep s) as [[a b]|].
Qed.

Lemma split_nonempty sep s : nonempty (split sep s) = true.
Proof. apply split_max_nonempty. Qed.

End PyStrFacts.

(* ================================================================= *)
(** ** The XML item loop *)

Module XmlFacts.
Import Spec Xml.

Section Loop.

Variable b64decode_utf8 : string -> option string.
Variable parse_timestamp : option string -> string.
Variable now_iso : string.

Local Abbreviation item_body :=
  (Xml.item_body b64decode_utf8 parse_timestamp now_iso).
Local Abbreviation step := (Xml.step b64decode_utf8 parse_timestamp now_iso).
Local Abbreviation loop := (Xml.loop b64decode_utf8 parse_timestamp now_iso).

(** What an appended entry is made of. *)
Lemma item_body_entry item errs errs' e :
  item_body item errs = (errs', Ok (Some e)) ->
  exists url_elem request_elem errs1 request_data response_data,
    find "url" item = Some url_elem /\
    find "request" item = Some request_elem /\
    truthy (text_or (Some url_elem) "") = true /\
    request_data_of b64decode_utf8 request_elem errs
      = (errs1, Ok request_data) /\
    request_obj_of (find "method" item) (text_or (Some url_elem) "")
      request_data = Ok (request e) /\
    response_data_of b64decode_utf8 (find "response" item) errs1
      = (errs', Ok response_data) /\
    response_obj_of (find "status" item) (find "mimetype" item)
      response_data = Ok (response e) /\
    time e = 100%Z /\ timings e = fixed_timings.
Proof.
  unfold Xml.item_body.
  destruct (find "url" item) as [url_elem|]; [|discriminate].
  destruct (find "request" item) as [request_elem|]; [|discriminate].
  destruct (truthy (text_or (Some url_elem) "")) eqn:U; simpl; [|discriminate].
  unfold mbind, lift, ret.
  destruct (request_data_of _ request_elem errs) as [errs1 [rd|x]] eqn:RD;
    [|discriminate].
  destruct (request_obj_of _ _ rd) as [ro|x] eqn:RO; [|discriminate].
  destruct (response_data_of _ _ errs1) as [errs2 [sd|x]] eqn:SD;
    [|discriminate].
  destruct (response_obj_of _ _ sd) as [so|x] eqn:SO; [|discriminate].
  intro H; inversion H; subst; simpl.
  exists url_elem, request_elem, errs1, rd, sd. repeat split; auto.
Qed.

Lemma request_obj_of_inv method_elem url data r :
  request_obj_of method_elem url data = Ok r ->
  exists method path version headers body,
    parse_http_request data = (method, path, version, Some headers, body) /\
    r = mkRequest
          (if truthy_opt method then or_default method ""
           else text_or method_elem "GET")
          url (or_default version "HTTP/1.1") (parse_cookies headers) headers
          (parse_query_string url) (-1) (actual_size body)
          (if truthy_opt body
           then Some (mkPostData (request_content_type headers)
                        (or_default body ""))
           else None).
Proof.
  unfold request_obj_of.
  destruct (parse_http_request data) as [[[[m p] v] [h|]] b]; simpl;
    [|discriminate].
  intro H; inversion H; subst. now exists m, p, v, h, b.
Qed.

Lemma response_obj_of_inv status_elem mimetype_elem data r :
  response_obj_of status_elem mimetype_elem data = Ok r ->
  exists version code status_text headers body status,
    parse_http_response data
      = Ok (version, code, status_text, Some headers, body) /\
    r = mkResponse (fst status) (or_default (snd status) "")
          (or_default version "HTTP/1.1") (extract_set_cookies headers)
          headers
          (mkContent (actual_size body)
             (response_content_type (text_or mimetype_elem "text/html")
                headers)
             (or_default body ""))
          "" (-1) (actual_size body).
Proof.
  unfold response_obj_of.
  destruct (parse_http_response data) as [[[[[v c] t] [h|]] b]|x]; simpl;
    try discriminate.
  - destruct c as [c|]; simpl.
    + intro H; inversion H; subst. now exists v, (Some c), t, h, b, (c, t).
    + destruct (status_fallback status_elem) as [c|x]; simpl; [|discriminate].
      intro H; inversion H; subst.
      now exists v, None, t, h, b, (c, Some "").
  - destruct c as [c|]; simpl; [discriminate|].
    destruct (status_fallback status_elem); simpl; discriminate.
Qed.

Lemma item_body_constants item errs errs' e :
  item_body item errs = (errs', Ok (Some e)) -> har_constants e.
Proof.
  intro H. apply item_body_entry in H.
  destruct H as (u & q & errs1 & rd & sd & _ & _ & _ & _ & RO & _ & SO & T & G).
  apply request_obj_of_inv in RO. destruct RO as (m & p & v & h & b & _ & Er).
  apply response_obj_of_inv in SO.
  destruct SO as (v' & c & t & h' & b' & st & _ & Es).
  unfold har_constants. rewrite Er, Es, T, G. repeat split.
Qed.

Lemma step_entries idx item c :
  entries (step idx item c) = entries c \/
  exists errs e,
    item_body item (errors c) = (errs, Ok (Some e)) /\
    entries (step idx item c) = (entries c ++ [e])%list.
Proof.
  unfold Xml.step.
  destruct (item_body item (errors c)) as [errs [[e|]|x]] eqn:B; simpl; auto.
  right. now exists errs, e.
Qed.

Lemma loop_constants items : forall idx c,
  Forall har_constants (entries c) ->
  Forall har_constants (entries (loop idx items c)).
Proof.
  induction items as [|item rest IH]; intros idx c F; simpl; [exact F|].
  apply IH.
  destruct (step_entries idx item c) as [->|(errs & e & B & ->)]; [exact F|].
  apply Forall_app. split; [exact F|].
  constructor; [|constructor]. eapply item_body_constants; eauto.
Qed.

End Loop.

(** C10 (convert_xml.py, parse_xml_file): every entry the XML converter
    produces, whatever the items contain, has request.headersSize and
    response.headersSize equal to -1, time equal to 100 and the timings
    object blocked 0, dns 0, connect 0, send 1, wait 50, receive 49,
    ssl 0. *)
Theorem C10_xml_entry_constants :
  forall b64decode_utf8 parse_timestamp now_iso (items : list Item),
    Forall har_constants
      (entries (parse_xml_file b64decode_utf8 parse_timestamp now_iso
                  items init)).
Proof.
  intros. unfold parse_xml_file. apply loop_constants. constructor.
Qed.

(** The sample item does produce an entry, so the statement above speaks
    of something. *)
Example plain_item_converts :
  List.length
    (entries (parse_xml_file Sample.b64_reject Sample.stamp Sample.clock
                [Sample.plain_item] init)) = 1.
Proof. vm_compute. reflexivity. Qed.

End XmlFacts.

(* ================================================================= *)
(** ** The raw message parsers *)

Module ParserFacts.
Import Spec PyStrFacts.

(** [str.split] never answers with an empty list, so the branch of
    [parse_headers] that would split on a bare line feed is never
    taken. *)
Lemma xml_parse_headers_crlf_only header_text :
  Xml.parse_headers header_text
  = Xml.header_lines (tl (split CRLF header_text)).
Proof.
  unfold Xml.parse_headers. now rewrite split_nonempty.
Qed.



(** C2 (convert_xml.py, parse_http_response): the response parser run on
    a status line whose status-code token is not a number.  [int(parts[1])]
    raises ValueError out of the parser; in the item loop the item is then
    dropped and logged instead of being built from default values. *)
Theorem C2_response_status_token_raises :
  Xml.parse_http_response Sample.bad_status = Raise ValueError /\
  Xml.step Sample.b64_reject Sample.stamp Sample.clock 1
    [Sample.elem "url" "http://x.test/"; Sample.elem "request" Sample.get_crlf;
     Sample.elem "response" Sample.bad_status] Xml.init
  = Xml.mkConverter [] 0 0 [Xml.ItemError 1 ValueError].
Proof. split; vm_compute; reflexivity. Qed.

(** C6 (convert_xml.py parse_headers, convert_csv.py parse_http_headers):
    the header parsers run on a message with bare line feeds and on the
    same message with CRLF.  Both parsers cut on CRLF only, so the first
    form yields no header and the second yields Host. *)
Theorem C6_bare_lf_headers_lost :
  Xml.parse_headers Sample.get_lf = [] /\
  Xml.parse_headers Sample.get_crlf = [mkNV "Host" "h"] /\
  Csv.parse_http_headers Sample.get_lf = [] /\
  Csv.parse_http_headers Sample.get_crlf = [mkNV "Host" "h"].
Proof. repeat split; vm_compute; reflexivity. Qed.

(** *** The body *)


Lemma truthy_false s : truthy s = false -> s = "".
Proof.
  unfold truthy. intro H. apply negb_false_iff in H. now apply String.eqb_eq.
Qed.

Lemma truthy_true s : truthy s = true <-> s <> "".
Proof.
  unfold truthy. rewrite negb_true_iff. apply String.eqb_neq.
Qed.

Lemma nth1_split_max sep s a b :
  split_at sep s = Some (a, b) -> nth 1 (split_max 1 sep s) "" = b.
Proof. intro E. simpl. now rewrite E. Qed.


Lemma blank_dec line : negb (truthy (strip line)) = true <-> blank line.
Proof.
  unfold blank, truthy. rewrite negb_involutive. apply String.eqb_eq.
Qed.

Lemma body_lines_started lines : Xml.body_lines true lines = lines.
Proof. induction lines; simpl; congruence. Qed.

Lemma body_lines_after head : forall b rest,
  Forall (fun l => ~ blank l) head -> blank b ->
  Xml.body_lines false (head ++ b :: rest) = rest.
Proof.
  induction head as [|l head IH]; intros b rest F B; simpl.
  - apply blank_dec in B. rewrite B. apply body_lines_started.
  - inversion F as [|? ? N F']; subst.
    destruct (negb (truthy (strip l))) eqn:T.
    + apply blank_dec in T. contradiction.
    + now apply IH.
Qed.


Lemma request_body_slot text :
  Xml.parse_http_request text = Xml.no_result \/
  body_slot (Xml.parse_http_request text) = Xml.body_of (split CRLF text).
Proof.
  unfold Xml.parse_http_request. rewrite split_nonempty. cbn [negb].
  destruct (split " " _) as [|a [|b [|c l]]]; auto.
Qed.

Lemma response_body_slot text :
  Xml.parse_http_response text = Raise ValueError \/
  Xml.parse_http_response text = Ok Xml.no_result \/
  exists p, Xml.parse_http_response text = Ok p /\
            body_slot p = Xml.body_of (split CRLF text).
Proof.
  unfold Xml.parse_http_response. rewrite split_nonempty. cbn [negb].
  destruct (split_max 2 " " _) as [|a [|b [|c l]]]; auto.
  destruct (py_int b); auto. right. right. eauto.
Qed.







End ParserFacts.

(* ================================================================= *)
(** ** Headers: MIME type and cookies *)

Module HeaderFacts.
Import Spec PyStrFacts.

Lemma named_true (n lit : string) :
  same_name n lit -> (lower n =? lower lit) = true.
Proof. intro S. now apply String.eqb_eq. Qed.

Lemma named_false (n lit : string) :
  ~ same_name n lit -> (lower n =? lower lit) = false.
Proof. intro S. now apply String.eqb_neq. Qed.

Lemma not_named (n lit : string) :
  (lower n =? lower lit) = false -> ~ same_name n lit.
Proof. intros F S. apply named_true in S. congruence. Qed.

Lemma named_iff (n lit : string) :
  (lower n =? lower lit) = true <-> same_name n lit.
Proof. apply String.eqb_eq. Qed.

Lemma csv_mime_skip pre l :
  none_named "Content-Type" pre ->
  Csv.get_mime_type_from_headers (pre ++ l)
  = Csv.get_mime_type_from_headers l.
Proof.
  induction 1 as [|h pre N _ IH]; simpl; [reflexivity|].
  apply named_false in N. change (lower "Content-Type") with "content-type" in N.
  now rewrite N.
Qed.

Lemma xml_mime_skip default pre l :
  none_named "Content-Type" pre ->
  Xml.response_content_type default (pre ++ l)
  = Xml.response_content_type default l.
Proof.
  induction 1 as [|h pre N _ IH]; simpl; [reflexivity|].
  apply named_false in N. change (lower "Content-Type") with "content-type" in N.
  now rewrite N.
Qed.

(** C9 (convert_csv.py get_mime_type_from_headers; convert_xml.py, the
    response Content-Type loop): for every header list, the MIME type is
    the value of the first header whose name equals Content-Type up to
    case, cut before its first ';' and trimmed; without such a header
    the extractor returns the empty string (the XML loop, which has the
    caller's fallback built in, then keeps that fallback). *)
Theorem C9_mime_type_of_first_content_type :
  forall headers : list NV,
    (forall pre h post,
       headers = (pre ++ h :: post)%list ->
       none_named "Content-Type" pre ->
       same_name (name h) "Content-Type" ->
       exists seg,
         cut_before ";" (value h) seg /\
         trimmed seg (Csv.get_mime_type_from_headers headers) /\
         forall default,
           Xml.response_content_type default headers
           = Csv.get_mime_type_from_headers headers) /\
    (none_named "Content-Type" headers ->
       Csv.get_mime_type_from_headers headers = "" /\
       forall default, Xml.response_content_type default headers = default).
Proof.
  intro headers. split.
  - intros pre h post -> N S.
    apply named_true in S.
    change (lower "Content-Type") with "content-type" in S.
    exists (hd "" (split ";" (value h))).
    split; [apply hd_split_cut; discriminate|].
    split.
    + rewrite csv_mime_skip by exact N. simpl. rewrite S. apply strip_trimmed.
    + intro d. rewrite csv_mime_skip, xml_mime_skip by exact N.
      simpl. now rewrite S.
  - intro N. split.
    + rewrite <- (List.app_nil_r headers). now rewrite csv_mime_skip.
    + intro d. rewrite <- (List.app_nil_r headers). now rewrite xml_mime_skip.
Qed.

Lemma C9_witness :
  exists seg,
    cut_before ";" " text/html ; charset=utf-8" seg /\
    trimmed seg (Csv.get_mime_type_from_headers Sample.typed_headers) /\
    forall default,
      Xml.response_content_type default Sample.typed_headers
      = Csv.get_mime_type_from_headers Sample.typed_headers.
Proof.
  apply (proj1 (C9_mime_type_of_first_content_type Sample.typed_headers)
           [mkNV "Host" "h"]
           (mkNV "CONTENT-type" " text/html ; charset=utf-8")
           [mkNV "Content-Type" "image/png"]).
  - reflexivity.
  - constructor; [|constructor]. unfold same_name. vm_compute. discriminate.
  - reflexivity.
Defined.

Example typed_headers_mime :
  Csv.get_mime_type_from_headers Sample.typed_headers = "text/html".
Proof. vm_compute. reflexivity. Qed.

(** *** Cookies *)

Lemma cookie_of_split_at seg n v :
  split_at "=" seg = Some (n, v) -> cookie_of seg (mkNV (strip n) (strip v)).
Proof.
  intro E. exists n, v. split; [now apply split_at_cut|].
  split; apply strip_trimmed.
Qed.

Lemma xml_set_cookies headers :
  set_cookies headers (Xml.extract_set_cookies headers).
Proof.
  induction headers as [|h hs IH]; [constructor|].
  unfold Xml.extract_set_cookies. cbn [flat_map].
  fold (Xml.extract_set_cookies hs).
  destruct (lower (name h) =? "set-cookie") eqn:T.
  - apply (named_iff (name h) "Set-Cookie") in T.
    pose proof (hd_split_cut ";" (value h)) as C.
    destruct (split ";" (value h)) as [|first rest] eqn:S.
    + pose proof (split_nonempty ";" (value h)) as X.
      rewrite S in X. discriminate.
    + simpl in C. specialize (C ltac:(discriminate)).
      destruct (split_at "=" first) as [[n v]|] eqn:E; simpl.
      * eapply sc_pair; eauto. now apply cookie_of_split_at.
      * eapply sc_bare; eauto. now apply split_at_none.
  - simpl. apply sc_other; [|exact IH].
    now apply not_named.
Qed.

Lemma csv_piece_cookies segs : piece_cookies segs (Csv.cookie_parts segs).
Proof.
  induction segs as [|seg segs IH]; simpl; [constructor|].
  destruct (split_at "=" seg) as [[n v]|] eqn:E.
  - apply pc_pair; [now apply cookie_of_split_at|exact IH].
  - apply pc_bare; [now apply split_at_none|exact IH].
Qed.

Lemma csv_header_cookies headers :
  header_cookies headers (Csv.parse_cookies_from_headers headers).
Proof.
  induction headers as [|h hs IH]; [constructor|].
  unfold Csv.parse_cookies_from_headers. cbn [flat_map].
  fold (Csv.parse_cookies_from_headers hs).
  unfold in_list. cbn [existsb].
  destruct (lower (name h) =? "cookie") eqn:T1;
    [|destruct (lower (name h) =? "set-cookie") eqn:T2]; cbn [orb].
  - apply hc_named with (segs := split ";" (value h));
      auto using csv_piece_cookies.
    + left. now apply (named_iff (name h) "Cookie").
    + apply split_segments. discriminate.
  - apply hc_named with (segs := split ";" (value h));
      auto using csv_piece_cookies.
    + right. now apply (named_iff (name h) "Set-Cookie").
    + apply split_segments. discriminate.
  - apply hc_other; auto.
    + now apply not_named.
    + now apply not_named.
Qed.

(** C4, as amended (convert_xml.py extract_set_cookies, convert_csv.py
    parse_cookies_from_headers): for every header list, the XML extractor
    yields, in header order, one cookie for each header named Set-Cookie
    up to case whose piece before the first ';' contains '=' - name and
    value being what surrounds the first '=' of that piece, trimmed - and
    nothing for a Set-Cookie header whose first piece has no '='; the CSV
    extractor yields, for each header named Cookie or Set-Cookie, one
    cookie for every ';'-separated piece that contains '=', attribute
    pieces included. *)
Theorem C4_response_cookies :
  (forall headers, set_cookies headers (Xml.extract_set_cookies headers)) /\
  (forall headers,
     header_cookies headers (Csv.parse_cookies_from_headers headers)).
Proof. split; [apply xml_set_cookies|apply csv_header_cookies]. Qed.

(** C4 as stated fails for both extractors: the CSV one turns the Path
    and Expires attributes into cookies of their own, the XML one yields
    no cookie for a Set-Cookie header without '='. *)
Lemma C4_counterexample :
  Csv.parse_cookies_from_headers Sample.cookie_with_attributes
  = [mkNV "sid" "1"; mkNV "Path" "/";
     mkNV "Expires" "Wed, 21 Oct 2026 07:28:00 GMT"] /\
  Xml.extract_set_cookies Sample.cookie_without_pair = [] /\
  ~ one_cookie_per_set_cookie Csv.parse_cookies_from_headers /\
  ~ one_cookie_per_set_cookie Xml.extract_set_cookies.
Proof.
  split; [vm_compute; reflexivity|].
  split; [vm_compute; reflexivity|].
  split; intro H.
  - specialize (H Sample.cookie_with_attributes). vm_compute in H. discriminate.
  - specialize (H Sample.cookie_without_pair). vm_compute in H. discriminate.
Qed.

End HeaderFacts.

(* ================================================================= *)
(** ** The CSV row loop *)

Module CsvFacts.
Import Spec PyStrFacts Csv.

Section Rows.

Variable b64decode_utf8 : string -> option string.
Variable query_of_url : string -> list NV.
Variable now_iso : string.
Variable preserve_all_data : bool.

Local Abbreviation convert_row :=
  (Csv.convert_row b64decode_utf8 query_of_url now_iso preserve_all_data).
Local Abbreviation raw_request := (Spec.raw_request b64decode_utf8).
Local Abbreviation raw_response := (Spec.raw_response b64decode_utf8).

(** What a written entry is made of. *)
Lemma convert_row_entry row e :
  convert_row row = Ok e ->
  exists mime m url redirect,
    strip_of (get row "Method" (Some "GET")) = Ok m /\
    strip_of (get row "URL" (Some "")) = Ok url /\
    request e
    = mkRequest (if truthy m then m else "GET") url
        (extract_http_version (raw_request row))
        (parse_cookies_from_headers (parse_http_headers (raw_request row)))
        (parse_http_headers (raw_request row)) (query_of_url url)
        (calculate_headers_size (parse_http_headers (raw_request row)))
        (if truthy (extract_body (raw_request row))
         then utf8_len (extract_body (raw_request row)) else 0%Z)
        (if truthy (extract_body (raw_request row))
            && in_list (upper (if truthy m then m else "GET")) body_methods
         then Some (mkPostData
                      (if truthy (get_mime_type_from_headers
                                    (parse_http_headers (raw_request row)))
                       then get_mime_type_from_headers
                              (parse_http_headers (raw_request row))
                       else "application/octet-stream")
                      (extract_body (raw_request row)))
         else None) /\
    response e
    = mkResponse (safe_int (get row "Status code" None) 0)
        (extract_status_text (raw_response row))
        (if truthy (raw_response row)
         then extract_http_version (raw_response row)
         else extract_http_version (raw_request row))
        (parse_cookies_from_headers (parse_http_headers (raw_response row)))
        (parse_http_headers (raw_response row))
        (mkContent (safe_int (get row "Length" None) (-1)) mime
           (extract_body (raw_response row)))
        redirect
        (calculate_headers_size (parse_http_headers (raw_response row)))
        (safe_int (get row "Length" None) (-1)).
Proof.
  unfold Csv.convert_row, Spec.raw_request, Spec.raw_response.
  destruct (or_else _ (strip_of (get row "MIME type" (Some ""))))
    as [mime|x]; [|discriminate].
  destruct (strip_of (get row "Method" (Some "GET"))) as [m|x];
    [|discriminate].
  cbn [bind]. unfold or_else at 1.
  destruct (strip_of (get row "URL" (Some ""))) as [url|x];
    [|destruct (truthy m); discriminate].
  destruct (strip_of (get row "Redirect URL" (Some ""))) as [redirect|x];
    [|destruct (truthy m); discriminate].
  destruct (strip_of (get row "IP" (Some ""))) as [ip|x];
    [|destruct (truthy m); discriminate].
  destruct (strip_of (get row "Connection ID" (Some ""))) as [conn|x];
    [|destruct (truthy m); discriminate].
  intro H. exists mime, m, url, redirect.
  destruct (truthy m); cbn [bind] in H; inversion H; subst; cbn;
    repeat split; reflexivity.
Qed.

End Rows.

Lemma in_list_In s l : in_list s l = true <-> In s l.
Proof.
  unfold in_list. rewrite existsb_exists. split.
  - intros (x & I & E). apply String.eqb_eq in E. now subst.
  - intro I. exists s. split; [exact I|apply String.eqb_refl].
Qed.

End CsvFacts.

(* ================================================================= *)
(** ** The entries: postData and sizes *)

Module EntryFacts.
Import Spec PyStrFacts ParserFacts XmlFacts CsvFacts.

Lemma truthy_opt_true o :
  Xml.truthy_opt o = true <-> exists b, o = Some b /\ b <> "".
Proof.
  destruct o as [b|]; simpl.
  - rewrite truthy_true. split; [eauto|]. now intros (b' & [= ->] & N).
  - split; [discriminate|]. now intros (b' & [=] & _).
Qed.

Lemma or_default_truthy o b : o = Some b -> b <> "" -> Xml.or_default o "" = b.
Proof.
  intros -> N. simpl. apply truthy_true in N. now rewrite N.
Qed.

(** C5, as amended (convert_csv.py, the row loop; convert_xml.py, the
    item loop): the CSV converter attaches postData to a request exactly
    when the body extracted from the raw request is non-empty and the
    method, upper-cased, is POST, PUT, PATCH or DELETE, and the text is
    that body; the XML converter attaches postData exactly when the body
    it parsed from the raw request is non-empty, whatever the method, and
    the text is that body. *)
Theorem C5_post_data :
  (forall b64 q now keep row e,
     Csv.convert_row b64 q now keep row = Ok e ->
     (req_postData (Csv.request e) <> None <->
        Csv.extract_body (raw_request b64 row) <> "" /\
        In (upper (req_method (Csv.request e))) body_methods) /\
     (forall pd, req_postData (Csv.request e) = Some pd ->
        pd_text pd = Csv.extract_body (raw_request b64 row))) /\
  (forall b64 pts now item errs errs' e,
     Xml.item_body b64 pts now item errs = (errs', Ok (Some e)) ->
     exists request_elem errs1 data,
       Xml.find "request" item = Some request_elem /\
       Xml.request_data_of b64 request_elem errs = (errs1, Ok data) /\
       (req_postData (Xml.request e) <> None <->
          exists body,
            body_slot (Xml.parse_http_request data) = Some body /\
            body <> "") /\
       (forall pd, req_postData (Xml.request e) = Some pd ->
          body_slot (Xml.parse_http_request data) = Some (pd_text pd))).
Proof.
  split.
  - intros b64 q now keep row e H.
    apply convert_row_entry in H.
    destruct H as (mime & m & url & redirect & _ & _ & -> & _).
    cbn [req_postData req_method].
    destruct (truthy (Csv.extract_body (raw_request b64 row))) eqn:T;
      cbn [andb].
    + apply truthy_true in T.
      destruct (in_list _ body_methods) eqn:I.
      * apply in_list_In in I. split.
        -- split; [auto|discriminate].
        -- now intros pd [= <-].
      * split; [|discriminate]. split; [congruence|].
        intros [_ I']. apply in_list_In in I'. congruence.
    + apply truthy_false in T. split; [|discriminate].
      split; [congruence|]. intros [N _]. congruence.
  - intros b64 pts now item errs errs' e H.
    apply item_body_entry in H.
    destruct H as (u & r & errs1 & rd & sd & _ & Fr & _ & RD & RO & _).
    apply request_obj_of_inv in RO.
    destruct RO as (m & p & v & h & b & P & ->).
    exists r, errs1, rd. split; [exact Fr|]. split; [exact RD|].
    rewrite P. cbn [req_postData body_slot snd].
    destruct (Xml.truthy_opt b) eqn:T.
    + apply truthy_opt_true in T. destruct T as (body & -> & N). split.
      * split; [eauto|discriminate].
      * intros pd [= <-]. cbn [pd_text].
        apply truthy_true in N. now rewrite N.
    + split; [|discriminate]. split; [congruence|].
      intro E. apply truthy_opt_true in E. congruence.
Qed.

Lemma C5_witness :
  (exists e,
     Csv.convert_row Sample.b64_reject Sample.no_query Sample.clock true
       Sample.post_row = Ok e /\
     (req_postData (Csv.request e) <> None <->
        Csv.extract_body (raw_request Sample.b64_reject Sample.post_row) <> "" /\
        In (upper (req_method (Csv.request e))) body_methods)) /\
  (exists e request_elem errs1 data,
     Xml.item_body Sample.b64_reject Sample.stamp Sample.clock
       Sample.get_item [] = ([], Ok (Some e)) /\
     Xml.find "request" Sample.get_item = Some request_elem /\
     Xml.request_data_of Sample.b64_reject request_elem [] = (errs1, Ok data) /\
     (req_postData (Xml.request e) <> None <->
        exists body,
          body_slot (Xml.parse_http_request data) = Some body /\
          body <> "")).
Proof.
  split.
  - eexists. split; [lazy; reflexivity|].
    refine (proj1 (proj1 C5_post_data Sample.b64_reject Sample.no_query
                     Sample.clock true Sample.post_row _ _)).
    lazy; reflexivity.
  - assert (B : exists e, Xml.item_body Sample.b64_reject Sample.stamp
                  Sample.clock Sample.get_item [] = ([], Ok (Some e)))
      by (eexists; lazy; reflexivity).
    destruct B as (e & B).
    destruct (proj2 C5_post_data _ _ _ _ _ _ _ B)
      as (r & errs1 & data & F & D & I & _).
    exists e, r, errs1, data. auto.
Defined.

Lemma actual_size_utf8 body :
  Xml.actual_size body = utf8_len (Xml.or_default body "").
Proof.
  destruct body as [b|]; simpl; [|reflexivity].
  destruct (truthy b); reflexivity.
Qed.

Lemma utf8_len_truthy body :
  (if truthy body then utf8_len body else 0%Z) = utf8_len body.
Proof.
  destruct (truthy body) eqn:T; [reflexivity|].
  apply truthy_false in T. now subst.
Qed.

(** C1, as amended (convert_xml.py and convert_csv.py, the response
    objects): in the XML converter the response's bodySize and
    content.size both equal the UTF-8 byte length of the body parsed from
    the decoded response text (0 when there is none), which is also the
    text stored; in the CSV converter the stored text is the body
    extracted from the decoded response, but bodySize and content.size
    are both safe_int of the row's Length column with default -1, taken
    from the source and not from that body.  The CSV request's bodySize
    is the UTF-8 byte length of the extracted request body. *)
Theorem C1_body_sizes :
  (forall b64 pts now item errs errs' e,
     Xml.item_body b64 pts now item errs = (errs', Ok (Some e)) ->
     sizes_follow_body (Xml.response e) /\
     exists errs1 data parsed,
       Xml.response_data_of b64 (Xml.find "response" item) errs1
         = (errs', Ok data) /\
       Xml.parse_http_response data = Ok parsed /\
       content_text (resp_content (Xml.response e))
         = Xml.or_default (body_slot parsed) "") /\
  (forall b64 q now keep row e,
     Csv.convert_row b64 q now keep row = Ok e ->
     content_text (resp_content (Csv.response e))
       = Csv.extract_body (raw_response b64 row) /\
     resp_bodySize (Csv.response e)
       = Csv.safe_int (Csv.get row "Length" None) (-1) /\
     content_size (resp_content (Csv.response e))
       = Csv.safe_int (Csv.get row "Length" None) (-1) /\
     req_bodySize (Csv.request e)
       = utf8_len (Csv.extract_body (raw_request b64 row))).
Proof.
  split.
  - intros b64 pts now item errs errs' e H.
    apply item_body_entry in H.
    destruct H as (u & r & errs1 & rd & sd & _ & _ & _ & _ & _ & SD & SO & _).
    apply response_obj_of_inv in SO.
    destruct SO as (v & c & t & h & b & st & P & ->).
    split.
    + unfold sizes_follow_body. cbn. split; apply actual_size_utf8.
    + exists errs1, sd, (v, c, t, Some h, b). auto.
  - intros b64 q now keep row e H.
    apply convert_row_entry in H.
    destruct H as (mime & m & url & redirect & _ & _ & -> & ->).
    cbn. repeat split; auto. apply utf8_len_truthy.
Qed.

Lemma C1_witness :
  (exists e,
     Xml.item_body Sample.b64_reject Sample.stamp Sample.clock
       Sample.plain_item [] = ([], Ok (Some e)) /\
     sizes_follow_body (Xml.response e)) /\
  (exists e,
     Csv.convert_row Sample.b64_reject Sample.no_query Sample.clock true
       Sample.length_row = Ok e /\
     resp_bodySize (Csv.response e)
       = Csv.safe_int (Csv.get Sample.length_row "Length" None) (-1)).
Proof.
  split.
  - eexists. split; [lazy; reflexivity|].
    refine (proj1 (proj1 C1_body_sizes Sample.b64_reject Sample.stamp
                     Sample.clock Sample.plain_item [] [] _ _)).
    lazy; reflexivity.
  - eexists. split; [lazy; reflexivity|].
    refine (proj1 (proj2 (proj2 C1_body_sizes Sample.b64_reject
                            Sample.no_query Sample.clock true
                            Sample.length_row _ _))).
    lazy; reflexivity.
Defined.

(** C1 as stated fails in the CSV converter: the response of the sample
    row has the five-byte body "hello", and both sizes are the 1234 of
    its Length column; without the column both are -1. *)
Lemma C1_counterexample :
  (exists e,
     Csv.convert_row Sample.b64_reject Sample.no_query Sample.clock true
       Sample.length_row = Ok e /\
     content_text (resp_content (Csv.response e)) = "hello" /\
     resp_bodySize (Csv.response e) = 1234%Z /\
     content_size (resp_content (Csv.response e)) = 1234%Z /\
     ~ sizes_follow_body (Csv.response e)) /\
  (exists e,
     Csv.convert_row Sample.b64_reject Sample.no_query Sample.clock true
       Sample.no_length_row = Ok e /\
     content_text (resp_content (Csv.response e)) = "hello" /\
     resp_bodySize (Csv.response e) = (-1)%Z /\
     ~ sizes_follow_body (Csv.response e)).
Proof.
  split; eexists; (split; [lazy; reflexivity|]); cbn;
    repeat split; try reflexivity;
    unfold sizes_follow_body; cbn; intros [H _]; discriminate H.
Qed.

(** C5 as stated fails in the XML converter: the sample GET carries a
    body and its request gets a postData block. *)
Lemma C5_counterexample :
  map (fun e => (req_method (Xml.request e), req_postData (Xml.request e)))
    (Xml.entries
       (Xml.parse_xml_file Sample.b64_reject Sample.stamp Sample.clock
          [Sample.get_item] Xml.init))
  = [("GET", Some (mkPostData "application/octet-stream" "q=1"))].
Proof. vm_compute. reflexivity. Qed.

(** The CSV converter, on the same request, attaches none. *)
Example csv_get_body_dropped :
  match Csv.convert_row Sample.b64_reject Sample.no_query Sample.clock true
          Sample.get_row with
  | Ok e => req_postData (Csv.request e)
  | Raise _ => None
  end = None.
Proof. vm_compute. reflexivity. Qed.

End EntryFacts.

(* ================================================================= *)
(** ** Records that cannot be minimally parsed *)

Module SkipFacts.
Import Spec PyStrFacts ParserFacts XmlFacts CsvFacts.

Lemma text_or_empty u : url_text_empty u -> Xml.text_or (Some u) "" = "".
Proof.
  unfold url_text_empty, Xml.text_or. destruct (Xml.text u) as [t|]; simpl.
  - intro B. destruct (truthy t); [exact B|reflexivity].
  - reflexivity.
Qed.

Lemma xml_item_skipped b64 pts now item errs :
  not_minimal item ->
  Xml.item_body b64 pts now item errs = (errs, Ok None).
Proof.
  unfold Xml.item_body. intros [U|[R|(u & U & E)]].
  - now rewrite U.
  - rewrite R. now destruct (Xml.find "url" item).
  - rewrite U. destruct (Xml.find "request" item); [|reflexivity].
    now rewrite (text_or_empty u E).
Qed.

Lemma get_complete row k d :
  complete row -> exists v, Csv.get row k (Some d) = Some v.
Proof.
  unfold Csv.get. induction 1 as [|[k' v] row N _ IH]; simpl; [eauto|].
  destruct (k =? k'); [|exact IH].
  simpl in N. destruct v; [eauto|congruence].
Qed.

Lemma strip_of_complete row k d :
  complete row ->
  exists v, Csv.get row k (Some d) = Some v /\
            strip_of (Csv.get row k (Some d)) = Ok (strip v).
Proof.
  intro C. destruct (get_complete row k d C) as (v & E).
  exists v. now rewrite E.
Qed.

Lemma csv_row_written b64 q now keep row :
  complete row ->
  exists e,
    Csv.convert_row b64 q now keep row = Ok e /\
    req_url (Csv.request e) = strip (url_cell row).
Proof.
  intro C. unfold Csv.convert_row, url_cell.
  destruct (strip_of_complete row "MIME type" "" C) as (v1 & _ & ->).
  destruct (strip_of_complete row "Method" "GET" C) as (v2 & _ & ->).
  destruct (strip_of_complete row "URL" "" C) as (v3 & -> & ->).
  destruct (strip_of_complete row "Redirect URL" "" C) as (v4 & _ & ->).
  destruct (strip_of_complete row "IP" "" C) as (v5 & _ & ->).
  destruct (strip_of_complete row "Connection ID" "" C) as (v6 & _ & ->).
  unfold Csv.or_else.
  destruct (truthy
              (Csv.get_mime_type_from_headers
                 (Csv.parse_http_headers
                    (Csv.decode_base64_safe b64
                       (Csv.get row "Response" (Some ""))))));
    cbn [bind]; destruct (truthy (strip v2)); cbn [bind];
    eexists; split; reflexivity.
Qed.

(** C3, as amended (convert_xml.py and convert_csv.py, the record loops):
    in the XML converter an item without a url element, without a request
    element, or whose URL text is missing, empty or blank is skipped and
    leaves the converter as it was: no entry, no error recorded, no
    counter moved.  In the CSV converter no row is skipped for its URL or
    its request: a row whose cells are all present is written as an entry,
    with the trimmed URL cell as url (the empty string when the column is
    missing, empty or blank), and is counted as processed, not as an
    error. *)
Theorem C3_unparsable_records :
  (forall b64 pts now idx item c,
     not_minimal item -> Xml.step b64 pts now idx item c = c) /\
  (forall b64 q now keep row st,
     complete row ->
     exists e,
       Csv.step b64 q now keep st row
       = Csv.mkStream (Csv.written st ++ [e])
           (S (Csv.processed_count st)) (Csv.error_count st) /\
       req_url (Csv.request e) = strip (url_cell row)).
Proof.
  split.
  - intros b64 pts now idx item c N. unfold Xml.step.
    rewrite (xml_item_skipped b64 pts now item (Xml.errors c) N).
    now destruct c.
  - intros b64 q now keep row st C.
    destruct (csv_row_written b64 q now keep row C) as (e & E & U).
    exists e. unfold Csv.step. rewrite E. auto.
Qed.

Lemma C3_witness :
  Xml.step Sample.b64_reject Sample.stamp Sample.clock 1
    Sample.empty_url_item Xml.init = Xml.init /\
  exists e,
    Csv.step Sample.b64_reject Sample.no_query Sample.clock true
      (Csv.mkStream [] 0 0) Sample.no_url_row
    = Csv.mkStream ([] ++ [e]) 1 0 /\
    req_url (Csv.request e) = strip (url_cell Sample.no_url_row).
Proof.
  split.
  - apply (proj1 C3_unparsable_records).
    right. right. exists (Xml.mkElement "url" None []).
    split; reflexivity.
  - apply (proj2 C3_unparsable_records Sample.b64_reject Sample.no_query
             Sample.clock true Sample.no_url_row (Csv.mkStream [] 0 0)).
    repeat constructor; discriminate.
Defined.

(** C3 as stated fails in both converters: the XML item without a url
    element is skipped but recorded nowhere in the error list, and the CSV
    row with an empty URL is written as an entry and counted as
    processed. *)
Lemma C3_counterexample :
  Xml.parse_xml_file Sample.b64_reject Sample.stamp Sample.clock
    [Sample.no_url_item] Xml.init
  = Xml.mkConverter [] 1 0 [] /\
  (let st := Csv.convert_csv_to_har_stream Sample.b64_reject Sample.no_query
               Sample.clock true [Sample.empty_url_row] in
   map (fun e => req_url (Csv.request e)) (Csv.written st) = [""] /\
   Csv.processed_count st = 1 /\ Csv.error_count st = 0).
Proof. split; [|repeat split]; vm_compute; reflexivity. Qed.

End SkipFacts.

(* ================================================================= *)
(** ** safe_int *)

Module NumberFacts.
Import Spec PyStrFacts.
Local Open Scope Z_scope.

Lemma dec_value_app a b :
  dec_value (a ++ b)
  = dec_value a * 10 ^ Z.of_nat (String.length b) + dec_value b.
Proof.
  induction a as [|c a IH]; simpl; [lia|].
  rewrite IH, length_app, Nat2Z.inj_add, Z.pow_add_r by lia. ring.
Qed.

Lemma read_digits_app ds : forall acc cnt rest,
  all_digits ds -> no_digit_head rest ->
  read_digits acc cnt (ds ++ rest)
  = (acc * 10 ^ Z.of_nat (String.length ds) + dec_value ds,
     (cnt + String.length ds)%nat, rest).
Proof.
  induction ds as [|c ds IH]; intros acc cnt rest A N.
  - simpl. rewrite Nat.add_0_r, Z.mul_1_r, Z.add_0_r.
    destruct rest as [|d rest]; [reflexivity|].
    simpl in *. now rewrite N.
  - unfold all_digits in A. simpl in A. apply andb_true_iff in A.
    destruct A as [C A]. cbn [append read_digits]. rewrite C.
    rewrite IH by assumption. cbn [String.length dec_value].
    rewrite Nat2Z.inj_succ, Z.pow_succ_r by lia.
    f_equal. f_equal; [ring|lia].
Qed.

Lemma digits_prefix s :
  exists ds r, s = ds ++ r /\ all_digits ds /\ no_digit_head r.
Proof.
  induction s as [|c s (ds & r & E & A & N)].
  - exists "", "". repeat split.
  - destruct (is_ascii_digit c) eqn:C.
    + exists (String c ds), r. subst s. repeat split; auto.
      unfold all_digits. simpl. now rewrite C.
    + exists "", (String c s). repeat split; auto.
Qed.

Lemma all_digits_length ip : ip <> "" -> String.length ip <> 0%nat.
Proof. destruct ip; [congruence|discriminate]. Qed.

Lemma read_decimal_numeral body ip fp :
  numeral body false ip fp ->
  read_decimal body = Some (dec_value (ip ++ fp), String.length fp).
Proof.
  inversion 1 as [neg ip' A N|neg ip' fp' A B N]; subst; cbn [sign append];
    unfold read_decimal.
  - rewrite <- (app_nil_r ip) at 1.
    rewrite read_digits_app by first [assumption | exact I]. cbn [Nat.add].
    apply all_digits_length in N.
    destruct (Nat.eqb_spec (String.length ip) 0); [contradiction|].
    rewrite app_nil_r. do 2 f_equal; try ring.
  - rewrite read_digits_app by first [assumption | reflexivity]. cbn [Nat.add append].
    change (Ascii.eqb "." ".") with true. cbv iota.
    rewrite <- (app_nil_r fp) at 1.
    rewrite read_digits_app by first [assumption | exact I]. cbn [Nat.add].
    destruct (Nat.eqb_spec (String.length ip + String.length fp) 0) as [Z0|_].
    + exfalso. apply N.
      destruct ip; destruct fp; simpl in Z0; try discriminate; reflexivity.
    + rewrite dec_value_app. do 2 f_equal; try ring.
Qed.

Lemma read_decimal_inv body num scale :
  read_decimal body = Some (num, scale) ->
  exists ip fp,
    numeral body false ip fp /\ num = dec_value (ip ++ fp) /\
    scale = String.length fp.
Proof.
  destruct (digits_prefix body) as (ip & r & -> & A & N).
  unfold read_decimal. rewrite read_digits_app by assumption.
  cbn [Nat.add]. destruct r as [|c r].
  - destruct (Nat.eqb_spec (String.length ip) 0) as [Z0|NZ]; [discriminate|].
    intros [= <- <-]. exists ip, "". rewrite !app_nil_r.
    split; [|split; [ring|reflexivity]].
    apply (numeral_int false); [exact A|]. intros ->. now apply NZ.
  - destruct (Ascii.eqb_spec c ".") as [->|_]; [|discriminate].
    destruct (digits_prefix r) as (fp & r' & -> & B & N').
    rewrite read_digits_app by assumption. cbn [Nat.add].
    destruct r' as [|d r']; [|discriminate].
    destruct (Nat.eqb_spec (String.length ip + String.length fp) 0)
      as [Z0|NZ]; [discriminate|].
    intros [= <- <-]. exists ip, fp. rewrite !app_nil_r.
    split; [|split; [rewrite dec_value_app; ring|reflexivity]].
    apply (numeral_point false); auto.
    intro E. apply NZ. rewrite <- length_app, E. reflexivity.
Qed.

(** *** The numeral grammar behind [float()] and the [isdigit] guard *)

Lemma numeral_sign body neg ip fp :
  numeral body false ip fp -> numeral (sign neg ++ body) neg ip fp.
Proof.
  inversion 1; subst; cbn [sign append]; now constructor.
Qed.

Lemma numeral_body s neg ip fp :
  numeral s neg ip fp ->
  exists body, s = sign neg ++ body /\ numeral body false ip fp.
Proof.
  inversion 1; subst; eexists; (split; [reflexivity|]).
  - now apply (numeral_int false).
  - now apply (numeral_point false).
Qed.

Lemma numeral_head body ip fp :
  numeral body false ip fp ->
  exists c r, body = String c r /\ (is_ascii_digit c = true \/ c = "."%char).
Proof.
  inversion 1 as [neg ip' A N|neg ip' fp' A B N]; subst; cbn [sign append].
  - destruct ip as [|c ip]; [congruence|]. exists c, ip. split; [reflexivity|].
    left. unfold all_digits in A. simpl in A. now apply andb_true_iff in A.
  - destruct ip as [|c ip]; simpl.
    + exists "."%char, fp. auto.
    + exists c, (ip ++ String "." fp). split; [reflexivity|].
      left. unfold all_digits in A. simpl in A. now apply andb_true_iff in A.
Qed.

Lemma py_float_numeral s neg ip fp :
  numeral s neg ip fp ->
  py_float s
  = Some (to_double neg (dec_value (ip ++ fp))
            (10 ^ Z.of_nat (String.length fp))).
Proof.
  intro H. destruct (numeral_body _ _ _ _ H) as (body & -> & B).
  unfold py_float. destruct neg; cbn [sign append].
  - change (Ascii.eqb "-" "-") with true. cbv iota.
    now rewrite (read_decimal_numeral _ _ _ B).
  - destruct (numeral_head _ _ _ B) as (c & r & -> & C).
    assert (Ascii.eqb c "-" = false /\ Ascii.eqb c "+" = false) as [E1 E2].
    { destruct C as [C| ->]; [|split; reflexivity].
      split; apply Ascii.eqb_neq; intros ->; discriminate C. }
    rewrite E1, E2. now rewrite (read_decimal_numeral _ _ _ B).
Qed.

Lemma py_float_inv s x :
  py_float s = Some x ->
  (exists r, s = String "+" r) \/
  exists neg ip fp,
    numeral s neg ip fp /\
    x = to_double neg (dec_value (ip ++ fp))
          (10 ^ Z.of_nat (String.length fp)).
Proof.
  unfold py_float. destruct s as [|c r].
  - destruct (read_decimal "") as [[n k]|] eqn:R; [|discriminate].
    vm_compute in R. discriminate.
  - destruct (Ascii.eqb_spec c "-") as [->|N1].
    + destruct (read_decimal r) as [[n k]|] eqn:R; [|discriminate].
      intros [= <-]. right. apply read_decimal_inv in R.
      destruct R as (ip & fp & H & -> & ->). exists true, ip, fp.
      split; [|reflexivity]. now apply (numeral_sign r true).
    + destruct (Ascii.eqb_spec c "+") as [->|N2]; [left; eauto|].
      destruct (read_decimal (String c r)) as [[n k]|] eqn:R; [|discriminate].
      intros [= <-]. right. apply read_decimal_inv in R.
      destruct R as (ip & fp & H & -> & ->). exists false, ip, fp. auto.
Qed.

Lemma remove_char_app c a b :
  remove_char c (a ++ b) = remove_char c a ++ remove_char c b.
Proof.
  induction a as [|d a IH]; simpl; [reflexivity|].
  destruct (Ascii.eqb c d); simpl; congruence.
Qed.

Lemma remove_char_digits c ds :
  is_ascii_digit c = false -> all_digits ds -> remove_char c ds = ds.
Proof.
  intros C. induction ds as [|d ds IH]; intro A; simpl; [reflexivity|].
  unfold all_digits in A. simpl in A. apply andb_true_iff in A.
  destruct A as [D A]. destruct (Ascii.eqb_spec c d) as [->|_]; [congruence|].
  now rewrite IH.
Qed.

Lemma forall_chars_app p a b :
  forall_chars p (a ++ b) = forall_chars p a && forall_chars p b.
Proof.
  induction a as [|c a IH]; simpl; [reflexivity|].
  now rewrite IH, andb_assoc.
Qed.

Lemma digits_are_digits ds :
  all_digits ds -> forall_chars isdigit_char ds = true.
Proof.
  induction ds as [|d ds IH]; intro A; simpl; [reflexivity|].
  unfold all_digits in A. simpl in A. apply andb_true_iff in A.
  destruct A as [D A]. rewrite IH by exact A.
  unfold isdigit_char, is_ascii_digit in *. now rewrite D.
Qed.

Lemma isdigit_digits ds : all_digits ds -> ds <> "" -> isdigit ds = true.
Proof.
  intros A N. unfold isdigit. destruct ds; [congruence|].
  now apply digits_are_digits.
Qed.

Lemma all_digits_app a b : all_digits a -> all_digits b -> all_digits (a ++ b).
Proof.
  unfold all_digits. intros A B. now rewrite forall_chars_app, A, B.
Qed.

(** For a numeral the guard of [safe_int] holds. *)
Lemma remove_sign neg : remove_char "-" (sign neg) = "".
Proof. now destruct neg. Qed.

Lemma guard_numeral s neg ip fp :
  numeral s neg ip fp ->
  isdigit (remove_char "." (remove_char "-" s)) = true.
Proof.
  assert (D1 : is_ascii_digit "-" = false) by reflexivity.
  assert (D2 : is_ascii_digit "." = false) by reflexivity.
  inversion 1 as [n ip' A N|n ip' fp' A B N]; subst.
  - rewrite remove_char_app, remove_sign. cbn [append].
    rewrite (remove_char_digits "-" ip), (remove_char_digits "." ip)
      by assumption.
    now apply isdigit_digits.
  - rewrite remove_char_app, remove_sign. cbn [append].
    rewrite !remove_char_app.
    replace (remove_char "-" (String "." fp))
      with (String "."%char (remove_char "-" fp)) by reflexivity.
    replace (remove_char "." (String "." (remove_char "-" fp)))
      with (remove_char "." (remove_char "-" fp)) by reflexivity.
    rewrite (remove_char_digits "-" ip), (remove_char_digits "." ip),
      (remove_char_digits "-" fp), (remove_char_digits "." fp) by assumption.
    apply isdigit_digits; [now apply all_digits_app|exact N].
Qed.

(** A leading plus sign fails the guard. *)
Lemma guard_plus r :
  isdigit (remove_char "." (remove_char "-" (String "+" r))) = false.
Proof. reflexivity. Qed.

(** *** Rounding to binary64 *)

Lemma rne_exact k b : 0 < b -> rne (k * b) b = k.
Proof.
  intro B. unfold rne. rewrite Z.div_mul, Z.mod_mul by lia.
  destruct (Z.ltb_spec (2 * 0) b); [reflexivity|lia].
Qed.

(** The rounded quotient is within half a unit of the exact one. *)
Lemma rne_nearest a b :
  0 <= a -> 0 < b -> 2 * Z.abs (rne a b * b - a) <= b.
Proof.
  intros A B. unfold rne.
  pose proof (Z.div_mod a b ltac:(lia)) as D.
  pose proof (Z.mod_pos_bound a b B) as R.
  destruct (Z.ltb_spec (2 * (a mod b)) b); [lia|].
  destruct (Z.ltb_spec b (2 * (a mod b))); [lia|].
  destruct (Z.even (a / b)); lia.
Qed.

Lemma digit_val_bounds c : is_ascii_digit c = true -> 0 <= digit_val c <= 9.
Proof.
  unfold is_ascii_digit, in_range, digit_val. intro H.
  apply andb_true_iff in H. destruct H as [L U].
  apply N.leb_le in L, U. lia.
Qed.

Lemma dec_value_nonneg ds : all_digits ds -> 0 <= dec_value ds.
Proof.
  induction ds as [|c ds IH]; intro A; simpl; [lia|].
  unfold all_digits in A. simpl in A. apply andb_true_iff in A.
  destruct A as [C A]. apply digit_val_bounds in C. specialize (IH A).
  assert (0 <= 10 ^ Z.of_nat (String.length ds)) by (apply Z.pow_nonneg; lia).
  nia.
Qed.

(** An integer of at most 53 bits is a binary64 value: converting it to
    [float] and back to [int] changes nothing. *)
Lemma to_double_int neg n :
  0 <= n <= 2 ^ 53 ->
  int_of_float (to_double neg n 1) = Some (if neg then - n else n).
Proof.
  intros [L U]. unfold to_double.
  destruct (Z.eqb_spec n 0) as [->|NZ]; [now destruct neg|].
  unfold ilog2. destruct (Z.leb_spec 1 n) as [_|]; [|lia].
  rewrite Z.div_1_r.
  assert (E0 : 0 <= Z.log2 n) by apply Z.log2_nonneg.
  assert (E1 : Z.log2 n <= 53).
  { rewrite <- (Z.log2_pow2 53) by lia. now apply Z.log2_le_mono. }
  rewrite Z.max_l by lia.
  assert (B : 2 ^ 53 < 2 ^ 1024) by (apply Z.pow_lt_mono_r; lia).
  destruct (Z.leb_spec 0 (Z.log2 n - 52)) as [P|P]; cbn [andb].
  - assert (C : Z.log2 n = 52 \/ Z.log2 n = 53) by lia.
    destruct C as [C|C]; rewrite C.
    + change (52 - 52) with 0. change (1 * 2 ^ 0) with 1.
      replace (rne n 1) with n
        by (rewrite <- (Z.mul_1_r n) at 2; now rewrite rne_exact).
      destruct (Z.leb_spec (2 ^ 1024) (n * 2 ^ 0)); [lia|].
      cbn [int_of_float]. change (0 <=? 0) with true. cbv iota.
      now rewrite Z.pow_0_r, Z.mul_1_r.
    + assert (n = 2 ^ 53).
      { assert (2 ^ 53 <= n) by (apply Z.log2_le_pow2; lia). lia. }
      subst n. vm_compute. now destruct neg.
  - replace (rne (n * 2 ^ (- (Z.log2 n - 52))) 1) with (n * 2 ^ (- (Z.log2 n - 52)))
      by (rewrite <- (Z.mul_1_r (n * _)) at 2; now rewrite rne_exact).
    cbn [int_of_float].
    destruct (Z.leb_spec 0 (Z.log2 n - 52)); [lia|].
    rewrite Z.div_mul; [reflexivity|].
    apply Z.pow_nonzero; lia.
Qed.

(** *** [safe_int] *)

Lemma cleaned_empty : cleaned "" = "".
Proof. reflexivity. Qed.

Lemma numeral_nonempty neg ip fp : ~ numeral "" neg ip fp.
Proof.
  intro H. apply guard_numeral in H. discriminate H.
Qed.

Lemma safe_int_unfold v d :
  v <> "" ->
  Csv.safe_int (Some v) d
  = if isdigit (remove_char "." (remove_char "-" (cleaned v))) then
      match py_float (cleaned v) with
      | Some x => match int_of_float x with Some n => n | None => d end
      | None => d
      end
    else d.
Proof.
  intro N. unfold Csv.safe_int, cleaned.
  destruct (String.eqb_spec v ""); [contradiction|reflexivity].
Qed.

Lemma safe_int_numeral v d neg ip fp :
  numeral (cleaned v) neg ip fp ->
  Csv.safe_int (Some v) d
  = match float_then_truncate neg ip fp with Some n => n | None => d end.
Proof.
  intro H. assert (N : v <> "").
  { intros ->. rewrite cleaned_empty in H. now apply numeral_nonempty in H. }
  rewrite safe_int_unfold by exact N.
  now rewrite (guard_numeral _ _ _ _ H), (py_float_numeral _ _ _ _ H).
Qed.

Lemma safe_int_other v d :
  (forall neg ip fp, ~ numeral (cleaned v) neg ip fp) ->
  Csv.safe_int (Some v) d = d.
Proof.
  intro H. destruct (String.eqb_spec v "") as [->|N]; [reflexivity|].
  rewrite safe_int_unfold by exact N.
  destruct (isdigit _) eqn:G; [|reflexivity].
  destruct (py_float (cleaned v)) as [x|] eqn:F; [|reflexivity].
  apply py_float_inv in F. destruct F as [(r & E)|(neg & ip & fp & M & _)].
  - rewrite E, guard_plus in G. discriminate.
  - now apply H in M.
Qed.

(** *** [safe_int] on a text of any code points *)

Lemma code_of_code c : (c < 256)%N -> code (ascii_of_N c) = c.
Proof. apply N_ascii_embedding. Qed.

Lemma char_of_code a : ascii_of_N (code a) = a.
Proof. apply ascii_N_embedding. Qed.

Lemma code_inj a b : code a = code b -> a = b.
Proof.
  intro H. rewrite <- (char_of_code a), <- (char_of_code b). now rewrite H.
Qed.

Lemma code_eqb a b : N.eqb (code a) (code b) = Ascii.eqb a b.
Proof.
  destruct (Ascii.eqb_spec a b) as [->|D]; [apply N.eqb_refl|].
  apply N.eqb_neq. intro H. now apply D, code_inj.
Qed.

Lemma decimal_digit_char d :
  (d <= 9)%N -> is_ascii_digit (ascii_of_N (48 + d)) = true.
Proof.
  intro H. unfold is_ascii_digit, in_range.
  rewrite code_of_code by lia.
  apply andb_true_iff. split; apply N.leb_le; lia.
Qed.

Lemma numeral_char_ascii a : numeral_char a = true -> (code a < 128)%N.
Proof.
  unfold numeral_char, is_ascii_digit, in_range. intro H.
  apply orb_true_iff in H. destruct H as [H|H].
  - apply orb_true_iff in H. destruct H as [H|H].
    + apply andb_true_iff in H. destruct H as [_ H].
      apply N.leb_le in H. lia.
    + apply Ascii.eqb_eq in H. subst a. reflexivity.
  - apply Ascii.eqb_eq in H. subst a. reflexivity.
Qed.

Lemma all_digits_chars ds :
  all_digits ds -> forall_chars numeral_char ds = true.
Proof.
  induction ds as [|c ds IH]; intro A; [reflexivity|].
  unfold all_digits in A. cbn [forall_chars] in *.
  apply andb_true_iff in A. destruct A as [C A].
  unfold numeral_char at 1. rewrite C. cbn [orb andb]. now apply IH.
Qed.

Lemma numeral_chars s neg ip fp :
  numeral s neg ip fp -> forall_chars numeral_char s = true.
Proof.
  assert (S : forall n, forall_chars numeral_char (sign n) = true)
    by (now intros []).
  inversion 1 as [n ip' A N|n ip' fp' A B N]; subst.
  - now rewrite forall_chars_app, S, all_digits_chars.
  - rewrite !forall_chars_app, S, all_digits_chars by assumption.
    cbn [append forall_chars andb]. change (numeral_char ".") with true.
    cbn [andb]. now apply all_digits_chars.
Qed.

Lemma of_string_cons a s :
  Uni.of_string (String a s) = code a :: Uni.of_string s.
Proof. reflexivity. Qed.

Section Wide.

Variable isspace : N -> bool.
Variable isdigit_cp : N -> bool.
Variable todecimal : N -> option N.
Hypothesis DB : unicode_database isspace isdigit_cp todecimal.

Lemma db_space a : isspace (code a) = PyStr.isspace a.
Proof. apply DB. Qed.

Lemma db_digit a : isdigit_cp (code a) = isdigit_char a.
Proof. apply DB. Qed.

Lemma db_latin a : (128 <= code a)%N -> todecimal (code a) = None.
Proof. apply DB. Qed.

Lemma db_decimal c d :
  (128 <= c)%N -> todecimal c = Some d -> (d <= 9)%N /\ isdigit_cp c = true.
Proof. apply DB. Qed.

Lemma db_decimal_no_space c d :
  (128 <= c)%N -> todecimal c = Some d -> isspace c = false.
Proof.
  intros L D. destruct (db_decimal c d L D) as [_ G].
  destruct (isspace c) eqn:S; [|reflexivity].
  apply DB in S. congruence.
Qed.

(** A text that reads as [s] is handed to the parser of [float] as [s]. *)
Lemma reads_to_ascii t s :
  reads todecimal t s -> Uni.to_ascii isspace todecimal t = s.
Proof.
  induction 1 as [|c t s L _ IH|c d t s L D _ IH]; cbn [Uni.to_ascii].
  - reflexivity.
  - apply N.ltb_lt in L. now rewrite L, IH.
  - assert (F : (c <? 128)%N = false) by (apply N.ltb_ge; exact L).
    now rewrite F, (db_decimal_no_space c d L D), D, IH.
Qed.

(** What the parser of [float] is handed reads back, when it has the
    characters of a numeral only. *)
Lemma to_ascii_reads t : forall s,
  Uni.to_ascii isspace todecimal t = s ->
  forall_chars numeral_char s = true -> reads todecimal t s.
Proof.
  induction t as [|c t IH]; intros s E F; cbn [Uni.to_ascii] in E.
  - subst s. constructor.
  - destruct (N.ltb_spec c 128) as [L|L].
    + subst s. cbn [forall_chars] in F. apply andb_true_iff in F.
      apply reads_ascii; [exact L|]. now apply IH.
    + destruct (isspace c).
      * subst s. discriminate F.
      * destruct (todecimal c) as [d|] eqn:D; [|subst s; discriminate F].
        subst s. cbn [forall_chars] in F. apply andb_true_iff in F.
        apply reads_decimal; [exact L|exact D|]. now apply IH.
Qed.

Lemma reads_remove a0 t s :
  (code a0 < 128)%N -> is_ascii_digit a0 = false ->
  reads todecimal t s ->
  reads todecimal (Uni.remove (code a0) t) (remove_char a0 s).
Proof.
  intros A0 D0.
  induction 1 as [|c t' s' L _ IH|c d t' s' L D _ IH];
    cbn [Uni.remove filter remove_char].
  - constructor.
  - fold (Uni.remove (code a0) t').
    rewrite <- (code_of_code c) at 1 by lia. rewrite code_eqb.
    destruct (Ascii.eqb a0 (ascii_of_N c)); cbn [negb]; [exact IH|].
    now apply reads_ascii.
  - fold (Uni.remove (code a0) t').
    assert (E1 : N.eqb (code a0) c = false) by (apply N.eqb_neq; lia).
    rewrite E1. cbn [negb].
    assert (E2 : Ascii.eqb a0 (ascii_of_N (48 + d)) = false).
    { apply Ascii.eqb_neq. intros ->.
      destruct (db_decimal c d L D) as [D9 _].
      rewrite (decimal_digit_char d D9) in D0. discriminate. }
    rewrite E2. now apply reads_decimal with (d := d).
Qed.

Lemma reads_digits t s :
  reads todecimal t s -> forall_chars isdigit_char s = true ->
  forallb isdigit_cp t = true.
Proof.
  induction 1 as [|c t s L _ IH|c d t s L D _ IH]; intro F;
    cbn [forall_chars forallb] in *.
  - reflexivity.
  - apply andb_true_iff in F. destruct F as [F1 F2].
    rewrite <- (code_of_code c), db_digit, F1 by lia. now apply IH.
  - apply andb_true_iff in F. destruct F as [_ F2].
    destruct (db_decimal c d L D) as [_ G]. rewrite G. now apply IH.
Qed.

Lemma reads_isdigit t s :
  reads todecimal t s -> isdigit s = true -> Uni.isdigit isdigit_cp t = true.
Proof.
  intros R G. pose proof (reads_digits _ _ R) as F.
  unfold isdigit in G. unfold Uni.isdigit.
  destruct R; [discriminate| |]; now apply F.
Qed.

(** For a text that reads as a numeral the guard of [safe_int] holds. *)
Lemma wide_guard t s neg ip fp :
  reads todecimal t s -> numeral s neg ip fp ->
  Uni.isdigit isdigit_cp (Uni.remove (code ".") (Uni.remove (code "-") t))
  = true.
Proof.
  intros R H.
  apply (reads_isdigit _ (remove_char "." (remove_char "-" s))).
  - apply reads_remove; [reflexivity|reflexivity|].
    apply reads_remove; [reflexivity|reflexivity|exact R].
  - exact (guard_numeral _ _ _ _ H).
Qed.

Lemma wide_unfold v d :
  v <> [] ->
  Uni.safe_int isspace isdigit_cp todecimal (Some v) d
  = if Uni.isdigit isdigit_cp
         (Uni.remove (code ".") (Uni.remove (code "-") (wide_cleaned isspace v)))
    then
      match PyStr.py_float
              (Uni.to_ascii isspace todecimal (wide_cleaned isspace v)) with
      | Some x => match int_of_float x with Some n => n | None => d end
      | None => d
      end
    else d.
Proof. destruct v; [congruence|reflexivity]. Qed.

Lemma wide_cleaned_empty : wide_cleaned isspace [] = [].
Proof. reflexivity. Qed.

Lemma reads_empty s : reads todecimal [] s -> s = "".
Proof. now inversion 1. Qed.

Lemma wide_numeral v d s neg ip fp :
  reads todecimal (wide_cleaned isspace v) s -> numeral s neg ip fp ->
  Uni.safe_int isspace isdigit_cp todecimal (Some v) d
  = match float_then_truncate neg ip fp with Some n => n | None => d end.
Proof.
  intros R H. assert (N : v <> []).
  { intros ->. rewrite wide_cleaned_empty in R. apply reads_empty in R.
    subst s. now apply numeral_nonempty in H. }
  rewrite wide_unfold by exact N.
  rewrite (wide_guard _ _ _ _ _ R H), (reads_to_ascii _ _ R).
  now rewrite (py_float_numeral _ _ _ _ H).
Qed.

Lemma to_ascii_plus t r :
  Uni.to_ascii isspace todecimal t = String "+" r ->
  exists t', t = code "+" :: t'.
Proof.
  destruct t as [|c t]; cbn [Uni.to_ascii]; [discriminate|].
  destruct (N.ltb_spec c 128) as [L|L].
  - intros [= E _]. exists t. f_equal.
    rewrite <- (code_of_code c) by lia. now rewrite E.
  - destruct (isspace c); [discriminate|].
    destruct (todecimal c) as [d|] eqn:D; [|discriminate].
    intro H. assert (E : ascii_of_N (48 + d) = "+"%char) by congruence.
    destruct (db_decimal c d L D) as [D9 _].
    apply decimal_digit_char in D9. rewrite E in D9. discriminate.
Qed.

Lemma wide_guard_plus t :
  Uni.isdigit isdigit_cp
    (Uni.remove (code ".") (Uni.remove (code "-") (code "+" :: t))) = false.
Proof.
  change (Uni.remove (code ".") (Uni.remove (code "-") (code "+" :: t)))
    with (code "+" :: Uni.remove (code ".") (Uni.remove (code "-") t)).
  unfold Uni.isdigit. cbn [forallb]. now rewrite (db_digit "+").
Qed.

Lemma wide_other v d :
  (forall s neg ip fp,
     reads todecimal (wide_cleaned isspace v) s -> ~ numeral s neg ip fp) ->
  Uni.safe_int isspace isdigit_cp todecimal (Some v) d = d.
Proof.
  intro H. destruct v as [|c v]; [reflexivity|].
  rewrite wide_unfold by discriminate.
  destruct (Uni.isdigit _ _) eqn:G; [|reflexivity].
  destruct (PyStr.py_float _) as [x|] eqn:F; [|reflexivity].
  apply py_float_inv in F. destruct F as [(r & E)|(neg & ip & fp & M & _)].
  - apply to_ascii_plus in E. destruct E as (t' & E).
    rewrite E, wide_guard_plus in G. discriminate.
  - exfalso. refine (H _ neg ip fp _ M).
    apply to_ascii_reads; [reflexivity|exact (numeral_chars _ _ _ _ M)].
Qed.

(** *** The two models agree below U+0100 *)

Lemma of_string_lstrip s :
  Uni.lstrip isspace (Uni.of_string s)
  = Uni.of_string (lstrip_by PyStr.isspace s).
Proof.
  induction s as [|a s IH]; [reflexivity|].
  rewrite of_string_cons. cbn [Uni.lstrip lstrip_by]. rewrite db_space.
  destruct (PyStr.isspace a); [exact IH|reflexivity].
Qed.

Lemma of_string_rstrip s :
  Uni.rstrip isspace (Uni.of_string s)
  = Uni.of_string (rstrip_by PyStr.isspace s).
Proof.
  induction s as [|a s IH]; [reflexivity|].
  rewrite of_string_cons. cbn [Uni.rstrip rstrip_by]. rewrite IH, db_space.
  destruct (rstrip_by PyStr.isspace s) as [|b r]; [|reflexivity].
  cbn [Uni.of_string list_ascii_of_string map].
  destruct (PyStr.isspace a); reflexivity.
Qed.

Lemma of_string_remove a s :
  Uni.remove (code a) (Uni.of_string s) = Uni.of_string (remove_char a s).
Proof.
  induction s as [|b s IH]; [reflexivity|].
  rewrite of_string_cons. cbn [Uni.remove filter remove_char].
  fold (Uni.remove (code a) (Uni.of_string s)). rewrite code_eqb, IH.
  destruct (Ascii.eqb a b); reflexivity.
Qed.

Lemma of_string_cleaned v :
  wide_cleaned isspace (Uni.of_string v) = Uni.of_string (cleaned v).
Proof.
  unfold wide_cleaned, cleaned, Uni.strip, strip.
  now rewrite of_string_lstrip, of_string_rstrip, of_string_remove.
Qed.

Lemma reads_of_string w : forall s,
  reads todecimal (Uni.of_string w) s -> s = w.
Proof.
  induction w as [|a w IH]; intros s R.
  - now apply reads_empty in R.
  - rewrite of_string_cons in R.
    inversion R as [|c t s' L R'|c d t s' L D R']; subst.
    + rewrite char_of_code. f_equal. now apply IH.
    + rewrite db_latin in D by exact L. discriminate.
Qed.

Lemma of_string_reads w :
  forall_chars numeral_char w = true -> reads todecimal (Uni.of_string w) w.
Proof.
  induction w as [|a w IH]; intro F; [constructor|].
  cbn [forall_chars] in F. apply andb_true_iff in F. destruct F as [F1 F2].
  rewrite of_string_cons. rewrite <- (char_of_code a) at 2.
  apply reads_ascii; [now apply numeral_char_ascii|now apply IH].
Qed.

Lemma wide_latin v d :
  Uni.safe_int isspace isdigit_cp todecimal (Some (Uni.of_string v)) d
  = Csv.safe_int (Some v) d.
Proof.
  destruct (String.eqb_spec v "") as [->|N]; [reflexivity|].
  rewrite safe_int_unfold by exact N.
  destruct (isdigit _) eqn:G.
  - destruct (PyStr.py_float (cleaned v)) as [x|] eqn:F.
    + pose proof F as F'. apply py_float_inv in F'.
      destruct F' as [(r & E)|(neg & ip & fp & M & X)].
      * rewrite E, guard_plus in G. discriminate.
      * rewrite (wide_numeral _ d (cleaned v) neg ip fp).
        -- unfold float_then_truncate. now rewrite X.
        -- rewrite of_string_cleaned.
           exact (of_string_reads _ (numeral_chars _ _ _ _ M)).
        -- exact M.
    + apply wide_other. intros s neg ip fp R M.
      rewrite of_string_cleaned in R. apply reads_of_string in R. subst s.
      rewrite (py_float_numeral _ _ _ _ M) in F. discriminate.
  - apply wide_other. intros s neg ip fp R M.
    rewrite of_string_cleaned in R. apply reads_of_string in R. subst s.
    rewrite (guard_numeral _ _ _ _ M) in G. discriminate.
Qed.

End Wide.

(** *** The properties of Unicode 14.0.0 are a database *)

Lemma in_ranges_spec l c :
  Ucd14.in_ranges l c = true <->
  exists r, In r l /\ (fst r <= c <= snd r)%N.
Proof.
  unfold Ucd14.in_ranges. rewrite existsb_exists.
  split; intros (r & I & H); exists r; (split; [exact I|]).
  - apply andb_true_iff in H. destruct H as [H1 H2].
    apply N.leb_le in H1, H2. lia.
  - apply andb_true_iff. split; apply N.leb_le; lia.
Qed.

Lemma apart_spec l1 l2 c :
  Ucd14.apart l1 l2 = true ->
  Ucd14.in_ranges l1 c = true -> Ucd14.in_ranges l2 c = false.
Proof.
  intros A H1. destruct (Ucd14.in_ranges l2 c) eqn:H2; [|reflexivity].
  apply in_ranges_spec in H1, H2.
  destruct H1 as (r1 & I1 & B1). destruct H2 as (r2 & I2 & B2).
  unfold Ucd14.apart in A. rewrite forallb_forall in A.
  specialize (A r1 I1). rewrite forallb_forall in A. specialize (A r2 I2).
  apply orb_true_iff in A. destruct A as [A|A]; apply N.ltb_lt in A; lia.
Qed.

Lemma ucd14_database :
  unicode_database Ucd14.isspace Ucd14.isdigit_cp Ucd14.todecimal.
Proof.
  split; [|split; [|split; [|split]]].
  - intros [[] [] [] [] [] [] [] []]; vm_compute; reflexivity.
  - intros [[] [] [] [] [] [] [] []]; vm_compute; reflexivity.
  - intros [[] [] [] [] [] [] [] []]; vm_compute; intro H;
      first [reflexivity | exfalso; apply H; reflexivity].
  - intros c d _. unfold Ucd14.todecimal, Ucd14.isdigit_cp.
    destruct (find _ _) as [r|] eqn:F; [|discriminate].
    intros [= <-]. apply find_some in F. destruct F as [I H].
    split.
    + pose proof (N.mod_lt (c - fst r) 10 ltac:(discriminate)). lia.
    + apply orb_true_iff. left. unfold Ucd14.in_ranges.
      apply existsb_exists. now exists r.
  - intros c S. unfold Ucd14.isspace in S. unfold Ucd14.isdigit_cp.
    assert (A1 : Ucd14.apart Ucd14.spaces Ucd14.decimal_digits = true)
      by (vm_compute; reflexivity).
    assert (A2 : Ucd14.apart Ucd14.spaces Ucd14.other_digits = true)
      by (vm_compute; reflexivity).
    now rewrite (apart_spec _ _ c A1 S), (apart_spec _ _ c A2 S).
Qed.

(** C8, as amended (convert_csv.py, safe_int): safe_int returns default
    for None and for the empty string.  Otherwise the value is trimmed and
    its commas are removed.  When what is left, with every non-ASCII
    decimal digit read as the ASCII digit of its value, is a decimal
    numeral - an optional minus sign, digits with at most one point, at
    least one digit - the result is that number converted to the nearest
    binary64 float and truncated toward zero (default if the float is
    infinite), which is the number itself for an integer numeral of
    magnitude at most 2^53.  Every other input returns default: a leading
    plus sign, and a digit without a decimal value such as a superscript,
    included.  This holds for a text of any code points, whatever the
    Unicode database, as long as it is the first model's below U+0100,
    its decimal values are at most 9 and belong to digits, and no blank
    is a digit; on a text below U+0100 the function is the one the row
    loop calls.  safe_int("1,234") is 1234 and safe_int("abc") is the
    default. *)
Theorem C8_safe_int :
  forall isspace isdigit_cp todecimal,
    unicode_database isspace isdigit_cp todecimal ->
    (forall d,
       Uni.safe_int isspace isdigit_cp todecimal None d = d /\
       Uni.safe_int isspace isdigit_cp todecimal (Some []) d = d) /\
    (forall v d s neg ip fp,
       reads todecimal (wide_cleaned isspace v) s ->
       numeral s neg ip fp ->
       Uni.safe_int isspace isdigit_cp todecimal (Some v) d
       = match float_then_truncate neg ip fp with
         | Some n => n
         | None => d
         end) /\
    (forall v d s neg ip,
       reads todecimal (wide_cleaned isspace v) s ->
       numeral s neg ip "" -> dec_value ip <= 2 ^ 53 ->
       Uni.safe_int isspace isdigit_cp todecimal (Some v) d
       = if neg then - dec_value ip else dec_value ip) /\
    (forall v d,
       (forall s neg ip fp,
          reads todecimal (wide_cleaned isspace v) s ->
          ~ numeral s neg ip fp) ->
       Uni.safe_int isspace isdigit_cp todecimal (Some v) d = d) /\
    (forall v d,
       Uni.safe_int isspace isdigit_cp todecimal (Some (Uni.of_string v)) d
       = Csv.safe_int (Some v) d) /\
    Uni.safe_int isspace isdigit_cp todecimal (Some (Uni.of_string "1,234")) 0
    = 1234 /\
    (forall d,
       Uni.safe_int isspace isdigit_cp todecimal (Some (Uni.of_string "abc")) d
       = d).
Proof.
  intros isspace isdigit_cp todecimal DB.
  split; [intro d; split; reflexivity|].
  split; [exact (wide_numeral _ _ _ DB)|].
  split.
  - intros v d s neg ip R H U.
    rewrite (wide_numeral _ _ _ DB v d s neg ip "" R H).
    unfold float_then_truncate. rewrite app_nil_r.
    change (10 ^ Z.of_nat (String.length "")) with 1.
    rewrite to_double_int; [reflexivity|].
    split; [|exact U]. apply dec_value_nonneg.
    inversion H; subst; assumption.
  - split; [exact (wide_other _ _ _ DB)|].
    split; [exact (wide_latin _ _ _ DB)|].
    split; intros; rewrite (wide_latin _ _ _ DB); vm_compute; reflexivity.
Qed.

Lemma C8_witness :
  Ucd14.safe_int (Some [1633; 1634; 1635]%N) 7 = dec_value "123" /\
  Ucd14.safe_int (Some (Uni.of_string " -1,234.75 ")) 0
  = match float_then_truncate true "1234" "75" with
    | Some n => n
    | None => 0
    end /\
  Ucd14.safe_int (Some [178]%N) 7 = 7 /\
  Ucd14.safe_int (Some (Uni.of_string "+5")) 7 = 7.
Proof.
  destruct (C8_safe_int _ _ _ ucd14_database)
    as (_ & Num & Int & Other & Latin & _).
  split; [|split; [|split]].
  - apply (Int [1633; 1634; 1635]%N 7 "123" false "123").
    + apply (reads_decimal _ 1633 1); [discriminate|reflexivity|].
      apply (reads_decimal _ 1634 2); [discriminate|reflexivity|].
      apply (reads_decimal _ 1635 3); [discriminate|reflexivity|].
      constructor.
    + apply (numeral_int false "123"); [reflexivity|discriminate].
    + vm_compute. discriminate.
  - apply (Num (Uni.of_string " -1,234.75 ") 0 "-1234.75" true "1234" "75").
    + apply (to_ascii_reads Ucd14.isspace); reflexivity.
    + apply (numeral_point true "1234" "75");
        [reflexivity|reflexivity|discriminate].
  - apply (Other [178]%N 7). intros s neg ip fp R.
    inversion R as [|c t s' L R'|c d t s' L D R']; subst.
    + discriminate L.
    + vm_compute in D. discriminate D.
  - unfold Ucd14.safe_int. rewrite Latin. reflexivity.
Defined.

(** C8 as stated fails: the numeral 9007199254740993 is returned as
    9007199254740992, the numeral 4.9999999999999999999 as 5 (its
    truncation is 4), and the signed numeral +5 gives the default. *)
Lemma C8_counterexample :
  Csv.safe_int (Some "9007199254740993") 0 = 9007199254740992 /\
  Csv.safe_int (Some "4.9999999999999999999") 0 = 5 /\
  Csv.safe_int (Some "+5") 0 = 0.
Proof. repeat split; vm_compute; reflexivity. Qed.

End NumberFacts.

(* ================================================================= *)
(** ** More on the string primitives *)

Module TextFacts.
Import Spec Wire PyStrFacts.

Lemma has_char_cons c d s :
  has_char c (String d s) <-> c = d \/ has_char c s.
Proof.
  unfold has_char, occurs. split.
  - intros (pre & post & E). destruct pre as [|e pre]; simpl in E.
    + left. now inversion E.
    + right. inversion E; subst. now exists pre, post.
  - intros [->|(pre & post & ->)].
    + now exists "", s.
    + now exists (String d pre), post.
Qed.

Lemma has_char_empty c : ~ has_char c "".
Proof. intros (pre & post & E). destruct pre; discriminate. Qed.

Lemma has_char_app c a b :
  has_char c (a ++ b) <-> has_char c a \/ has_char c b.
Proof.
  induction a as [|d a IH]; simpl.
  - split; [auto|]. intros [H|H]; [now apply has_char_empty in H|exact H].
  - rewrite !has_char_cons, IH. tauto.
Qed.

Lemma drop_app s b : drop (String.length s) (s ++ b) = b.
Proof. induction s; simpl; auto. Qed.

Lemma prefix_head c d sep s : c <> d -> prefix (String c sep) (String d s) = false.
Proof. intro N. simpl. now destruct (ascii_dec c d). Qed.

(** The first cut of [a ++ sep ++ b] is at [a] when [a] is free of the
    first character of [sep]. *)
Lemma split_at_app c sep a b :
  ~ has_char c a ->
  split_at (String c sep) (a ++ String c sep ++ b) = Some (a, b).
Proof.
  induction a as [|d a IH]; intro N; rewrite split_at_eq.
  - change ("" ++ String c sep ++ b) with (String c sep ++ b).
    now rewrite prefix_app, drop_app.
  - assert (D : c <> d) by (intros ->; apply N, has_char_cons; now left).
    change (String d a ++ String c sep ++ b)
      with (String d (a ++ String c sep ++ b)).
    rewrite (prefix_head c d sep _ D), IH; [reflexivity|].
    intro H. apply N, has_char_cons. now right.
Qed.

Lemma split_at_absent sep s : ~ occurs sep s -> split_at sep s = None.
Proof.
  intro N. destruct (split_at sep s) as [[a b]|] eqn:E; [|reflexivity].
  exfalso. apply N. exists a, b. now apply split_at_some.
Qed.

Lemma occurs_has_char c sep s : occurs (String c sep) s -> has_char c s.
Proof.
  intros (pre & post & ->). apply has_char_app. right.
  apply has_char_cons. now left.
Qed.

Lemma split_cons c sep a b :
  ~ has_char c a ->
  split (String c sep) (a ++ String c sep ++ b) = a :: split (String c sep) b.
Proof.
  intro N. unfold split at 1.
  assert (L : String.length (a ++ String c sep ++ b)
              = S (String.length a + String.length sep + String.length b)).
  { rewrite !length_app. cbn [String.length]. lia. }
  rewrite L. cbn [split_max]. rewrite (split_at_app c sep a b N). f_equal.
  apply split_max_enough; [discriminate|lia].
Qed.

Lemma split_single sep s : sep <> "" -> ~ occurs sep s -> split sep s = [s].
Proof.
  intros S N. unfold split. destruct (String.length s); [reflexivity|].
  cbn [split_max]. now rewrite split_at_absent.
Qed.

(** *** Trimming *)

Section Strip.

Variable p : ascii -> bool.

Lemma lstrip_by_app c a b :
  p c = false ->
  lstrip_by p (a ++ String c b) = lstrip_by p a ++ String c b.
Proof.
  intro C. induction a as [|d a IH]; simpl.
  - now rewrite C.
  - destruct (p d); [exact IH|reflexivity].
Qed.

Lemma lstrip_by_idem s : lstrip_by p (lstrip_by p s) = lstrip_by p s.
Proof.
  induction s as [|c s IH]; simpl; [reflexivity|].
  destruct (p c) eqn:C; [exact IH|]. simpl. now rewrite C.
Qed.

Lemma rstrip_by_cons c s :
  p c = false -> rstrip_by p (String c s) = String c (rstrip_by p s).
Proof.
  intro C. simpl. rewrite C. now destruct (rstrip_by p s).
Qed.

Lemma rstrip_by_app a b :
  rstrip_by p b <> "" -> rstrip_by p (a ++ b) = a ++ rstrip_by p b.
Proof.
  intro N. induction a as [|d a IH]; simpl; [reflexivity|].
  rewrite IH. destruct (a ++ rstrip_by p b) eqn:E; [|reflexivity].
  destruct a; simpl in E; [contradiction|discriminate].
Qed.

Lemma rstrip_by_idem s : rstrip_by p (rstrip_by p s) = rstrip_by p s.
Proof.
  induction s as [|c s IH]; simpl; [reflexivity|].
  destruct (rstrip_by p s) as [|d r] eqn:R.
  - destruct (p c) eqn:C; [reflexivity|]. simpl. now rewrite C.
  - change (rstrip_by p (String c (String d r))
            = String c (String d r)).
    simpl. simpl in IH. now rewrite IH.
Qed.

Lemma strip_by_comm s :
  lstrip_by p (rstrip_by p s) = rstrip_by p (lstrip_by p s).
Proof.
  induction s as [|c s IH]; [reflexivity|].
  cbn [lstrip_by]. destruct (p c) eqn:C.
  - rewrite <- IH. cbn [rstrip_by].
    destruct (rstrip_by p s) as [|d r]; [now rewrite C|].
    cbn [lstrip_by]. now rewrite C.
  - cbn [rstrip_by]. destruct (rstrip_by p s); rewrite ?C; simpl;
      now rewrite C.
Qed.

Lemma lstrip_by_suffix s : exists l, s = l ++ lstrip_by p s.
Proof.
  destruct (lstrip_by_spec p s) as (l & E & _). now exists l.
Qed.

Lemma rstrip_by_prefix s : exists r, s = rstrip_by p s ++ r.
Proof.
  destruct (rstrip_by_spec p s) as (r & E & _). now exists r.
Qed.

End Strip.

Lemma strip_idem s : strip (strip s) = strip s.
Proof.
  unfold strip. rewrite (strip_by_comm isspace (lstrip_by isspace s)).
  now rewrite rstrip_by_idem, lstrip_by_idem.
Qed.

Lemma strip_lstrip s : strip (lstrip_by isspace s) = strip s.
Proof. unfold strip. now rewrite lstrip_by_idem. Qed.

Lemma strip_rstrip s : strip (rstrip_by isspace s) = strip s.
Proof. unfold strip. now rewrite strip_by_comm, rstrip_by_idem. Qed.

(** What is left after trimming is a part of the text. *)
Lemma strip_inside s : exists l r, s = l ++ strip s ++ r.
Proof.
  destruct (strip_trimmed s) as [(l & r & E & _) _]. now exists l, r.
Qed.

Lemma has_char_strip c s : has_char c (strip s) -> has_char c s.
Proof.
  intro H. destruct (strip_inside s) as (l & r & E). rewrite E.
  apply has_char_app. right. apply has_char_app. now left.
Qed.

Lemma occurs_strip sub s : occurs sub (strip s) -> occurs sub s.
Proof.
  intros (x & y & E). destruct (strip_inside s) as (l & r & Es).
  rewrite Es, E. exists (l ++ x), (y ++ r). now rewrite !app_assoc.
Qed.

Lemma all_space_has_char c s :
  isspace c = false -> forall_chars isspace s = true -> ~ has_char c s.
Proof.
  intros C. induction s as [|d s IH]; intros A H.
  - now apply has_char_empty in H.
  - simpl in A. apply andb_true_iff in A. destruct A as [D A].
    apply has_char_cons in H. destruct H as [->|H]; [congruence|].
    now apply IH.
Qed.

Lemma forall_chars_append p a b :
  forall_chars p (a ++ b) = forall_chars p a && forall_chars p b.
Proof.
  induction a as [|c a IH]; simpl; [reflexivity|].
  now rewrite IH, andb_assoc.
Qed.

Lemma strip_space_head v : strip (String " " v) = strip v.
Proof. reflexivity. Qed.

(** A text with a character that is not a blank is not blank. *)
Lemma not_blank_char c s : isspace c = false -> has_char c s -> ~ blank s.
Proof.
  intros C H B. unfold blank in B.
  destruct (strip_trimmed s) as [(l & r & E & L & R) _].
  rewrite B in E. simpl in E. subst s.
  apply has_char_app in H. unfold all_space in L, R.
  destruct H as [H|H].
  - exact (all_space_has_char c l C L H).
  - exact (all_space_has_char c r C R H).
Qed.

(** Cutting at a character that is not a blank, before or after
    trimming: the same cut, with the outer blanks gone. *)
Lemma split_at_strip c s :
  isspace c = false ->
  split_at (String c "") (strip s)
  = match split_at (String c "") s with
    | Some (a, b) => Some (lstrip_by isspace a, rstrip_by isspace b)
    | None => None
    end.
Proof.
  intro C. destruct (split_at (String c "") s) as [[a b]|] eqn:E.
  - pose proof (split_at_cut _ _ _ _ E) as F.
    assert (Na : ~ has_char c a).
    { apply (first_cut_clean (String c "") s a b); [discriminate|exact F]. }
    destruct F as [-> _]. unfold strip.
    change (a ++ String c "" ++ b) with (a ++ String c b).
    rewrite lstrip_by_app by exact C.
    rewrite rstrip_by_app.
    + rewrite rstrip_by_cons by exact C.
      apply (split_at_app c "" (lstrip_by isspace a) (rstrip_by isspace b)).
      intro H. apply Na. destruct (lstrip_by_suffix isspace a) as (l & El).
      rewrite El. apply has_char_app. now right.
    + rewrite rstrip_by_cons by exact C. discriminate.
  - apply split_at_absent. intro H. apply occurs_strip in H.
    now apply split_at_none in E.
Qed.

End TextFacts.

(* ================================================================= *)
(** ** The header parsers *)

Module HeaderParse.
Import Spec Wire PyStrFacts TextFacts ParserFacts.

Lemma colon_not_space : isspace ":" = false.
Proof. reflexivity. Qed.

Lemma header_lines_agree lines :
  Csv.header_lines lines = Xml.header_lines lines.
Proof.
  induction lines as [|line rest IH]; [reflexivity|].
  cbn [Csv.header_lines Xml.header_lines].
  destruct (negb (truthy (strip line))); [reflexivity|].
  rewrite (split_at_strip ":" line colon_not_space).
  unfold contains. cbn [split_max].
  destruct (split_at ":" line) as [[a b]|]; [|exact IH].
  now rewrite strip_lstrip, strip_rstrip, IH.
Qed.

Lemma parse_headers_agree text :
  Csv.parse_http_headers text = Xml.parse_headers text.
Proof.
  rewrite xml_parse_headers_crlf_only.
  unfold Csv.parse_http_headers. destruct (truthy text) eqn:T; cbn [negb].
  - apply header_lines_agree.
  - apply truthy_false in T. now subst.
Qed.

(** X1 (convert_csv.py parse_http_headers, convert_xml.py parse_headers):
    the two header parsers are the same function: on every text they
    return the same header list. *)
Theorem X1_header_parsers_agree :
  forall text, Csv.parse_http_headers text = Xml.parse_headers text.
Proof. exact parse_headers_agree. Qed.

Lemma csv_header_block lines : header_block lines (Csv.header_lines lines).
Proof.
  induction lines as [|line rest IH]; [constructor|].
  cbn [Csv.header_lines].
  destruct (negb (truthy (strip line))) eqn:B.
  - apply hb_blank. now apply blank_dec.
  - assert (NB : ~ blank line).
    { intro H. apply blank_dec in H. congruence. }
    unfold contains. cbn [split_max].
    destruct (split_at ":" line) as [[a b]|] eqn:E.
    + eapply hb_header; eauto using split_at_cut; apply strip_trimmed.
    + apply hb_plain; auto. now apply split_at_none.
Qed.

(** X2 (parse_http_headers, parse_headers): the headers are read from the
    CRLF-separated lines after the start line, in order; reading stops at
    the first blank line; a line without ':' is passed over; a line with
    one gives the trimmed text before its first ':' as name and the
    trimmed rest as value. *)
Theorem X2_header_block :
  forall text,
    header_block (tl (split CRLF text)) (Xml.parse_headers text) /\
    header_block (tl (split CRLF text)) (Csv.parse_http_headers text).
Proof.
  intro text. rewrite parse_headers_agree.
  rewrite xml_parse_headers_crlf_only, <- header_lines_agree.
  split; apply csv_header_block.
Qed.

Lemma csv_header_lines_clean lines :
  Forall clean_header (Csv.header_lines lines).
Proof.
  induction lines as [|line rest IH]; [constructor|].
  cbn [Csv.header_lines].
  destruct (negb (truthy (strip line))); [constructor|].
  unfold contains. cbn [split_max].
  destruct (split_at ":" line) as [[a b]|] eqn:E; [|exact IH].
  constructor; [|exact IH].
  unfold clean_header, is_trimmed. cbn [name value].
  rewrite !strip_idem. repeat split.
  intro H. apply has_char_strip in H.
  apply split_at_cut in E.
  now apply (first_cut_clean ":" line a b ltac:(discriminate) E).
Qed.

(** X3 (parse_http_headers, parse_headers): every header the parsers
    return has a name and a value without blanks at either end, and a
    name without ':'. *)
Theorem X3_parsed_headers_clean :
  forall text,
    Forall clean_header (Csv.parse_http_headers text) /\
    Forall clean_header (Xml.parse_headers text).
Proof.
  intro text. rewrite <- parse_headers_agree.
  assert (Forall clean_header (Csv.parse_http_headers text)).
  { unfold Csv.parse_http_headers. destruct (negb (truthy text));
      [constructor|apply csv_header_lines_clean]. }
  now split.
Qed.

Lemma strip_space v : strip (String " " v) = strip v.
Proof. reflexivity. Qed.

Lemma header_line_parsed h rest :
  wire_header h ->
  Csv.header_lines (header_line h :: rest) = h :: Csv.header_lines rest.
Proof.
  intros (Tn & Tv & Nc & _ & _). cbn [Csv.header_lines].
  assert (C : has_char ":" (header_line h)).
  { unfold header_line. apply has_char_app. right.
    apply has_char_cons. now left. }
  assert (B : negb (truthy (strip (header_line h))) = false).
  { apply not_true_iff_false. intro B. apply blank_dec in B.
    exact (not_blank_char ":" _ colon_not_space C B). }
  rewrite B. unfold contains. cbn [split_max].
  change (header_line h)
    with (name h ++ String ":" "" ++ (String " " (value h))).
  rewrite (split_at_app ":" "" (name h) _ Nc).
  rewrite strip_space. unfold is_trimmed in Tn, Tv. rewrite Tn, Tv.
  now destruct h.
Qed.

Lemma header_line_no_cr h : wire_header h -> ~ has_char CR (header_line h).
Proof.
  intros (_ & _ & _ & Cn & Cv) H. unfold header_line in H.
  apply has_char_app in H. destruct H as [H|H]; [now apply Cn|].
  apply has_char_cons in H. destruct H as [H|H]; [discriminate|].
  apply has_char_cons in H. destruct H as [H|H]; [discriminate|].
  now apply Cv.
Qed.

Lemma split_crlf_cons a b :
  ~ has_char CR a -> split CRLF (a ++ CRLF ++ b) = a :: split CRLF b.
Proof. exact (split_cons CR (String NL "") a b). Qed.

Lemma header_text_parsed body hs :
  Forall wire_header hs ->
  Csv.header_lines (split CRLF (header_text hs ++ CRLF ++ body)) = hs.
Proof.
  induction 1 as [|h hs W _ IH].
  - cbn [header_text].
    rewrite split_crlf_cons by apply has_char_empty. reflexivity.
  - cbn [header_text]. rewrite !app_assoc.
    rewrite split_crlf_cons by now apply header_line_no_cr.
    rewrite header_line_parsed by exact W. now rewrite IH.
Qed.

(** X4 (parse_http_headers, parse_headers): round trip.  A message written
    as start line, header lines "name: value" and a blank line, all ended
    by CRLF, followed by any body, is parsed back into exactly its
    headers, in order, provided names and values are trimmed and contain
    no carriage return, names contain no ':', and the start line contains
    no carriage return. *)
Theorem X4_headers_round_trip :
  forall start hs body,
    ~ has_char CR start -> Forall wire_header hs ->
    Csv.parse_http_headers (message start hs body) = hs /\
    Xml.parse_headers (message start hs body) = hs.
Proof.
  intros start hs body S W. rewrite <- parse_headers_agree.
  assert (Csv.parse_http_headers (message start hs body) = hs).
  { unfold Csv.parse_http_headers, message.
    assert (T : truthy (start ++ CRLF ++ header_text hs ++ CRLF ++ body) = true).
    { apply truthy_true. destruct start; discriminate. }
    rewrite T. cbn [negb].
    rewrite split_crlf_cons by exact S. cbn [tl].
    now apply header_text_parsed. }
  now split.
Qed.

Lemma X4_witness :
  Csv.parse_http_headers
    (message "GET /x HTTP/1.1" SampleX.two_headers "a=1")
  = SampleX.two_headers /\
  Xml.parse_headers (message "GET /x HTTP/1.1" SampleX.two_headers "a=1")
  = SampleX.two_headers.
Proof.
  apply X4_headers_round_trip.
  - intro H. apply contains_occurs in H. vm_compute in H. discriminate.
  - repeat constructor; try (vm_compute; reflexivity);
      intro H; apply contains_occurs in H; vm_compute in H; discriminate.
Defined.

End HeaderParse.

(* ================================================================= *)
(** ** Request cookies and query parameters *)

Module CookieQuery.
Import Spec Wire PyStrFacts TextFacts ParserFacts HeaderFacts.

Lemma equals_not_space : isspace "=" = false.
Proof. reflexivity. Qed.

Lemma cookie_pieces_agree pieces :
  Xml.cookie_pieces pieces = Csv.cookie_parts pieces.
Proof.
  induction pieces as [|piece rest IH]; [reflexivity|].
  cbn [Xml.cookie_pieces Csv.cookie_parts].
  rewrite (split_at_strip "=" piece equals_not_space).
  destruct (split_at "=" piece) as [[a b]|]; [|exact IH].
  now rewrite strip_lstrip, strip_rstrip, IH.
Qed.

(** X5 (convert_xml.py parse_cookies, convert_csv.py
    parse_cookies_from_headers): on a header list without a Set-Cookie
    header - a request - the two cookie extractors return the same
    cookies. *)
Theorem X5_request_cookies_agree :
  forall headers,
    none_named "Set-Cookie" headers ->
    Csv.parse_cookies_from_headers headers = Xml.parse_cookies headers.
Proof.
  induction 1 as [|h hs N _ IH]; [reflexivity|].
  unfold Csv.parse_cookies_from_headers, Xml.parse_cookies. cbn [flat_map].
  fold (Csv.parse_cookies_from_headers hs). fold (Xml.parse_cookies hs).
  rewrite IH. f_equal. unfold in_list. cbn [existsb].
  apply named_false in N.
  change (lower "Set-Cookie") with "set-cookie" in N. rewrite N.
  rewrite orb_false_r. rewrite cookie_pieces_agree.
  reflexivity.
Qed.

Lemma X5_witness :
  Csv.parse_cookies_from_headers SampleX.cookie_headers
  = Xml.parse_cookies SampleX.cookie_headers.
Proof.
  apply X5_request_cookies_agree.
  repeat constructor; unfold same_name; vm_compute; discriminate.
Defined.

Lemma split_semicolon_cons a b :
  ~ has_char ";" a -> split ";" (a ++ ";" ++ b) = a :: split ";" b.
Proof. exact (split_cons ";" "" a b). Qed.

Lemma cookie_pair_parsed lead c rest :
  wire_cookie c -> (lead = "" \/ lead = " ") ->
  Csv.cookie_parts ((lead ++ cookie_pair c) :: rest)
  = c :: Csv.cookie_parts rest.
Proof.
  intros (Tn & Tv & Ne & _ & _) L. cbn [Csv.cookie_parts].
  unfold cookie_pair. rewrite <- app_assoc.
  change ((lead ++ name c) ++ "=" ++ value c)
    with ((lead ++ name c) ++ String "=" "" ++ value c).
  rewrite split_at_app.
  - unfold is_trimmed in Tn, Tv. rewrite Tv.
    destruct L as [->| ->]; cbn [append]; rewrite ?strip_space_head, Tn;
      now destruct c.
  - intro H. apply has_char_app in H. destruct H as [H|H]; [|now apply Ne].
    destruct L as [->| ->]; [now apply has_char_empty in H|].
    apply has_char_cons in H. destruct H as [H|H]; [discriminate|].
    now apply has_char_empty in H.
Qed.

Lemma cookie_pair_no_semicolon lead c :
  wire_cookie c -> (lead = "" \/ lead = " ") ->
  ~ has_char ";" (lead ++ cookie_pair c).
Proof.
  intros (_ & _ & _ & Sn & Sv) L H. unfold cookie_pair in H.
  apply has_char_app in H. destruct H as [H|H].
  - destruct L as [->| ->]; [now apply has_char_empty in H|].
    apply has_char_cons in H. destruct H as [H|H]; [discriminate|].
    now apply has_char_empty in H.
  - apply has_char_app in H. destruct H as [H|H]; [now apply Sn|].
    apply has_char_cons in H. destruct H as [H|H]; [discriminate|].
    now apply Sv.
Qed.

Lemma cookie_text_parsed cs :
  Forall wire_cookie cs ->
  forall lead, lead = "" \/ lead = " " ->
  Csv.cookie_parts (split ";" (lead ++ cookie_text cs)) = cs.
Proof.
  induction 1 as [|c cs W F IH]; intros lead L.
  - destruct L as [->| ->]; reflexivity.
  - destruct cs as [|c2 cs].
    + cbn [cookie_text].
      rewrite split_single;
        [|discriminate|
         intro O; apply occurs_has_char in O;
         now apply (cookie_pair_no_semicolon lead c W L)].
      now rewrite cookie_pair_parsed.
    + change (cookie_text (c :: c2 :: cs))
        with (cookie_pair c ++ ";" ++ (" " ++ cookie_text (c2 :: cs))).
      rewrite <- app_assoc.
      rewrite split_semicolon_cons by now apply cookie_pair_no_semicolon.
      rewrite cookie_pair_parsed by assumption.
      now rewrite (IH " ") by auto.
Qed.

(** X6 (parse_cookies, parse_cookies_from_headers): round trip.  A Cookie
    header written as "name=value" pairs separated by "; " is read back as
    exactly those cookies, in order, provided names and values are
    trimmed and contain no ';' and names contain no '='. *)
Theorem X6_cookies_round_trip :
  forall cs,
    Forall wire_cookie cs ->
    Xml.parse_cookies [mkNV "Cookie" (cookie_text cs)] = cs /\
    Csv.parse_cookies_from_headers [mkNV "Cookie" (cookie_text cs)] = cs.
Proof.
  intros cs W.
  assert (E : Csv.cookie_parts (split ";" (cookie_text cs)) = cs)
    by (apply (cookie_text_parsed cs W ""); now left).
  unfold Xml.parse_cookies, Csv.parse_cookies_from_headers.
  cbn [flat_map name value].
  change (lower "Cookie" =? "cookie") with true.
  change (in_list (lower "Cookie") ["cookie"; "set-cookie"]) with true.
  cbv iota. rewrite cookie_pieces_agree, !List.app_nil_r. now rewrite E.
Qed.

Lemma X6_witness :
  Xml.parse_cookies [mkNV "Cookie" (cookie_text SampleX.two_cookies)]
  = SampleX.two_cookies /\
  Csv.parse_cookies_from_headers
    [mkNV "Cookie" (cookie_text SampleX.two_cookies)]
  = SampleX.two_cookies.
Proof.
  apply X6_cookies_round_trip.
  repeat constructor; try (vm_compute; reflexivity);
    intro H; apply contains_occurs in H; vm_compute in H; discriminate.
Defined.

(** *** Query parameters *)

Lemma query_pair_parsed p rest :
  wire_param p ->
  Xml.query_params (cookie_pair p :: rest) = p :: Xml.query_params rest.
Proof.
  intros (Ne & _). cbn [Xml.query_params]. unfold cookie_pair.
  change (name p ++ "=" ++ value p)
    with (name p ++ String "=" "" ++ value p).
  rewrite split_at_app by exact Ne. now destruct p.
Qed.

Lemma query_pair_free c p :
  c <> "="%char -> ~ has_char c (name p) -> ~ has_char c (value p) ->
  ~ has_char c (cookie_pair p).
Proof.
  intros C Nn Nv H. unfold cookie_pair in H.
  apply has_char_app in H. destruct H as [H|H]; [now apply Nn|].
  apply has_char_cons in H. destruct H as [H|H]; [congruence|].
  now apply Nv.
Qed.

Lemma query_text_cons p p2 ps :
  query_text (p :: p2 :: ps) = cookie_pair p ++ "&" ++ query_text (p2 :: ps).
Proof. reflexivity. Qed.

Lemma query_text_free c ps :
  c <> "="%char -> c <> "&"%char ->
  Forall (fun p => ~ has_char c (name p) /\ ~ has_char c (value p)) ps ->
  ~ has_char c (query_text ps).
Proof.
  intros C1 C2. induction 1 as [|p ps [Nn Nv] F IH].
  - apply has_char_empty.
  - destruct ps as [|p2 ps].
    + now apply query_pair_free.
    + rewrite query_text_cons. intro H.
      apply has_char_app in H. destruct H as [H|H];
        [now apply (query_pair_free c p)|].
      apply has_char_cons in H. destruct H as [H|H]; [congruence|].
      now apply IH.
Qed.

Lemma query_text_parsed ps :
  Forall wire_param ps ->
  Xml.query_params (split "&" (query_text ps)) = ps.
Proof.
  induction 1 as [|p ps W F IH]; [reflexivity|].
  assert (A : ~ has_char "&" (cookie_pair p)).
  { destruct W as (_ & An & _ & Av & _). now apply query_pair_free. }
  destruct ps as [|p2 ps].
  - change (query_text [p]) with (cookie_pair p).
    rewrite split_single;
      [|discriminate|intro O; now apply occurs_has_char in O].
    now rewrite query_pair_parsed.
  - rewrite query_text_cons.
    rewrite (split_cons "&" "" (cookie_pair p) _ A).
    rewrite query_pair_parsed by exact W. now rewrite IH.
Qed.

Lemma parse_query_string_cut base query :
  ~ has_char "?" base ->
  Xml.parse_query_string (base ++ "?" ++ query)
  = Xml.query_params
      (split "&" (if contains "#" query then hd "" (split "#" query)
                  else query)).
Proof.
  intro N. unfold Xml.parse_query_string.
  assert (E : split_at "?" (base ++ "?" ++ query) = Some (base, query))
    by exact (split_at_app "?" "" base query N).
  unfold contains at 1. rewrite E. cbn [negb split_max nth]. now rewrite E.
Qed.

(** X7 (convert_xml.py parse_query_string): round trip.  A URL made of a
    base without '?', a '?' and "name=value" pairs joined by '&' is read
    back as exactly those parameters, in order, provided names contain no
    '=' and neither names nor values contain '&' or '#'; a fragment
    appended after '#' changes nothing. *)
Theorem X7_query_round_trip :
  forall base ps frag,
    ~ has_char "?" base -> Forall wire_param ps ->
    Xml.parse_query_string (base ++ "?" ++ query_text ps) = ps /\
    Xml.parse_query_string (base ++ "?" ++ query_text ps ++ "#" ++ frag) = ps.
Proof.
  intros base ps frag N W.
  assert (H : ~ has_char "#" (query_text ps)).
  { apply query_text_free; try discriminate.
    eapply Forall_impl; [|exact W]. intros p (_ & _ & Hn & _ & Hv). auto. }
  split; rewrite parse_query_string_cut by exact N.
  - apply contains_false in H. rewrite H. now apply query_text_parsed.
  - assert (C : contains "#" (query_text ps ++ "#" ++ frag) = true).
    { apply contains_occurs. now exists (query_text ps), frag. }
    rewrite C, hd_split by discriminate.
    rewrite (split_at_app "#" "" (query_text ps) frag H).
    now apply query_text_parsed.
Qed.

Lemma X7_witness :
  Xml.parse_query_string
    ("http://x.test/search" ++ "?" ++ query_text SampleX.two_params)
  = SampleX.two_params /\
  Xml.parse_query_string
    ("http://x.test/search" ++ "?" ++ query_text SampleX.two_params
     ++ "#" ++ "top")
  = SampleX.two_params.
Proof.
  apply X7_query_round_trip.
  - intro H. apply contains_occurs in H. vm_compute in H. discriminate.
  - repeat constructor;
      intro H; apply contains_occurs in H; vm_compute in H; discriminate.
Defined.

Lemma query_params_count pieces :
  List.length (Xml.query_params pieces)
  = List.length (filter truthy pieces).
Proof.
  induction pieces as [|piece rest IH]; [reflexivity|].
  cbn [Xml.query_params filter].
  destruct (split_at "=" piece) as [[a b]|] eqn:E.
  - assert (T : truthy piece = true).
    { apply truthy_true. intros ->. vm_compute in E. discriminate. }
    rewrite T. cbn [List.length]. now rewrite IH.
  - destruct (truthy piece); cbn [List.length]; now rewrite IH.
Qed.

Lemma query_params_names pieces :
  Forall (fun p => ~ has_char "=" (name p)) (Xml.query_params pieces).
Proof.
  induction pieces as [|piece rest IH]; [constructor|].
  cbn [Xml.query_params].
  destruct (split_at "=" piece) as [[a b]|] eqn:E.
  - constructor; [|exact IH]. cbn [name].
    apply split_at_cut in E.
    exact (first_cut_clean "=" piece a b ltac:(discriminate) E).
  - destruct (truthy piece); [|exact IH].
    constructor; [|exact IH]. cbn [name]. now apply split_at_none.
Qed.

(** X8 (convert_xml.py parse_query_string): a URL without '?' has no
    query parameters.  The parameter loop gives one parameter for each
    non-empty '&'-piece - a piece without '=' is kept, with the piece as
    name and an empty value, an empty piece is dropped - and no name
    contains '='. *)
Theorem X8_query_params :
  (forall url, ~ has_char "?" url -> Xml.parse_query_string url = []) /\
  (forall pieces,
     List.length (Xml.query_params pieces)
       = List.length (filter truthy pieces) /\
     Forall (fun p => ~ has_char "=" (name p)) (Xml.query_params pieces)) /\
  (forall piece,
     ~ has_char "=" piece -> piece <> "" ->
     Xml.query_params [piece] = [mkNV piece ""]).
Proof.
  split; [|split].
  - intros url N. unfold Xml.parse_query_string.
    apply contains_false in N. now rewrite N.
  - intro pieces. split; [apply query_params_count|apply query_params_names].
  - intros piece N T. cbn [Xml.query_params].
    rewrite (split_at_absent "=" piece N).
    apply truthy_true in T. now rewrite T.
Qed.

Lemma X8_witness :
  Xml.parse_query_string "http://x.test/path#frag" = [] /\
  Xml.query_params ["debug"] = [mkNV "debug" ""].
Proof.
  split.
  - apply (proj1 X8_query_params).
    intro H. apply contains_occurs in H. vm_compute in H. discriminate.
  - apply (proj2 (proj2 X8_query_params)); [|discriminate].
    intro H. apply contains_occurs in H. vm_compute in H. discriminate.
Defined.

End CookieQuery.

(* ================================================================= *)
(** ** The start lines *)

Module StartLine.
Import Spec Wire PyStrFacts TextFacts ParserFacts.

Lemma space_is_space : isspace " " = true.
Proof. reflexivity. Qed.

Lemma start_line_head text c rest :
  start_line text = String c rest -> isspace c = false.
Proof.
  unfold start_line. intro E.
  destruct (strip_trimmed (hd "" (split CRLF text))) as (_ & H & _).
  exact (H c rest E).
Qed.

Lemma join_cons sep x y l :
  join sep (x :: y :: l) = x ++ sep ++ join sep (y :: l).
Proof. reflexivity. Qed.

Lemma drop_all v : drop (String.length v) v = "".
Proof. induction v; simpl; auto. Qed.

Lemma join_tail v rest :
  token_tail (drop (String.length v) (join " " (v :: rest))).
Proof.
  destruct rest as [|w rest].
  - left. change (join " " [v]) with v. apply drop_all.
  - right. rewrite join_cons, drop_app. eauto.
Qed.

Lemma join_head v rest :
  join " " (v :: rest)
  = v ++ drop (String.length v) (join " " (v :: rest)).
Proof.
  destruct rest as [|w rest].
  - change (join " " [v]) with v. now rewrite drop_all, app_nil_r.
  - now rewrite join_cons, drop_app.
Qed.

Lemma request_line_tokens :
  forall text,
    Xml.parse_http_request text = Xml.no_result \/
    exists method path version tail,
      start_line text = method ++ " " ++ path ++ " " ++ version ++ tail /\
      token_tail tail /\
      method <> "" /\
      ~ has_char " " method /\ ~ has_char " " path /\
      ~ has_char " " version /\
      Xml.parse_http_request text
      = (Some method, Some path, Some version,
         Some (Xml.parse_headers text), Xml.body_of (split CRLF text)).
Proof.
  intro text. unfold Xml.parse_http_request.
  rewrite split_nonempty. cbn [negb]. fold (start_line text).
  pose proof (split_max_clean " " ltac:(discriminate)
                (String.length (start_line text)) (start_line text)
                (le_n _)) as C.
  pose proof (join_split_max " " (String.length (start_line text))
                (start_line text)) as J.
  fold (split " " (start_line text)) in C, J.
  destruct (split " " (start_line text)) as [|m [|p [|v rest]]]; auto.
  right. exists m, p, v, (drop (String.length v) (join " " (v :: rest))).
  inversion C as [|? ? Cm C1]; subst. inversion C1 as [|? ? Cp C2]; subst.
  inversion C2 as [|? ? Cv _]; subst.
  rewrite !join_cons in J.
  split; [now rewrite <- join_head|].
  split; [apply join_tail|].
  split.
  - intros ->. symmetry in J. cbn [append] in J.
    apply start_line_head in J. discriminate.
  - repeat split; auto.
Qed.


(** X9 (convert_xml.py parse_http_request): either every field is the
    no-result sentinel, or the start line is "method path version"
    followed by nothing or by a blank and more: the three tokens contain
    no blank, the method is not empty, the headers are those of
    parse_headers and the body that of the body loop. *)
Theorem X9_request_line :
  forall text,
    Xml.parse_http_request text = Xml.no_result \/
    exists method path version tail,
      start_line text = method ++ " " ++ path ++ " " ++ version ++ tail /\
      token_tail tail /\
      method <> "" /\
      ~ has_char " " method /\ ~ has_char " " path /\
      ~ has_char " " version /\
      Xml.parse_http_request text
      = (Some method, Some path, Some version,
         Some (Xml.parse_headers text), Xml.body_of (split CRLF text)).
Proof. exact request_line_tokens. Qed.

(** X10 (convert_xml.py parse_http_response): the status line is cut at
    its first two blanks.  With fewer than two blanks every field is the
    no-result sentinel.  Otherwise the line is "version code text", where
    version and code contain no blank and text is all the rest, blanks
    included: the parser raises ValueError when code is not an integer
    literal of at most 4300 digits and returns the three parts, the
    headers and the body when it is. *)
Theorem X10_status_line :
  forall text,
    (Xml.parse_http_response text = Ok Xml.no_result /\
     (~ has_char " " (start_line text) \/
      exists a b, start_line text = a ++ " " ++ b /\
                  ~ has_char " " a /\ ~ has_char " " b)) \/
    exists version token status_text,
      start_line text = version ++ " " ++ token ++ " " ++ status_text /\
      ~ has_char " " version /\ ~ has_char " " token /\
      Xml.parse_http_response text
      = match py_int token with
        | Some code =>
            Ok (Some version, Some code, Some status_text,
                Some (Xml.parse_headers text), Xml.body_of (split CRLF text))
        | None => Raise ValueError
        end.
Proof.
  intro text. unfold Xml.parse_http_response.
  rewrite split_nonempty. cbn [negb]. fold (start_line text).
  cbn [split_max].
  destruct (split_at " " (start_line text)) as [[a r1]|] eqn:E1.
  - pose proof (split_at_cut _ _ _ _ E1) as F1.
    pose proof (first_cut_clean " " _ a r1 ltac:(discriminate) F1) as Ca.
    destruct F1 as [Ea _].
    destruct (split_at " " r1) as [[b c]|] eqn:E2.
    + pose proof (split_at_cut _ _ _ _ E2) as F2.
      pose proof (first_cut_clean " " _ b c ltac:(discriminate) F2) as Cb.
      destruct F2 as [Eb _].
      right. exists a, b, c. subst r1.
      split; [exact Ea|]. split; [exact Ca|]. split; [exact Cb|].
      now destruct (py_int b).
    + left. split; [reflexivity|]. right. exists a, r1.
      split; [exact Ea|]. split; [exact Ca|]. now apply split_at_none.
  - left. split; [reflexivity|]. left. now apply split_at_none.
Qed.

(** The two results are not empty statements: a request line and a
    status line that parse. *)
Example request_line_parses :
  Xml.parse_http_request Sample.get_with_body
  = (Some "GET", Some "/x", Some "HTTP/1.1",
     Some [mkNV "Host" "h"], Some "q=1").
Proof. vm_compute. reflexivity. Qed.

Example status_line_keeps_blanks :
  Xml.parse_http_response ("HTTP/1.1 404 Not Found" ++ CRLF ++ CRLF)
  = Ok (Some "HTTP/1.1", Some 404%Z, Some "Not Found", Some [], Some "").
Proof. vm_compute. reflexivity. Qed.

(** The status code may have 4300 digits and no more. *)
Example long_status_code_raises :
  Xml.parse_http_response ("HTTP/1.1 " ++ SampleX.ones 4301 ++ " OK")
  = Raise ValueError /\
  exists code,
    Xml.parse_http_response ("HTTP/1.1 " ++ SampleX.ones 4300 ++ " OK")
    = Ok (Some "HTTP/1.1", Some code, Some "OK", Some [], None).
Proof.
  split; [vm_compute; reflexivity|].
  eexists. vm_compute. reflexivity.
Qed.

End StartLine.

(* ================================================================= *)
(** ** The CSV extractors of version, status text and header size *)

Module CsvExtract.
Import Spec Wire PyStrFacts TextFacts ParserFacts HeaderParse.
Local Open Scope Z_scope.

Lemma first_line_of_crlf fl rest :
  ~ has_char CR fl -> Csv.first_line (fl ++ CRLF ++ rest) = fl.
Proof.
  intro N. unfold Csv.first_line.
  assert (C : contains CRLF (fl ++ CRLF ++ rest) = true)
    by (apply contains_occurs; now exists fl, rest).
  rewrite C. now rewrite split_crlf_cons.
Qed.

Lemma first_line_alone fl :
  ~ has_char CR fl -> ~ has_char NL fl -> Csv.first_line fl = fl.
Proof.
  intros N1 N2. unfold Csv.first_line.
  assert (C : contains CRLF fl = false).
  { apply contains_false. intro O. now apply occurs_has_char in O. }
  rewrite C. rewrite split_single; [reflexivity|discriminate|].
  intro O. now apply occurs_has_char in O.
Qed.

(** X11 (convert_csv.py extract_http_version, extract_status_text): only
    the start line counts.  For a start line without carriage return or
    line feed, whatever follows its CRLF changes neither the version nor
    the status text; and the version is always one of HTTP/2, HTTP/1.0
    and HTTP/1.1. *)
Theorem X11_start_line_decides :
  (forall fl rest,
     ~ has_char CR fl -> ~ has_char NL fl ->
     Csv.extract_http_version (fl ++ CRLF ++ rest)
       = Csv.extract_http_version fl /\
     Csv.extract_status_text (fl ++ CRLF ++ rest)
       = Csv.extract_status_text fl) /\
  (forall raw,
     In (Csv.extract_http_version raw) ["HTTP/2"; "HTTP/1.0"; "HTTP/1.1"]).
Proof.
  split.
  - intros fl rest N1 N2.
    assert (T : truthy (fl ++ CRLF ++ rest) = true)
      by (apply truthy_true; destruct fl; discriminate).
    unfold Csv.extract_http_version, Csv.extract_status_text.
    rewrite T, first_line_of_crlf by exact N1. cbn [negb].
    destruct (truthy fl) eqn:F; cbn [negb].
    + now rewrite first_line_alone.
    + apply truthy_false in F. subst fl. split; reflexivity.
  - intro raw. unfold Csv.extract_http_version.
    destruct (negb (truthy raw)); [simpl; auto|].
    destruct (contains "HTTP/2" _); [simpl; auto|].
    destruct (contains "HTTP/1.0" _); [simpl; auto|].
    destruct (contains "HTTP/1.1" _); simpl; auto.
Qed.

Lemma X11_witness :
  Csv.extract_http_version
    ("HTTP/2 200 OK" ++ CRLF ++ "Via: HTTP/1.0 proxy")
  = Csv.extract_http_version "HTTP/2 200 OK" /\
  Csv.extract_status_text
    ("HTTP/2 200 OK" ++ CRLF ++ "Via: HTTP/1.0 proxy")
  = Csv.extract_status_text "HTTP/2 200 OK".
Proof.
  apply (proj1 X11_start_line_decides);
    intro H; apply contains_occurs in H; vm_compute in H; discriminate.
Defined.

Lemma headers_size_fold hs : forall acc,
  fold_left (fun total h =>
     total + (Z.of_nat (String.length (name h))
              + Z.of_nat (String.length (value h)) + 4)) hs acc
  = acc + Z.of_nat (String.length (header_text hs)).
Proof.
  induction hs as [|h hs IH]; intro acc; cbn [fold_left header_text].
  - simpl. lia.
  - rewrite IH. unfold header_line. rewrite !length_app.
    cbn [String.length CRLF]. lia.
Qed.

(** X12 (convert_csv.py calculate_headers_size): the answer is -1 exactly
    for the empty list; for any other list it is the number of characters
    of the header lines written as "name: value" and CRLF, hence at least
    4 per header and never 0. *)
Theorem X12_headers_size :
  forall hs,
    (Csv.calculate_headers_size hs = -1 <-> hs = []) /\
    (hs <> [] ->
       Csv.calculate_headers_size hs
       = Z.of_nat (String.length (header_text hs))) /\
    (hs <> [] -> 4 * Z.of_nat (List.length hs) <= Csv.calculate_headers_size hs).
Proof.
  intro hs. unfold Csv.calculate_headers_size.
  destruct hs as [|h hs]; cbn [nonempty negb].
  - split; [tauto|]. split; congruence.
  - rewrite headers_size_fold.
    assert (B : 4 * Z.of_nat (List.length (h :: hs))
                <= Z.of_nat (String.length (header_text (h :: hs)))).
    { generalize (h :: hs). intro l. induction l as [|x l IH]; [simpl; lia|].
      cbn [header_text List.length]. unfold header_line.
      rewrite !length_app. cbn [String.length CRLF]. lia. }
    cbn [List.length] in B. split; [|split; intros _; cbn [List.length]; lia].
    split; [lia|discriminate].
Qed.

Lemma X12_witness :
  Csv.calculate_headers_size SampleX.two_headers
  = Z.of_nat (String.length (header_text SampleX.two_headers)).
Proof.
  apply (proj1 (proj2 (X12_headers_size SampleX.two_headers))).
  discriminate.
Defined.

End CsvExtract.

(* ================================================================= *)
(** ** The record loops *)

Module LoopFacts.
Import Spec Wire Flow PyStrFacts TextFacts ParserFacts XmlFacts CsvFacts SkipFacts.

Lemma framed_ret {A} (a : A) : framed (Xml.ret a).
Proof. intro errs. unfold Xml.ret. simpl. now rewrite List.app_nil_r. Qed.

Lemma framed_lift {A} (r : result A) : framed (Xml.lift r).
Proof. intro errs. unfold Xml.lift. simpl. now rewrite List.app_nil_r. Qed.

Lemma framed_bind {A B} (c : Xml.M A) (k : A -> Xml.M B) :
  framed c -> (forall a, framed (k a)) -> framed (Xml.mbind c k).
Proof.
  intros Fc Fk errs. unfold Xml.mbind.
  rewrite (Fc errs). destruct (c []) as [l [a|x]] eqn:C; cbn [fst snd].
  - rewrite (Fk a (errs ++ l)%list), (Fk a l). cbn [fst snd].
    now rewrite List.app_assoc.
  - reflexivity.
Qed.

Lemma framed_decode b64 data : framed (Xml.decode_base64_safe b64 data).
Proof.
  intro errs. unfold Xml.decode_base64_safe.
  destruct (b64 data); simpl; [now rewrite List.app_nil_r|reflexivity].
Qed.

Lemma framed_request_data b64 e : framed (Xml.request_data_of b64 e).
Proof.
  unfold Xml.request_data_of.
  destruct (_ =? "true"); [apply framed_decode|apply framed_ret].
Qed.

Lemma framed_response_data b64 e : framed (Xml.response_data_of b64 e).
Proof.
  unfold Xml.response_data_of.
  destruct e as [r|]; [|apply framed_ret].
  destruct (_ =? "true"); [apply framed_decode|apply framed_ret].
Qed.

Lemma framed_item_body b64 pts now item :
  framed (Xml.item_body b64 pts now item).
Proof.
  unfold Xml.item_body.
  destruct (Xml.find "url" item) as [u|]; [|apply framed_ret].
  destruct (Xml.find "request" item) as [r|]; [|apply framed_ret].
  destruct (negb (truthy (Xml.text_or (Some u) ""))); [apply framed_ret|].
  apply framed_bind; [apply framed_request_data|intro rd].
  apply framed_bind; [apply framed_lift|intro ro].
  apply framed_bind; [apply framed_response_data|intro sd].
  apply framed_bind; [apply framed_lift|intro so].
  apply framed_ret.
Qed.

Section XmlLoop.

Variable b64decode_utf8 : string -> option string.
Variable parse_timestamp : option string -> string.
Variable now_iso : string.

Local Abbreviation item_body :=
  (Xml.item_body b64decode_utf8 parse_timestamp now_iso).
Local Abbreviation step := (Xml.step b64decode_utf8 parse_timestamp now_iso).
Local Abbreviation loop := (Xml.loop b64decode_utf8 parse_timestamp now_iso).
Local Abbreviation entry_of :=
  (Flow.entry_of b64decode_utf8 parse_timestamp now_iso).
Local Abbreviation log_of :=
  (Flow.log_of b64decode_utf8 parse_timestamp now_iso).
Local Abbreviation logs := (Flow.logs b64decode_utf8 parse_timestamp now_iso).

Lemma step_alone idx item c :
  step idx item c
  = Xml.mkConverter (Xml.entries c ++ entry_of item) (Xml.total_items c)
      (Xml.entries_created c + List.length (entry_of item))
      (Xml.errors c ++ log_of idx item).
Proof.
  unfold Xml.step, Flow.entry_of, Flow.log_of.
  rewrite (framed_item_body b64decode_utf8 parse_timestamp now_iso item
             (Xml.errors c)).
  destruct (item_body item []) as [l [[e|]|x]]; cbn [fst snd List.length];
    rewrite ?List.app_nil_r, ?Nat.add_0_r, ?Nat.add_1_r, ?List.app_assoc;
    reflexivity.
Qed.

Lemma loop_alone items : forall idx c,
  loop idx items c
  = Xml.mkConverter (Xml.entries c ++ flat_map entry_of items)
      (Xml.total_items c)
      (Xml.entries_created c + List.length (flat_map entry_of items))
      (Xml.errors c ++ logs idx items).
Proof.
  induction items as [|item rest IH]; intros idx c.
  - simpl. rewrite !List.app_nil_r, Nat.add_0_r. now destruct c.
  - cbn [Xml.loop flat_map Flow.logs]. rewrite IH, step_alone.
    cbn [Xml.entries Xml.total_items Xml.entries_created Xml.errors].
    rewrite List.length_app, !List.app_assoc, Nat.add_assoc. reflexivity.
Qed.

End XmlLoop.

(** X13 (convert_xml.py parse_xml_file): what a run leaves in a fresh
    converter.  The entries are those the items give one by one, in item
    order, an item's entry being independent of the items before it;
    entries_created is the number of entries, total_items the number of
    items, and the error list is the items' messages in order. *)
Theorem X13_xml_run :
  forall b64 pts now items,
    Xml.parse_xml_file b64 pts now items Xml.init
    = Xml.mkConverter (flat_map (Flow.entry_of b64 pts now) items)
        (List.length items)
        (List.length (flat_map (Flow.entry_of b64 pts now) items))
        (Flow.logs b64 pts now 1 items).
Proof.
  intros. unfold Xml.parse_xml_file. now rewrite loop_alone.
Qed.

Lemma entry_of_short b64 pts now item :
  List.length (Flow.entry_of b64 pts now item) <= 1.
Proof.
  unfold Flow.entry_of. destruct (snd _) as [[e|]|x]; simpl; lia.
Qed.

Lemma entries_short b64 pts now items :
  List.length (flat_map (Flow.entry_of b64 pts now) items)
  <= List.length items.
Proof.
  induction items as [|item rest IH]; [simpl; lia|].
  cbn [flat_map List.length]. rewrite List.length_app.
  pose proof (entry_of_short b64 pts now item). lia.
Qed.

(** X14 (parse_xml_file): a run never creates more entries than there
    are items, and adding items at the end leaves the entries already
    made in place. *)
Theorem X14_xml_entries_monotone :
  forall b64 pts now items more,
    Xml.entries_created (Xml.parse_xml_file b64 pts now items Xml.init)
      <= List.length items /\
    Xml.entries (Xml.parse_xml_file b64 pts now (items ++ more) Xml.init)
    = (Xml.entries (Xml.parse_xml_file b64 pts now items Xml.init)
       ++ flat_map (Flow.entry_of b64 pts now) more)%list.
Proof.
  intros. unfold Xml.parse_xml_file. rewrite !loop_alone.
  unfold Xml.init. cbn [Xml.entries Xml.entries_created app Nat.add].
  split; [apply entries_short|now rewrite flat_map_app].
Qed.

Section CsvLoop.

Variable b64decode_utf8 : string -> option string.
Variable query_of_url : string -> list NV.
Variable now_iso : string.
Variable preserve_all_data : bool.

Local Abbreviation cstep :=
  (Csv.step b64decode_utf8 query_of_url now_iso preserve_all_data).
Local Abbreviation row_entry :=
  (Flow.row_entry b64decode_utf8 query_of_url now_iso preserve_all_data).

Lemma csv_fold rows : forall st,
  let st' := fold_left cstep rows st in
  Csv.written st' = (Csv.written st ++ flat_map row_entry rows)%list /\
  Csv.processed_count st'
    = Csv.processed_count st + List.length (flat_map row_entry rows) /\
  Csv.processed_count st' + Csv.error_count st'
    = Csv.processed_count st + Csv.error_count st + List.length rows.
Proof.
  induction rows as [|row rest IH]; intro st; cbn [fold_left flat_map].
  - cbn zeta. rewrite List.app_nil_r. cbn [List.length]. repeat split; lia.
  - destruct (IH (cstep st row)) as (W & P & T). cbn zeta in *.
    rewrite T, W, P. unfold Csv.step, Flow.row_entry.
    destruct (Csv.convert_row _ _ _ _ row) as [e|x];
      cbn [Csv.written Csv.processed_count Csv.error_count List.length app];
      rewrite ?List.length_app, <- ?List.app_assoc; cbn [List.length app];
      (split; [reflexivity|split; lia]).
Qed.

End CsvLoop.

(** X15 (convert_csv.py convert_csv_to_har_stream): the entries written
    are those of the rows that convert, in row order; processed_count is
    their number, and processed_count plus error_count is the number of
    rows: every row is either written or counted as an error. *)
Theorem X15_csv_run :
  forall b64 q now keep rows,
    let st := Csv.convert_csv_to_har_stream b64 q now keep rows in
    Csv.written st = flat_map (Flow.row_entry b64 q now keep) rows /\
    Csv.processed_count st = List.length (Csv.written st) /\
    Csv.processed_count st + Csv.error_count st = List.length rows.
Proof.
  intros. unfold st, Csv.convert_csv_to_har_stream.
  destruct (csv_fold b64 q now keep rows (Csv.mkStream [] 0 0)) as (W & P & T).
  cbn zeta in *. cbn [Csv.written Csv.processed_count Csv.error_count] in *.
  rewrite W. cbn [app]. repeat split; lia.
Qed.

End LoopFacts.

(* ================================================================= *)
(** ** Rows that fail *)

Module RowFacts.
Import Spec Wire Flow PyStrFacts TextFacts ParserFacts CsvFacts.

Lemma get_missing row k d :
  Csv.get row k (Some d) = None <-> missing row k.
Proof.
  unfold Csv.get, missing. destruct (Csv.lookup k row) as [[v|]|];
    split; congruence.
Qed.

Lemma get_present row k d v :
  Csv.get row k (Some d) = Some v -> ~ missing row k.
Proof. intros E M. apply (get_missing row k d) in M. congruence. Qed.

(** X16 (convert_csv.py, the row loop): a row fails exactly when one of
    the cells the loop trims is missing - Method, URL, Redirect URL, IP,
    Connection ID, or MIME type when the response has no Content-Type of
    its own - and the exception is then AttributeError.  A missing
    Request, Response, Status code, Length or Time cell never fails a
    row. *)
Theorem X16_row_failure :
  forall b64 q now keep row x,
    Csv.convert_row b64 q now keep row = Raise x <->
    x = AttributeError /\
    (missing row "Method" \/ missing row "URL" \/
     missing row "Redirect URL" \/ missing row "IP" \/
     missing row "Connection ID" \/
     (missing row "MIME type" /\
      Csv.get_mime_type_from_headers
        (Csv.parse_http_headers (raw_response b64 row)) = "")).
Proof.
  intros b64 q now keep row x. unfold Csv.convert_row, raw_response.
  set (mime := Csv.get_mime_type_from_headers _).
  clearbody mime.
  destruct (Csv.get row "Method" (Some "GET")) as [vm|] eqn:Em.
  2:{ apply get_missing in Em.
      unfold Csv.or_else, strip_of, bind.
      destruct (truthy mime);
        [|destruct (Csv.get row "MIME type" (Some ""))];
        (split; [intros [= <-]; auto|intros [-> _]; reflexivity]). }
  destruct (Csv.get row "URL" (Some "")) as [vu|] eqn:Eu.
  2:{ apply get_missing in Eu.
      unfold Csv.or_else, strip_of, bind.
      destruct (truthy mime);
        [|destruct (Csv.get row "MIME type" (Some ""))];
        destruct (truthy (strip vm));
        (split; [intros [= <-]; auto|intros [-> _]; reflexivity]). }
  destruct (Csv.get row "Redirect URL" (Some "")) as [vr|] eqn:Er.
  2:{ apply get_missing in Er.
      unfold Csv.or_else, strip_of, bind.
      destruct (truthy mime);
        [|destruct (Csv.get row "MIME type" (Some ""))];
        destruct (truthy (strip vm));
        (split; [intros [= <-]; auto 6|intros [-> _]; reflexivity]). }
  destruct (Csv.get row "IP" (Some "")) as [vi|] eqn:Ei.
  2:{ apply get_missing in Ei.
      unfold Csv.or_else, strip_of, bind.
      destruct (truthy mime);
        [|destruct (Csv.get row "MIME type" (Some ""))];
        destruct (truthy (strip vm));
        (split; [intros [= <-]; auto 7|intros [-> _]; reflexivity]). }
  destruct (Csv.get row "Connection ID" (Some "")) as [vc|] eqn:Ec.
  2:{ apply get_missing in Ec.
      unfold Csv.or_else, strip_of, bind.
      destruct (truthy mime);
        [|destruct (Csv.get row "MIME type" (Some ""))];
        destruct (truthy (strip vm));
        (split; [intros [= <-]; auto 8|intros [-> _]; reflexivity]). }
  apply get_present in Em, Eu, Er, Ei, Ec.
  unfold Csv.or_else, strip_of, bind.
  destruct (truthy mime) eqn:Tm.
  - destruct (truthy (strip vm)); (split; [discriminate|]);
      intros (_ & [H|[H|[H|[H|[H|[_ H]]]]]]); try contradiction;
      rewrite H in Tm; discriminate Tm.
  - destruct (Csv.get row "MIME type" (Some "")) as [vt|] eqn:Et.
    + apply get_present in Et.
      destruct (truthy (strip vm)); (split; [discriminate|]);
        intros (_ & [H|[H|[H|[H|[H|[H _]]]]]]); contradiction.
    + apply get_missing in Et. apply truthy_false in Tm.
      split; [intros [= <-]; auto 10|intros [-> _]; reflexivity].
Qed.

(** The short row of the samples fails, and for that reason. *)
Lemma X16_witness :
  Csv.convert_row Sample.b64_reject Sample.no_query Sample.clock true
    Flow.short_row = Raise AttributeError.
Proof.
  apply X16_row_failure. split; [reflexivity|].
  right. left. reflexivity.
Defined.

End RowFacts.

(* ================================================================= *)
(** ** Items: what reaches an entry and what does not *)

Module ItemFacts.
Import Spec Wire Flow PyStrFacts TextFacts ParserFacts XmlFacts EntryFacts
  StartLine LoopFacts HeaderFacts.

Lemma request_parsed_method d m p v h b :
  Xml.parse_http_request d = (m, p, v, Some h, b) ->
  exists method, m = Some method /\ method <> "" /\ ~ has_char " " method.
Proof.
  intro P. destruct (request_line_tokens d) as [N|(m' & p' & v' & t & _ & _ & Nm & Sm & _ & _ & E)].
  - rewrite N in P. discriminate.
  - rewrite E in P. inversion P; subst. eauto.
Qed.

Lemma request_obj_of_method m1 m2 url d r :
  Xml.request_obj_of m1 url d = Ok r -> Xml.request_obj_of m2 url d = Ok r.
Proof.
  intro H. pose proof (request_obj_of_inv _ _ _ _ H)
    as (m & p & v & h & b & P & _).
  destruct (request_parsed_method _ _ _ _ _ _ P) as (method & -> & N & _).
  revert H. unfold Xml.request_obj_of. rewrite P.
  apply truthy_true in N. cbn [Xml.truthy_opt]. now rewrite N.
Qed.

Lemma response_all_or_nothing d v c t h b :
  Xml.parse_http_response d = Ok (v, c, t, h, b) ->
  (c = None -> h = None) /\ (h = None -> c = None /\ b = None).
Proof.
  unfold Xml.parse_http_response. rewrite split_nonempty. cbn [negb].
  destruct (split_max 2 " " _) as [|x [|y [|z l]]];
    try (intros [= <- <- <- <- <-]; split; [reflexivity|split; reflexivity]).
  destruct (py_int y); [|discriminate].
  intros [= <- <- <- <- <-]. split; discriminate.
Qed.

Lemma response_obj_of_status s1 s2 mt d r :
  Xml.response_obj_of s1 mt d = Ok r -> Xml.response_obj_of s2 mt d = Ok r.
Proof.
  unfold Xml.response_obj_of.
  destruct (Xml.parse_http_response d) as [[[[[v c] t] h] b]|x] eqn:P;
    cbn [bind]; [|discriminate].
  destruct c as [c|]; [trivial|].
  destruct (response_all_or_nothing _ _ _ _ _ _ P) as [Hn _].
  rewrite (Hn eq_refl).
  destruct (Xml.status_fallback s1); cbn; discriminate.
Qed.

(** X17 (convert_xml.py parse_xml_file): the method and status elements
    of an item never reach an entry.  If an item yields an entry, every
    item that differs from it only in those two elements yields the same
    entry: the method is always the first token of the request line and
    the status the code of the status line. *)
Theorem X17_method_status_unused :
  forall b64 pts now item item' errs errs' e,
    same_but_method_status item item' ->
    Xml.item_body b64 pts now item errs = (errs', Ok (Some e)) ->
    Xml.item_body b64 pts now item' errs = (errs', Ok (Some e)).
Proof.
  intros b64 pts now item item' errs errs' e S H.
  pose proof (item_body_entry _ _ _ _ _ _ _ H)
    as (u & r & errs1 & rd & sd & Fu & Fr & Tu & RD & RO & SD & SO & _).
  revert H. unfold Xml.item_body.
  rewrite !(S "url"), !(S "request"), !(S "time"), !(S "host"),
    !(S "response"), !(S "mimetype") by discriminate.
  rewrite Fu, Fr, Tu. cbn [negb]. unfold Xml.mbind, Xml.lift, Xml.ret.
  rewrite RD, RO, SD, SO.
  rewrite (request_obj_of_method _ (Xml.find "method" item') _ _ _ RO).
  rewrite (response_obj_of_status _ (Xml.find "status" item') _ _ _ SO).
  trivial.
Qed.

Lemma X17_witness :
  Xml.item_body Sample.b64_reject Sample.stamp Sample.clock
    SampleX.overridden_item []
  = Xml.item_body Sample.b64_reject Sample.stamp Sample.clock
      Sample.plain_item [].
Proof.
  assert (B : exists e, Xml.item_body Sample.b64_reject Sample.stamp
                Sample.clock Sample.plain_item [] = ([], Ok (Some e)))
    by (eexists; lazy; reflexivity).
  destruct B as (e & B). rewrite B.
  apply (X17_method_status_unused _ _ _ Sample.plain_item); [|exact B].
  intros t Nm Ns. unfold SampleX.overridden_item, Xml.find. cbn [List.find].
  cbn [Xml.tag Sample.elem].
  destruct (String.eqb_spec "method" t); [congruence|].
  destruct (String.eqb_spec "status" t); [congruence|].
  reflexivity.
Defined.

(** X18 (parse_xml_file): an item without a response element never
    yields an entry: the empty response text parses to the no-result
    sentinel and the loop then fails on the missing header list. *)
Theorem X18_no_response_no_entry :
  forall b64 pts now item errs e,
    Xml.find "response" item = None ->
    snd (Xml.item_body b64 pts now item errs) <> Ok (Some e).
Proof.
  intros b64 pts now item errs e F H.
  destruct (Xml.item_body b64 pts now item errs) as [errs' r] eqn:B.
  cbn [snd] in H. subst r. apply item_body_entry in B.
  destruct B as (u & r & errs1 & rd & sd & _ & _ & _ & _ & _ & SD & SO & _).
  rewrite F in SD. unfold Xml.response_data_of, Xml.ret in SD.
  inversion SD; subst. apply response_obj_of_inv in SO.
  destruct SO as (v & c & t & h & b & st & P & _).
  vm_compute in P. discriminate.
Qed.

Lemma X18_witness :
  ~ exists e,
      snd (Xml.item_body Sample.b64_reject Sample.stamp Sample.clock
             [Sample.elem "url" "http://x.test/";
              Sample.elem "request" Sample.get_crlf] []) = Ok (Some e).
Proof.
  intros [e H]. revert H. apply X18_no_response_no_entry. reflexivity.
Defined.

(** X19 (parse_xml_file, decode_base64_safe): an item whose request is
    marked base64 and does not decode is logged twice and gives no entry:
    the decoder records its error and hands back the empty text, whose
    parse gives no header list, on which the loop fails with TypeError. *)
Theorem X19_undecodable_request :
  forall b64 pts now idx item u r c,
    Xml.find "url" item = Some u ->
    Xml.text_or (Some u) "" <> "" ->
    Xml.find "request" item = Some r ->
    Xml.attr "base64" (Xml.attrib r) "false" = "true" ->
    b64 (Xml.or_default (Xml.text r) "") = None ->
    Xml.step b64 pts now idx item c
    = Xml.mkConverter (Xml.entries c) (Xml.total_items c)
        (Xml.entries_created c)
        (Xml.errors c
         ++ [Xml.Base64DecodeError; Xml.ItemError idx TypeError]).
Proof.
  intros b64 pts now idx item u r c Fu Tu Fr A D.
  unfold Xml.step, Xml.item_body. rewrite Fu, Fr.
  apply truthy_true in Tu. rewrite Tu. cbn [negb].
  unfold Xml.mbind, Xml.request_data_of, Xml.decode_base64_safe.
  rewrite A, D. change ("true" =? "true") with true.
  cbv beta iota. unfold Xml.lift.
  assert (R : forall m url, Xml.request_obj_of m url "" = Raise TypeError)
    by reflexivity.
  rewrite R. now rewrite <- List.app_assoc.
Qed.

Lemma X19_witness :
  Xml.step Sample.b64_reject Sample.stamp Sample.clock 1
    SampleX.undecodable_item Xml.init
  = Xml.mkConverter [] 0 0
      ([] ++ [Xml.Base64DecodeError; Xml.ItemError 1 TypeError]).
Proof.
  apply (X19_undecodable_request Sample.b64_reject Sample.stamp Sample.clock
           1 SampleX.undecodable_item
           (Sample.elem "url" "http://x.test/")
           (Xml.mkElement "request" (Some "abc") [("base64", "true")])
           Xml.init); try reflexivity.
  vm_compute. discriminate.
Defined.

Lemma utf8_len_bounds s :
  (Z.of_nat (String.length s) <= utf8_len s
   <= 2 * Z.of_nat (String.length s))%Z.
Proof.
  induction s as [|c s IH]; [simpl; lia|].
  cbn [utf8_len String.length]. destruct (code c <? 128)%N; lia.
Qed.

Lemma utf8_len_zero s : utf8_len s = 0%Z <-> s = "".
Proof.
  split; [|now intros ->].
  pose proof (utf8_len_bounds s). destruct s; [reflexivity|].
  cbn [String.length] in *. lia.
Qed.

Lemma item_entry_sound b64 pts now item errs errs' e :
  Xml.item_body b64 pts now item errs = (errs', Ok (Some e)) ->
  sound_entry e.
Proof.
  intro H. apply item_body_entry in H.
  destruct H as (u & r & errs1 & rd & sd & _ & _ & Tu & _ & RO & _ & SO & _).
  pose proof (request_obj_of_inv _ _ _ _ RO) as (m & p & v & h & b & P & Er).
  destruct (request_parsed_method _ _ _ _ _ _ P) as (method & -> & Nm & Sm).
  apply response_obj_of_inv in SO.
  destruct SO as (v' & c & t & h' & b' & st & _ & Es).
  unfold sound_entry. rewrite Er, Es.
  cbn [req_url req_method req_queryString req_cookies req_headers
       resp_cookies resp_headers resp_redirectURL Xml.truthy_opt].
  assert (Tm : truthy method = true) by now apply truthy_true.
  rewrite Tm. cbn [Xml.or_default]. rewrite Tm.
  split; [now apply truthy_true|].
  split.
  - unfold is_trimmed, Xml.text_or.
    destruct (Xml.truthy_opt (Xml.text u)); [apply strip_idem|reflexivity].
  - repeat split; auto.
Qed.

Lemma item_entry_sized b64 pts now item errs errs' e :
  Xml.item_body b64 pts now item errs = (errs', Ok (Some e)) ->
  sized_entry e.
Proof.
  intro H. apply item_body_entry in H.
  destruct H as (u & r & errs1 & rd & sd & _ & _ & _ & _ & RO & _ & SO & _).
  apply request_obj_of_inv in RO. destruct RO as (m & p & v & h & b & _ & Er).
  apply response_obj_of_inv in SO.
  destruct SO as (v' & c & t & h' & b' & st & _ & Es).
  unfold sized_entry. rewrite Er, Es.
  cbn [req_postData req_bodySize resp_bodySize resp_content content_text].
  rewrite !actual_size_utf8.
  split; [|split; [|split]].
  - destruct b as [body|]; cbn [Xml.truthy_opt Xml.or_default].
    + destruct (truthy body) eqn:T.
      * apply truthy_true in T. split; [discriminate|].
        intro Z0. now apply utf8_len_zero in Z0.
      * split; reflexivity.
    + split; reflexivity.
  - intros pd. destruct (Xml.truthy_opt b); [|discriminate].
    now intros [= <-].
  - symmetry. apply utf8_len_zero.
  - exact (proj1 (utf8_len_bounds _)).
Qed.

Lemma run_entries b64 pts now items (P : Xml.Entry -> Prop) :
  (forall item errs errs' e,
     Xml.item_body b64 pts now item errs = (errs', Ok (Some e)) -> P e) ->
  Forall P (Xml.entries (Xml.parse_xml_file b64 pts now items Xml.init)).
Proof.
  intro H. unfold Xml.parse_xml_file. rewrite loop_alone.
  cbn [Xml.entries Xml.init app]. apply Forall_flat_map.
  apply Forall_forall. intros item _. unfold Flow.entry_of.
  destruct (Xml.item_body b64 pts now item []) as [l [[e|]|x]] eqn:B;
    cbn [snd]; constructor; [|constructor].
  eapply H; eauto.
Qed.

(** X20 (parse_xml_file): in every entry of a run the URL is not empty
    and has no blank at either end, the method is not empty and contains
    no blank, the query string is that of the URL, the request cookies
    are those of the request headers, the response cookies those of the
    response headers, and redirectURL is empty. *)
Theorem X20_xml_entries_sound :
  forall b64 pts now items,
    Forall sound_entry
      (Xml.entries (Xml.parse_xml_file b64 pts now items Xml.init)).
Proof.
  intros. apply run_entries. intros item errs errs' e.
  apply item_entry_sound.
Qed.

(** X21 (parse_xml_file): in every entry of a run, the request has no
    postData exactly when its bodySize is 0, and otherwise bodySize is the
    UTF-8 length of the postData text; the response's bodySize is 0
    exactly when its content text is empty, and is never less than the
    number of characters of that text. *)
Theorem X21_xml_entries_sized :
  forall b64 pts now items,
    Forall sized_entry
      (Xml.entries (Xml.parse_xml_file b64 pts now items Xml.init)).
Proof.
  intros. apply run_entries. intros item errs errs' e.
  apply item_entry_sized.
Qed.

Lemma request_type_skip post : forall d,
  none_named "Content-Type" post ->
  fold_left (fun content_type h =>
    if lower (name h) =? "content-type"
    then strip (hd "" (split ";" (value h)))
    else content_type) post d = d.
Proof.
  induction post as [|h post IH]; intros d N; [reflexivity|].
  inversion N as [|? ? Nh Np]; subst. cbn [fold_left].
  apply named_false in Nh.
  change (lower "Content-Type") with "content-type" in Nh. rewrite Nh.
  now apply IH.
Qed.

(** X22 (parse_xml_file, the request Content-Type loop): the MIME type
    given to postData is that of the last header named Content-Type up to
    case - the loop has no break - cut before its first ';' and trimmed;
    without such a header it is application/octet-stream. *)
Theorem X22_request_type_last_wins :
  forall headers,
    (forall pre h post,
       headers = (pre ++ h :: post)%list ->
       same_name (name h) "Content-Type" ->
       none_named "Content-Type" post ->
       exists seg,
         cut_before ";" (value h) seg /\
         trimmed seg (Xml.request_content_type headers)) /\
    (none_named "Content-Type" headers ->
       Xml.request_content_type headers = "application/octet-stream").
Proof.
  intro headers. unfold Xml.request_content_type. split.
  - intros pre h post -> S N. rewrite fold_left_app. cbn [fold_left].
    apply named_true in S.
    change (lower "Content-Type") with "content-type" in S. rewrite S.
    rewrite request_type_skip by exact N.
    exists (hd "" (split ";" (value h))).
    split; [apply hd_split_cut; discriminate|apply strip_trimmed].
  - intro N. now apply request_type_skip.
Qed.

Lemma X22_witness :
  exists seg,
    cut_before ";" "application/json; charset=utf-8" seg /\
    trimmed seg (Xml.request_content_type SampleX.twice_typed).
Proof.
  apply (proj1 (X22_request_type_last_wins SampleX.twice_typed)
           [mkNV "Content-Type" "text/plain"; mkNV "Host" "h"]
           (mkNV "content-type" "application/json; charset=utf-8")
           [mkNV "Accept" "*/*"]).
  - reflexivity.
  - reflexivity.
  - repeat constructor. unfold same_name. vm_compute. discriminate.
Defined.

Example twice_typed_is_json :
  Xml.request_content_type SampleX.twice_typed = "application/json".
Proof. vm_compute. reflexivity. Qed.

End ItemFacts.

(* ================================================================= *)
(** ** Written rows, and the body of a well-formed message *)

Module BuildFacts.
Import Spec Wire Flow PyStrFacts TextFacts ParserFacts CsvFacts HeaderParse
  CsvExtract LoopFacts.

Lemma version_in_range raw :
  In (Csv.extract_http_version raw) ["HTTP/2"; "HTTP/1.0"; "HTTP/1.1"].
Proof.
  unfold Csv.extract_http_version.
  destruct (negb (truthy raw)); [simpl; auto|].
  destruct (contains "HTTP/2" _); [simpl; auto|].
  destruct (contains "HTTP/1.0" _); [simpl; auto|].
  destruct (contains "HTTP/1.1" _); simpl; auto.
Qed.

Lemma strip_of_trimmed v s : strip_of v = Ok s -> is_trimmed s.
Proof.
  destruct v as [x|]; [|discriminate]. intros [= <-]. apply strip_idem.
Qed.

Lemma row_entry_sound b64 q now keep row e :
  Csv.convert_row b64 q now keep row = Ok e -> sound_row_entry e.
Proof.
  intro H. apply convert_row_entry in H.
  destruct H as (mime & m & url & redirect & Em & Eu & Er & Es).
  apply strip_of_trimmed in Em, Eu.
  unfold sound_row_entry. rewrite Er, Es.
  cbn [req_method req_url req_cookies req_headers req_headersSize
       req_httpVersion req_postData req_bodySize resp_cookies resp_headers
       resp_headersSize resp_httpVersion resp_content content_size
       resp_bodySize].
  assert (M : (if truthy m then m else "GET") <> ""
              /\ is_trimmed (if truthy m then m else "GET")).
  { destruct (truthy m) eqn:T; [|split; [discriminate|reflexivity]].
    split; [now apply truthy_true|exact Em]. }
  destruct M as [M1 M2].
  repeat (split; [first [assumption | reflexivity
                        | apply version_in_range]|]).
  split.
  - destruct (truthy (raw_response b64 row)); apply version_in_range.
  - split; [reflexivity|].
    intros pd.
    destruct (truthy (Csv.extract_body (raw_request b64 row))) eqn:T;
      cbn [andb]; [|discriminate].
    destruct (in_list _ body_methods); [|discriminate].
    intros [= <-]. cbn [pd_mimeType pd_text]. split; [|reflexivity].
    destruct (truthy (Csv.get_mime_type_from_headers _)) eqn:Tm;
      [now apply truthy_true|discriminate].
Qed.

(** X23 (convert_csv.py convert_csv_to_har_stream): in every entry
    written, the method is not empty (GET when the column is missing or
    blank) and method and URL have no blank at either end; the cookies
    are those of the headers and headersSize is the estimate over the
    headers, on both sides; both HTTP versions are among HTTP/2, HTTP/1.0
    and HTTP/1.1; content.size equals the response's bodySize; and a
    postData block has a non-empty mimeType and a text whose UTF-8 length
    is the request's bodySize. *)
Theorem X23_csv_entries_sound :
  forall b64 q now keep rows,
    Forall sound_row_entry
      (Csv.written (Csv.convert_csv_to_har_stream b64 q now keep rows)).
Proof.
  intros. unfold Csv.convert_csv_to_har_stream.
  destruct (csv_fold b64 q now keep rows (Csv.mkStream [] 0 0)) as (W & _).
  cbn zeta in W. rewrite W. cbn [Csv.written app].
  apply Forall_flat_map, Forall_forall. intros row _.
  unfold Flow.row_entry.
  destruct (Csv.convert_row b64 q now keep row) as [e|x] eqn:E;
    constructor; [|constructor].
  eapply row_entry_sound; eauto.
Qed.

(** The cut at the first blank-line separator of a line, its CRLF and
    what follows. *)
Lemma split_at_crlf2_line l rest :
  ~ has_char CR l ->
  split_at CRLF2 (l ++ CRLF ++ rest)
  = if prefix CRLF rest then Some (l, drop 2 rest)
    else match split_at CRLF2 rest with
         | Some (a, b) => Some (l ++ CRLF ++ a, b)
         | None => None
         end.
Proof.
  induction l as [|d l IH]; intro N.
  - change ("" ++ CRLF ++ rest) with (String CR (String NL rest)).
    rewrite split_at_eq.
    change (prefix CRLF2 (String CR (String NL rest)))
      with (prefix CRLF rest).
    destruct (prefix CRLF rest); [reflexivity|].
    rewrite (split_at_eq CRLF2 (String NL rest)).
    change (prefix CRLF2 (String NL rest)) with false. cbv iota.
    destruct (split_at CRLF2 rest) as [[a b]|]; reflexivity.
  - assert (D : CR <> d) by (intros <-; apply N, has_char_cons; now left).
    change (String d l ++ CRLF ++ rest) with (String d (l ++ CRLF ++ rest)).
    rewrite split_at_eq. unfold CRLF2 at 1. unfold CRLF at 1.
    cbn [append]. rewrite (prefix_head CR d _ _ D).
    fold CRLF. change (String CR (String NL CRLF)) with CRLF2.
    rewrite IH by (intro H; apply N, has_char_cons; now right).
    destruct (prefix CRLF rest); [reflexivity|].
    destruct (split_at CRLF2 rest) as [[a b]|]; reflexivity.
Qed.

Lemma header_line_starts h rest :
  wire_header h -> prefix CRLF (header_line h ++ rest) = false.
Proof.
  intros (_ & _ & _ & Cn & _). unfold header_line.
  destruct (name h) as [|c n] eqn:E.
  - reflexivity.
  - cbn [append]. apply prefix_head. intros <-. apply Cn.
    apply has_char_cons. now left.
Qed.

Lemma message_body_cut start hs body :
  ~ has_char CR start -> Forall wire_header hs ->
  exists pre, split_at CRLF2 (message start hs body) = Some (pre, body).
Proof.
  intros S W. unfold message. revert start S.
  induction W as [|h hs Wh W IH]; intros start S.
  - rewrite split_at_crlf2_line by exact S. cbn [header_text append].
    rewrite (prefix_app CRLF body). exists start.
    change (CRLF ++ body) with (String CR (String NL body)). reflexivity.
  - rewrite split_at_crlf2_line by exact S.
    cbn [header_text]. rewrite !app_assoc.
    rewrite header_line_starts by exact Wh.
    destruct (IH (header_line h) (header_line_no_cr h Wh)) as (pre & E).
    rewrite <- !app_assoc in E. rewrite !app_assoc in E. rewrite E. eauto.
Qed.

Lemma header_line_not_blank h : wire_header h -> ~ blank (header_line h).
Proof.
  intros _. apply (not_blank_char ":"); [reflexivity|].
  unfold header_line. apply has_char_app. right.
  apply has_char_cons. now left.
Qed.

Lemma message_lines start hs body :
  ~ has_char CR start -> Forall wire_header hs ->
  split CRLF (message start hs body)
  = List.app (start :: map header_line hs) ("" :: split CRLF body).
Proof.
  intros S W. unfold message. rewrite split_crlf_cons by exact S.
  cbn [List.app]. f_equal.
  induction W as [|h hs Wh W IH].
  - cbn [header_text map List.app].
    now rewrite (split_crlf_cons "" body) by apply has_char_empty.
  - cbn [header_text map List.app]. rewrite !app_assoc.
    rewrite split_crlf_cons by now apply header_line_no_cr.
    now rewrite IH.
Qed.

Lemma message_body_of start hs body :
  ~ has_char CR start -> ~ blank start -> Forall wire_header hs ->
  Xml.body_of (split CRLF (message start hs body)) = Some (strip body).
Proof.
  intros S B W. rewrite message_lines by assumption.
  unfold Xml.body_of. rewrite body_lines_after.
  - rewrite split_nonempty. unfold split. now rewrite join_split_max.
  - constructor; [exact B|]. apply Forall_forall. intros l I.
    apply in_map_iff in I. destruct I as (h & <- & I).
    apply header_line_not_blank. rewrite Forall_forall in W. now apply W.
  - reflexivity.
Qed.

(** X24 (convert_csv.py extract_body; convert_xml.py parse_http_request,
    parse_http_response): the body of a well-formed message.  For a
    message written as start line, header lines and an empty line, all
    ended by CRLF, followed by a body, the CSV extract_body returns the
    body verbatim, whatever the body contains, while the XML parsers,
    when they return a result, return the body trimmed of blanks at both
    ends.  It is assumed that the start line is not blank and has no
    carriage return and that the headers are trimmed, free of carriage
    returns and have no ':' in their names. *)
Theorem X24_message_body :
  forall start hs body,
    ~ has_char CR start -> ~ blank start -> Forall wire_header hs ->
    Csv.extract_body (message start hs body) = body /\
    (Xml.parse_http_request (message start hs body) = Xml.no_result \/
     body_slot (Xml.parse_http_request (message start hs body))
     = Some (strip body)) /\
    (forall p, Xml.parse_http_response (message start hs body) = Ok p ->
               p = Xml.no_result \/ body_slot p = Some (strip body)).
Proof.
  intros start hs body S B W. split; [|split].
  - destruct (message_body_cut start hs body S W) as (pre & E).
    unfold Csv.extract_body.
    assert (T : truthy (message start hs body) = true).
    { apply truthy_true. unfold message. destruct start; discriminate. }
    rewrite T. cbn [negb]. fold CRLF2. unfold contains. rewrite E.
    apply (nth1_split_max _ _ _ _ E).
  - destruct (request_body_slot (message start hs body)) as [N|E]; [now left|].
    right. rewrite E. now apply message_body_of.
  - intros p P.
    destruct (response_body_slot (message start hs body))
      as [R|[R|(p' & R & E)]]; rewrite R in P.
    + discriminate.
    + left. congruence.
    + right. injection P as <-. rewrite E. now apply message_body_of.
Qed.

Lemma X24_witness :
  Csv.extract_body
    (message "POST /x HTTP/1.1" SampleX.two_headers " a=1 ") = " a=1 " /\
  body_slot (Xml.parse_http_request
               (message "POST /x HTTP/1.1" SampleX.two_headers " a=1 "))
  = Some "a=1".
Proof.
  destruct (X24_message_body "POST /x HTTP/1.1" SampleX.two_headers " a=1 ")
    as (C & [N|X] & _).
  - intro H. apply contains_occurs in H. vm_compute in H. discriminate.
  - intro H. vm_compute in H. discriminate.
  - repeat constructor; try (vm_compute; reflexivity);
      intro H; apply contains_occurs in H; vm_compute in H; discriminate.
  - vm_compute in N. discriminate.
  - split; [exact C|exact X].
Defined.

End BuildFacts.
